(** * BioSimSpace: force-field dispatch, atom matching and RMSD scoring

    A shallow embedding of [BioSimSpace/Parameters/_parameters.py] and
    [BioSimSpace/Align/_align.py].  Python exceptions are values of an error
    monad, dictionaries that are iterated are association lists in insertion
    order, the force-field registry is a finite map keyed by strings, and the
    routines of Sire, RDKit and the process layer are operations of an
    interface the development is parametrised over. *)

From Stdlib Require Import ZArith QArith Ascii String.
From stdpp Require Import base option list strings gmap sorting.
Local Close Scope Q_scope.


(** ** Python values, exceptions and strings *)

Module Py.

(** The exception classes the two modules raise or let through. *)
Inductive exc_type :=
  | TypeError
  | ValueError
  | KeyError
  | IndexError
  | OverflowError
  | AlignmentError
  | MissingSoftwareError
  | ExternalError.

(** An exception object: its class, its message, and the three attributes
    Python uses to chain exceptions.  [__context__] is set to the exception
    being handled when a [raise] runs inside an [except] block; [from None]
    clears [__cause__] and sets [__suppress_context__]. *)
#[warnings="-register-all"]
Inductive exn :=
  | Exn (ty : exc_type) (msg : string)
        (cause : option exn) (context : option exn) (suppress_context : bool).

Definition exn_type (e : exn) : exc_type :=
  match e with Exn ty _ _ _ _ => ty end.
Definition exn_msg (e : exn) : string :=
  match e with Exn _ msg _ _ _ => msg end.
Definition exn_cause (e : exn) : option exn :=
  match e with Exn _ _ c _ _ => c end.
Definition exn_context (e : exn) : option exn :=
  match e with Exn _ _ _ c _ => c end.
Definition exn_suppress_context (e : exn) : bool :=
  match e with Exn _ _ _ _ b => b end.

(** [raise T(msg)] outside of any handler. *)
Definition new_exn (ty : exc_type) (msg : string) : exn :=
  Exn ty msg None None false.
(** [raise T(msg)] inside [except:] while [e] is being handled. *)
Definition exn_during (e : exn) (ty : exc_type) (msg : string) : exn :=
  Exn ty msg None (Some e) false.
(** [raise T(msg) from None] inside [except:] while [e] is being handled. *)
Definition exn_from_None (e : exn) (ty : exc_type) (msg : string) : exn :=
  Exn ty msg None (Some e) true.

(** The outcome of a call: a value or a raised exception. *)
Inductive result (A : Type) :=
  | Ok (a : A)
  | Raise (e : exn).
Arguments Ok {A} a.
Arguments Raise {A} e.

#[global] Instance result_ret : MRet result := @Ok.
#[global] Instance result_bind : MBind result := λ A B f r,
  match r with Ok a => f a | Raise e => Raise e end.
#[global] Instance result_fmap : FMap result := λ A B f r,
  match r with Ok a => Ok (f a) | Raise e => Raise e end.

(** [l[k]] on a list, for a non-negative index. *)
Definition index {A} (l : list A) (k : nat) : result A :=
  match l !! k with
  | Some x => Ok x
  | None => Raise (new_exn IndexError "list index out of range")
  end.

(** [[f(x) for x in l]] where [f] may raise: the first exception wins. *)
Fixpoint list_comp {A B} (f : A → result B) (l : list A) : result (list B) :=
  match l with
  | [] => Ok []
  | x :: l' => y ← f x; ys ← list_comp f l'; Ok (y :: ys)
  end.

(** *** Strings

    A [str] is held as the bytes of its UTF-8 encoding.  On text that is all
    ASCII, [lower()] and [upper()] map the letters a-z and A-Z and nothing
    else; on other text they follow the Unicode tables of the interpreter,
    which are an interface here. *)

Definition ascii_lower (c : ascii) : ascii :=
  let n := N_of_ascii c in
  if (65 <=? n)%N && (n <=? 90)%N then ascii_of_N (n + 32) else c.

Definition ascii_upper (c : ascii) : ascii :=
  let n := N_of_ascii c in
  if (97 <=? n)%N && (n <=? 122)%N then ascii_of_N (n - 32) else c.

Fixpoint all_chars (p : ascii → bool) (s : string) : bool :=
  match s with
  | EmptyString => true
  | String c s' => p c && all_chars p s'
  end.

(** [s.isascii()]. *)
Definition is_ascii (s : string) : bool :=
  all_chars (λ c, (N_of_ascii c <? 128)%N) s.

(** The case mappings restricted to the ASCII letters. *)
Fixpoint lower_ascii (s : string) : string :=
  match s with
  | EmptyString => EmptyString
  | String c s' => String (ascii_lower c) (lower_ascii s')
  end.

Fixpoint upper_ascii (s : string) : string :=
  match s with
  | EmptyString => EmptyString
  | String c s' => String (ascii_upper c) (upper_ascii s')
  end.

(** [str.lower] and [str.upper] on text that is not all ASCII; a text is held
    as its UTF-8 bytes, so a byte below 128 is an ASCII character and every
    other byte belongs to a character that is not.  The mappings are the
    interpreter's, with what the development uses of them: the case of the
    ASCII letters of the argument does not matter to the result, lowering
    introduces no space, and a lowered text is lowered already. *)
Class Unicode := {
  unicode_lower : string → string;
  unicode_upper : string → string;
  unicode_lower_ascii_case s t :
    lower_ascii s = lower_ascii t → unicode_lower s = unicode_lower t;
  unicode_upper_ascii_case s t :
    lower_ascii s = lower_ascii t → unicode_upper s = unicode_upper t;
  unicode_lower_no_space s :
    all_chars (λ c, negb (Ascii.eqb c " ")) s = true →
    all_chars (λ c, negb (Ascii.eqb c " ")) (unicode_lower s) = true;
  unicode_lower_lowered s :
    (if is_ascii (unicode_lower s) then lower_ascii (unicode_lower s)
     else unicode_lower (unicode_lower s)) = unicode_lower s;
}.

(** [s.lower()] and [s.upper()]. *)
Definition lower `{Unicode} (s : string) : string :=
  if is_ascii s then lower_ascii s else unicode_lower s.

Definition upper `{Unicode} (s : string) : string :=
  if is_ascii s then upper_ascii s else unicode_upper s.

(** [s.replace(old, new)] for a one-character [old]. *)
Fixpoint replace (old : ascii) (new : string) (s : string) : string :=
  match s with
  | EmptyString => EmptyString
  | String c s' =>
      if Ascii.eqb c old then new +:+ replace old new s'
      else String c (replace old new s')
  end.

(** [sep.join(l)]. *)
Fixpoint join (sep : string) (l : list string) : string :=
  match l with
  | [] => ""
  | [x] => x
  | x :: l' => x +:+ sep +:+ join sep l'
  end.

(** [str(l)] for a list of strings, given [repr] on strings. *)
Definition str_list (repr : string → string) (l : list string) : string :=
  "[" +:+ join ", " (repr <$> l) +:+ "]".

(** [s.rfind(c)] for a one-character [c]. *)
Fixpoint rfind (c : ascii) (s : string) : option nat :=
  match s with
  | EmptyString => None
  | String d s' =>
      match rfind c s' with
      | Some i => Some (S i)
      | None => if Ascii.eqb d c then Some 0 else None
      end
  end.

(** [s[:n]] and [s[n:]]. *)
Fixpoint str_take (n : nat) (s : string) : string :=
  match n, s with
  | S n', String c s' => String c (str_take n' s')
  | _, _ => EmptyString
  end.

Fixpoint str_drop (n : nat) (s : string) : string :=
  match n, s with
  | S n', String _ s' => str_drop n' s'
  | _, _ => s
  end.

(** [os.path.basename(p)]: what follows the last slash. *)
Definition basename (p : string) : string :=
  match rfind "/" p with
  | Some i => str_drop (S i) p
  | None => p
  end.

(** [os.path.splitext(p)[0]] for a [p] without directory part: cut at the
    last dot unless only dots precede it. *)
Definition splitext_root (p : string) : string :=
  match rfind "." p with
  | Some i =>
      if all_chars (Ascii.eqb ".") (str_take i p) then p else str_take i p
  | None => p
  end.

(** The ASCII case mapping satisfies the laws of the interface. *)
Lemma lower_ascii_idem (s : string) :
  lower_ascii (lower_ascii s) = lower_ascii s.
Proof.
  induction s as [| c s IH]; simpl; [reflexivity |].
  rewrite IH. f_equal. destruct c as [[] [] [] [] [] [] [] []]; reflexivity.
Qed.

Lemma lower_ascii_no_space (s : string) :
  all_chars (λ c, negb (Ascii.eqb c " ")) s = true →
  all_chars (λ c, negb (Ascii.eqb c " ")) (lower_ascii s) = true.
Proof.
  induction s as [| c s IH]; simpl; [reflexivity |].
  intros [Hc Hs]%andb_prop. rewrite (IH Hs), andb_true_r.
  revert Hc. destruct c as [[] [] [] [] [] [] [] []]; simpl; auto.
Qed.

Lemma lower_ascii_lowered (s : string) :
  (if is_ascii (lower_ascii s) then lower_ascii (lower_ascii s)
   else lower_ascii (lower_ascii s)) = lower_ascii s.
Proof. destruct (is_ascii (lower_ascii s)); apply lower_ascii_idem. Qed.

(** The interface for text whose only cased letters are the ASCII ones. *)
Definition ascii_unicode : Unicode := {|
  unicode_lower := lower_ascii;
  unicode_upper := λ s, upper_ascii (lower_ascii s);
  unicode_lower_ascii_case := λ s t Heq, Heq;
  unicode_upper_ascii_case := λ s t Heq, f_equal upper_ascii Heq;
  unicode_lower_no_space := lower_ascii_no_space;
  unicode_lower_lowered := lower_ascii_lowered;
|}.

End Py.

(** ** Parameterisation: [BioSimSpace/Parameters/_parameters.py] *)

Module Parameters.

(** What the module imports and does not define: the interpreter's case
    mappings, the molecule wrapper, the installation paths probed at import
    time, the Open Force Field data directories with [glob], and the builtins
    [repr] and [int] on strings. *)
Class Env := {
  env_unicode :: Py.Unicode;
  Molecule : Type;
  PropMap : Type;
  _amber_home : option string;
  _gmx_exe : option string;
  _gromacs_path : option string;
  _openff_dirs : list string;
  glob : string → list string;
  repr_str : string → string;
  int_of_str : string → Py.result Z;
}.

(** A Python float: a finite value (every finite double is a rational), an
    infinity or a NaN. *)
Inductive pyfloat :=
  | Finite (q : Q)
  | Inf (negative : bool)
  | NaN.

(** The values a caller can pass as [net_charge].  The [Charge] class is not
    part of this module; its [magnitude()] is the float it stores.  An
    arbitrary other object is described by what [int] makes of it. *)
Inductive pyval :=
  | PyNone
  | PyInt (z : Z)
  | PyBool (b : bool)
  | PyFloat (f : pyfloat)
  | PyStr (s : string)
  | PyCharge (magnitude : pyfloat)
  | PyObject (as_int : option Z).

(** [x % 1 != 0] on a float: false exactly on the integer-valued finite
    floats (the remainder of an infinity or a NaN is a NaN, and [nan != 0]). *)
Definition float_mod1_nonzero (f : pyfloat) : bool :=
  match f with
  | Finite q => negb (Qnum q mod Z.pos (Qden q) =? 0)%Z
  | Inf _ => true
  | NaN => true
  end.

(** A float is integer valued when it is finite and equal to an integer. *)
Definition integer_valued (f : pyfloat) : Prop :=
  ∃ q z, f = Finite q ∧ (q == inject_Z z)%Q.

(** The values that reach [int] unchanged and untested: everything but
    [None], a float and a [Charge]. *)
Definition plain_value (v : pyval) : Prop :=
  v ≠ PyNone ∧ (∀ f, v ≠ PyFloat f) ∧ (∀ f, v ≠ PyCharge f).

(** Two characters that differ at most in the case of an ASCII letter. *)
Definition same_letter (c d : ascii) : Prop :=
  c = d ∨ d = Py.ascii_upper c ∨ d = Py.ascii_lower c.

(** Two names that differ only in the case of their ASCII letters and in
    spaces put anywhere inside them. *)
Inductive same_name : string → string → Prop :=
  | same_name_nil : same_name "" ""
  | same_name_space_l s t : same_name s t → same_name (String " " s) t
  | same_name_space_r s t : same_name s t → same_name s (String " " t)
  | same_name_letter c d s t :
      same_letter c d → same_name s t → same_name (String c s) (String d t).

(** The dispatcher's normal form of a name: spaces removed, lower case. *)
Definition normalise `{Py.Unicode} (forcefield : string) : string :=
  Py.lower (Py.replace " " "" forcefield).

(** [sub] occurs in [s]. *)
Definition occurs_in (sub s : string) : Prop :=
  ∃ pre post, s = pre +:+ sub +:+ post.

Section Definitions.
Context `{Env}.

(** [int(x)]. *)
Definition py_int (x : pyval) : Py.result Z :=
  match x with
  | PyInt z => Py.Ok z
  | PyBool b => Py.Ok (if b then 1 else 0)%Z
  | PyFloat (Finite q) => Py.Ok (Z.quot (Qnum q) (Z.pos (Qden q)))
  | PyFloat (Inf _) =>
      Py.Raise (Py.new_exn Py.OverflowError "cannot convert float infinity to integer")
  | PyFloat NaN =>
      Py.Raise (Py.new_exn Py.ValueError "cannot convert float NaN to integer")
  | PyStr s => int_of_str s
  | PyObject (Some z) => Py.Ok z
  | PyNone | PyCharge _ | PyObject None =>
      Py.Raise (Py.new_exn Py.TypeError "int() argument must be a string, a bytes-like object or a real number")
  end.

(** The protocol records of [Parameters.Protocol]. *)
Inductive Protocol :=
  | FF99 (property_map : PropMap)
  | FF99SB (property_map : PropMap)
  | FF99SBILDN (property_map : PropMap)
  | FF03 (property_map : PropMap)
  | FF14SB (property_map : PropMap)
  | GAFF (net_charge : option Z) (property_map : PropMap)
  | GAFF2 (net_charge : option Z) (property_map : PropMap).

(** The handle [_Process(molecule, protocol, work_dir=..., auto_start=...)]
    constructs; with [auto_start] the background thread is started by the
    constructor. *)
Record Process := _Process {
  proc_molecule : Molecule;
  proc_protocol : Protocol;
  proc_work_dir : option string;
  proc_auto_start : bool;
}.

(** What a parameterisation function hands back. *)
Inductive pyret :=
  | RetProcess (p : Process)
  | RetNone.

(** A call prints lines and then returns or raises. *)
Definition outcome : Type := list string * Py.result pyret.
Definition ffunc : Type := Molecule → option string → PropMap → outcome.

Definition amber_or_gromacs_missing : bool :=
  match _amber_home, _gmx_exe, _gromacs_path with
  | None, None, _ | None, _, None => true
  | _, _, _ => false
  end.

Definition ff99 (molecule : Molecule) (work_dir : option string)
    (property_map : PropMap) : outcome :=
  ([], if amber_or_gromacs_missing then
         Py.Raise (Py.new_exn Py.MissingSoftwareError
           "'BioSimSpace.Parameters.ff99' is not supported. Please install AMBER (http://ambermd.org) or GROMACS (http://www.gromacs.org).")
       else
         let protocol := FF99 property_map in
         Py.Ok (RetProcess (_Process molecule protocol work_dir true))).

Definition ff99SB (molecule : Molecule) (work_dir : option string)
    (property_map : PropMap) : outcome :=
  ([], if amber_or_gromacs_missing then
         Py.Raise (Py.new_exn Py.MissingSoftwareError
           "'BioSimSpace.Parameters.ff99SB' is not supported. Please install AMBER (http://ambermd.org) or GROMACS (http://www.gromacs.org).")
       else
         let protocol := FF99SB property_map in
         Py.Ok (RetProcess (_Process molecule protocol work_dir true))).

Definition ff99SBildn (molecule : Molecule) (work_dir : option string)
    (property_map : PropMap) : outcome :=
  ([], if amber_or_gromacs_missing then
         Py.Raise (Py.new_exn Py.MissingSoftwareError
           "'BioSimSpace.Parameters.ff99SBildn' is not supported. Please install AMBER (http://ambermd.org) or GROMACS (http://www.gromacs.org).")
       else
         let protocol := FF99SBILDN property_map in
         Py.Ok (RetProcess (_Process molecule protocol work_dir true))).

Definition ff03 (molecule : Molecule) (work_dir : option string)
    (property_map : PropMap) : outcome :=
  ([], if amber_or_gromacs_missing then
         Py.Raise (Py.new_exn Py.MissingSoftwareError
           "'BioSimSpace.Parameters.ff03' is not supported. Please install AMBER (http://ambermd.org) or GROMACS (http://www.gromacs.org).")
       else
         let protocol := FF03 property_map in
         Py.Ok (RetProcess (_Process molecule protocol work_dir true))).

Definition ff14SB (molecule : Molecule) (work_dir : option string)
    (property_map : PropMap) : outcome :=
  ([], match _amber_home with
       | None =>
           Py.Raise (Py.new_exn Py.MissingSoftwareError
             "'BioSimSpace.Parameters.ff14SB' is not supported. Please install AMBER (http://ambermd.org).")
       | Some _ =>
           let protocol := FF14SB property_map in
           Py.Ok (RetProcess (_Process molecule protocol work_dir true))
       end).

(** The [net_charge] block of [gaff]: [None] is left alone; a [Charge] is
    replaced by its magnitude, a float must pass [% 1], and the value goes
    through [int] under a bare [except]. *)
Definition gaff_net_charge (net_charge : pyval) : Py.result (option Z) :=
  match net_charge with
  | PyNone => Py.Ok None
  | _ =>
      let net_charge :=
        match net_charge with
        | PyCharge magnitude => PyFloat magnitude
        | _ => net_charge
        end in
      _ ← match net_charge with
          | PyFloat f =>
              if float_mod1_nonzero f then
                Py.Raise (Py.new_exn Py.ValueError "'net_charge' must be integer valued.")
              else Py.Ok ()
          | _ => Py.Ok ()
          end;
      match py_int net_charge with
      | Py.Ok z => Py.Ok (Some z)
      | Py.Raise e =>
          Py.Raise (Py.exn_during e Py.TypeError
            "'net_charge' must be of type 'int', or `BioSimSpace.Types.Charge'")
      end
  end.

Definition gaff (molecule : Molecule) (work_dir : option string)
    (net_charge : pyval) (property_map : PropMap) : outcome :=
  ([], match _amber_home with
       | None =>
           Py.Raise (Py.new_exn Py.MissingSoftwareError
             "'BioSimSpace.Parameters.gaff' is not supported. Please install AMBER (http://ambermd.org).")
       | Some _ =>
           net_charge ← gaff_net_charge net_charge;
           let protocol := GAFF net_charge property_map in
           Py.Ok (RetProcess (_Process molecule protocol work_dir true))
       end).

(** The same block in [gaff2], which tests [% 1] once more on the integer
    that [int] returned. *)
Definition gaff2_net_charge (net_charge : pyval) : Py.result (option Z) :=
  match net_charge with
  | PyNone => Py.Ok None
  | _ =>
      let net_charge :=
        match net_charge with
        | PyCharge magnitude => PyFloat magnitude
        | _ => net_charge
        end in
      _ ← match net_charge with
          | PyFloat f =>
              if float_mod1_nonzero f then
                Py.Raise (Py.new_exn Py.ValueError "'net_charge' must be integer valued.")
              else Py.Ok ()
          | _ => Py.Ok ()
          end;
      net_charge ← match py_int net_charge with
                   | Py.Ok z => Py.Ok z
                   | Py.Raise e =>
                       Py.Raise (Py.exn_during e Py.TypeError
                         "'net_charge' must be of type 'int', or `BioSimSpace.Types.Charge'")
                   end;
      if negb (net_charge mod 1 =? 0)%Z then
        Py.Raise (Py.new_exn Py.ValueError "'net_charge' must be integer valued.")
      else Py.Ok (Some net_charge)
  end.

Definition gaff2 (molecule : Molecule) (work_dir : option string)
    (net_charge : pyval) (property_map : PropMap) : outcome :=
  ([], match _amber_home with
       | None =>
           Py.Raise (Py.new_exn Py.MissingSoftwareError
             "'BioSimSpace.Parameters.gaff2' is not supported. Please install AMBER (http://ambermd.org).")
       | Some _ =>
           net_charge ← gaff2_net_charge net_charge;
           let protocol := GAFF2 net_charge property_map in
           Py.Ok (RetProcess (_Process molecule protocol work_dir true))
       end).

(** [_parameterise_openff] prints the force field it was given and falls off
    the end of its body. *)
Definition _parameterise_openff (molecule : Molecule) (forcefield : string)
    (work_dir : option string) (property_map : PropMap) : outcome :=
  ([forcefield], Py.Ok RetNone).

(** [_make_function(name)]: the closure calls [_parameterise_openff] and
    drops what it returns. *)
Definition _make_function (name : string) : ffunc :=
  λ molecule work_dir property_map,
    let '(printed, r) := _parameterise_openff molecule name work_dir property_map in
    (printed, _ ← r; Py.Ok RetNone).

(** An attribute of the module: a parameterisation function, or something
    that is not one. *)
Inductive nsobj :=
  | NsFunc (f : ffunc)
  | NsOther.

(** The module namespace when the registry loop runs, in the order of
    [dir()] (sorted by code point), each name with [getattr(_namespace, name)].
    [gaff] and [gaff2] are called by the dispatcher without [net_charge]. *)
Definition module_namespace : list (string * nsobj) :=
  [ ("_Charge", NsOther); ("_MissingSoftwareError", NsOther);
    ("_Molecule", NsOther); ("_Process", NsOther); ("_Protocol", NsOther);
    ("__all__", NsOther); ("__author__", NsOther); ("__builtins__", NsOther);
    ("__cached__", NsOther); ("__doc__", NsOther); ("__email_", NsOther);
    ("__file__", NsOther); ("__loader__", NsOther); ("__name__", NsOther);
    ("__package__", NsOther); ("__spec__", NsOther);
    ("_amber_home", NsOther); ("_forcefield_dict", NsOther);
    ("_forcefields", NsOther); ("_forcefields_lower", NsOther);
    ("_gmx_exe", NsOther); ("_gromacs_path", NsOther);
    ("_namespace", NsOther); ("_parameterise_openff", NsOther);
    ("_sys", NsOther);
    ("ff03", NsFunc ff03); ("ff14SB", NsFunc ff14SB); ("ff99", NsFunc ff99);
    ("ff99SB", NsFunc ff99SB); ("ff99SBildn", NsFunc ff99SBildn);
    ("gaff", NsFunc (λ molecule work_dir property_map,
                       gaff molecule work_dir PyNone property_map));
    ("gaff2", NsFunc (λ molecule work_dir property_map,
                        gaff2 molecule work_dir PyNone property_map));
    ("parameterise", NsOther) ].

(** The module-level registry state. *)
Record registry := Registry {
  _forcefields : list string;
  _forcefields_lower : list string;
  _forcefield_dict : gmap string nsobj;
  _open_forcefields : list string;
  __all__ : list string;
}.

Definition empty_registry : registry :=
  Registry [] [] ∅ []
    ["parameterise"; "ff99"; "ff99SB"; "ff99SBildn"; "ff14SB"; "gaff"; "gaff2";
     "forceFields"; "openForceFields"].

(** [_var[0] != "_" and _var[0].upper() != "P"]; [dir()] has no empty name. *)
Definition is_forcefield_name (_var : string) : bool :=
  match _var with
  | EmptyString => false
  | String c _ =>
      negb (Ascii.eqb c "_") && negb (Ascii.eqb (Py.ascii_upper c) "P")
  end.

(** One round of the loop over [dir()]. *)
Definition register_named (reg : registry) (entry : string * nsobj) : registry :=
  let '(_var, obj) := entry in
  if is_forcefield_name _var then
    Registry (_forcefields reg ++ [_var])
             (_forcefields_lower reg ++ [Py.lower _var])
             (<[Py.lower _var := obj]> (_forcefield_dict reg))
             (_open_forcefields reg)
             (__all__ reg)
  else reg.

(** One round of the inner loop over the [.offxml] files of a directory. *)
Definition register_openff (reg : registry) (_ff : string) : registry :=
  let _base := Py.basename _ff in
  let _ff := Py.splitext_root _base in
  let _func_name := Py.replace "-" "_" _ff in
  let _func_name := Py.replace "." "_" _func_name in
  let _function := _make_function _func_name in
  Registry (_forcefields reg ++ [_ff])
           (_forcefields_lower reg ++ [Py.lower _ff])
           (<[Py.lower _ff := NsFunc _function]> (_forcefield_dict reg))
           (_open_forcefields reg ++ [_ff])
           (__all__ reg ++ [_func_name]).

(** The registry once the module has been imported. *)
Definition the_registry : registry :=
  let reg := foldl register_named empty_registry module_namespace in
  foldl (λ reg _dir, foldl register_openff reg (glob (_dir +:+ "/*.offxml")))
        reg _openff_dirs.

(** The three parts of the registry agree: the lower-case list is the list
    of names in lower case, and it holds exactly the keys of the dictionary. *)
Definition registry_ok (reg : registry) : Prop :=
  _forcefields_lower reg = Py.lower <$> _forcefields reg ∧
  ∀ key, key ∈ _forcefields_lower reg ↔ is_Some (_forcefield_dict reg !! key).

(** The key a definition file is registered under. *)
Definition openff_key (path : string) : string :=
  Py.lower (Py.splitext_root (Py.basename path)).

(** [key] is bound to a synthesised function. *)
Definition bound_to_openff (reg : registry) (key : string) : Prop :=
  ∃ name, _forcefield_dict reg !! key = Some (NsFunc (_make_function name)).

Definition forceFields : list string := _forcefields the_registry.
Definition openForceFields : list string := _open_forcefields the_registry.

(** [parameterise(molecule, forcefield, work_dir, property_map)] for a
    [forcefield] of type [str]. *)
Definition parameterise (molecule : Molecule) (forcefield : string)
    (work_dir : option string) (property_map : PropMap) : outcome :=
  let forcefield := Py.lower (Py.replace " " "" forcefield) in
  if bool_decide (forcefield ∈ _forcefields_lower the_registry) then
    match _forcefield_dict the_registry !! forcefield with
    | Some (NsFunc f) => f molecule work_dir property_map
    | Some NsOther =>
        ([], Py.Raise (Py.new_exn Py.TypeError "object is not callable"))
    | None => ([], Py.Raise (Py.new_exn Py.KeyError forcefield))
    end
  else
    ([], Py.Raise (Py.new_exn Py.ValueError
           ("Supported force fields are: " +:+ Py.str_list repr_str forceFields))).

(** The definition files found at import time, in the order of the loops,
    and the force-field name each one is registered under. *)
Definition discovered_files : list string :=
  _openff_dirs ≫= λ _dir, glob (_dir +:+ "/*.offxml").

Definition openff_name (path : string) : string :=
  Py.splitext_root (Py.basename path).

(** The functions the module defines under a public name that does not
    start with "p", by the lower-case form of that name. *)
Definition named_function (key : string) : option ffunc :=
  if String.eqb key "ff03" then Some ff03
  else if String.eqb key "ff14sb" then Some ff14SB
  else if String.eqb key "ff99" then Some ff99
  else if String.eqb key "ff99sb" then Some ff99SB
  else if String.eqb key "ff99sbildn" then Some ff99SBildn
  else if String.eqb key "gaff" then
    Some (λ molecule work_dir property_map,
            gaff molecule work_dir PyNone property_map)
  else if String.eqb key "gaff2" then
    Some (λ molecule work_dir property_map,
            gaff2 molecule work_dir PyNone property_map)
  else None.

(** No definition file found at import time is registered under [key]. *)
Definition unshadowed (key : string) : Prop :=
  ∀ path, path ∈ discovered_files → openff_key path ≠ key.

(** Every value of the dictionary is a function. *)
Definition all_functions (reg : registry) : Prop :=
  ∀ key obj, _forcefield_dict reg !! key = Some obj → ∃ f, obj = NsFunc f.

End Definitions.

(** [s] has no space. *)
Definition no_space (s : string) : Prop :=
  Py.all_chars (λ c, negb (Ascii.eqb c " ")) s = true.

(** A small installation: AMBER present, one Open Force Field directory with
    one definition file. *)
Definition demo_env : Env := {|
  env_unicode := Py.ascii_unicode;
  Molecule := nat;
  PropMap := list (string * string);
  _amber_home := Some "/opt/amber";
  _gmx_exe := None;
  _gromacs_path := None;
  _openff_dirs := ["/opt/openff"];
  glob := λ pattern,
    if String.eqb pattern "/opt/openff/*.offxml"
    then ["/opt/openff/openff-1.0.0.offxml"] else [];
  repr_str := λ s, "'" +:+ s +:+ "'";
  int_of_str := λ s,
    Py.Raise (Py.new_exn Py.ValueError "invalid literal for int() with base 10");
|}.

(** An installation with GROMACS only, and one without any tool chain. *)
Definition gromacs_env : Env := {|
  env_unicode := Py.ascii_unicode;
  Molecule := nat;
  PropMap := list (string * string);
  _amber_home := None;
  _gmx_exe := Some "/usr/bin/gmx";
  _gromacs_path := Some "/usr/share/gromacs/top";
  _openff_dirs := [];
  glob := λ _, [];
  repr_str := λ s, "'" +:+ s +:+ "'";
  int_of_str := λ s,
    Py.Raise (Py.new_exn Py.ValueError "invalid literal for int() with base 10");
|}.

Definition bare_env : Env := {|
  env_unicode := Py.ascii_unicode;
  Molecule := nat;
  PropMap := list (string * string);
  _amber_home := None;
  _gmx_exe := Some "/usr/bin/gmx";
  _gromacs_path := None;
  _openff_dirs := [];
  glob := λ _, [];
  repr_str := λ s, "'" +:+ s +:+ "'";
  int_of_str := λ s,
    Py.Raise (Py.new_exn Py.ValueError "invalid literal for int() with base 10");
|}.

End Parameters.

(** ** Alignment: [BioSimSpace/Align/_align.py] *)

Module Align.

(** A [Sire.Mol.AtomIdx], by its [value()]. *)
Definition AtomIdx : Type := Z.

(** An atom mapping: a Python [dict] from [AtomIdx] to [AtomIdx], as its
    [items()] in insertion order. *)
Definition Mapping : Type := list (AtomIdx * AtomIdx).

(** [d[k] = v]: an existing key keeps its place, a new one goes last. *)
Fixpoint dict_set (k v : AtomIdx) (d : Mapping) : Mapping :=
  match d with
  | [] => [(k, v)]
  | (k', v') :: d' =>
      if (k' =? k)%Z then (k, v) :: d' else (k', v') :: dict_set k v d'
  end.

(** [{AtomIdx(i): AtomIdx(j) for i, j in pairs}]. *)
Definition dict_of_pairs (pairs : list (Z * Z)) : Mapping :=
  foldl (λ d p, dict_set p.1 p.2 d) [] pairs.

(** What the module calls and does not define: the molecule wrapper, Sire's
    molecules with their search, fit and RMSD routines, the unit types, and
    the RDKit and file-system steps of the prematch.  A step whose failure
    the module handles, or lets through at a known place, returns a
    [Py.result]; a file that one step writes and a later step reads is passed
    along as a value.  The search, the coordinate lookup and the RMSD are
    taken where they return: on molecules whose atoms carry coordinates. *)
Class Toolkit := {
  toolkit_unicode :: Py.Unicode;
  Molecule : Type;
  SireMolecule : Type;
  PropMap : Type;
  Time : Type;
  SireTime : Type;
  Coord : Type;
  Score : Type;
  WorkDir : Type;
  PDBFile : Type;
  RDMol : Type;
  MCSResult : Type;
  Smarts : Type;
  nAtoms : Molecule → Z;
  _getSireMolecule : Molecule → SireMolecule;
  _Molecule : SireMolecule → Molecule;
  sire_time : Time → SireTime;
  default_timeout : Time;
  findMCSmatches : SireMolecule → SireMolecule → Mapping → SireTime → bool →
                   PropMap → PropMap → Z → bool → list Mapping;
  align : SireMolecule → SireMolecule → Mapping → Py.result SireMolecule;
  coordinates : SireMolecule → AtomIdx → Coord;
  getRMSD : list Coord → list Coord → Score;
  score_lt : Score → Score → bool;
  repr_mapping : Mapping → string;
  str_AtomIdx : AtomIdx → string;
  str_int : Z → string;
  TemporaryDirectory : Py.result WorkDir;
  cd : WorkDir → Py.result ();
  saveMolecules : WorkDir → string → Molecule → string → Py.result PDBFile;
  MolFromPDBFile : PDBFile → Py.result RDMol;
  FindMCS : list RDMol → Py.result MCSResult;
  smartsString : MCSResult → string;
  MolFromSmarts : string → Py.result Smarts;
  GetSubstructMatch : RDMol → Smarts → Py.result (list Z);
}.

Section Definitions.
Context `{Toolkit}.

(** A [BioSimSpace.Types.Length]: a magnitude with its unit. *)
Record Length := mkLength {
  magnitude : Score;
  unit : string;
}.

(** [score * _Units.Length.angstrom]. *)
Definition angstrom (score : Score) : Length := mkLength score "ANGSTROM".

(** What [matchAtoms] returns: [None], one mapping, a list of mappings, or a
    tuple of the mappings and their scores. *)
Inductive MatchResult :=
  | RetNone
  | RetMapping (mapping : Mapping)
  | RetList (mappings : list Mapping)
  | RetTuple (mappings : list Mapping) (scores : list Length).

(** *** [sorted(iterable, key=...)]

    The builtin is stable and compares keys with [<] only.  Each key is
    computed once; an element goes in front of the first element of the
    already sorted tail whose key is not smaller than its own. *)
Fixpoint insert_by_key {A} (kx : Score * A) (l : list (Score * A))
    : list (Score * A) :=
  match l with
  | [] => [kx]
  | ky :: l' =>
      if score_lt ky.1 kx.1 then ky :: insert_by_key kx l' else kx :: ky :: l'
  end.

Fixpoint sort_by_key {A} (l : list (Score * A)) : list (Score * A) :=
  match l with
  | [] => []
  | kx :: l' => insert_by_key kx (sort_by_key l')
  end.

Definition sorted {A} (key : A → Py.result Score) (xs : list A)
    : Py.result (list A) :=
  decorated ← Py.list_comp (λ x, k ← key x; Py.Ok (k, x)) xs;
  Py.Ok (snd <$> sort_by_key decorated).

(** *** [_score_rmsd] *)

(** The loop over the mappings.  [molecule0] is rebound by every alignment,
    so each fit starts from the molecule the previous one left. *)
Fixpoint score_loop (molecule0 molecule1 : SireMolecule)
    (mappings : list Mapping) (is_align : bool) : Py.result (list Score) :=
  match mappings with
  | [] => Py.Ok []
  | mapping :: rest =>
      molecule0 ←
        (if is_align then
           match align molecule0 molecule1 mapping with
           | Py.Ok m => Py.Ok m
           | Py.Raise e =>
               Py.Raise (Py.exn_from_None e Py.AlignmentError
                 ("Failed to align molecules when scoring based on mapping: "
                  +:+ repr_mapping mapping))
           end
         else Py.Ok molecule0);
      let c0 := (λ p, coordinates molecule0 p.1) <$> mapping in
      let c1 := (λ p, coordinates molecule1 p.2) <$> mapping in
      let score := getRMSD c0 c1 in
      scores ← score_loop molecule0 molecule1 rest is_align;
      Py.Ok (score :: scores)
  end.

Definition _score_rmsd (molecule0 molecule1 : SireMolecule)
    (mappings : list Mapping) (is_align : bool)
    : Py.result (list Mapping * list Length) :=
  scores ← score_loop molecule0 molecule1 mappings is_align;
  keys ← sorted (λ k, Py.index scores k) (seq 0 (length scores));
  mappings ← Py.list_comp (λ x, Py.index mappings x) keys;
  scores ← Py.list_comp (λ x, s ← Py.index scores x; Py.Ok (angstrom s)) keys;
  Py.Ok (mappings, scores).

(** The comparison of scores is a strict weak order: [<] is asymmetric and
    "not smaller" is transitive, as for floats that are no NaN. *)
Definition strict_weak_order : Prop :=
  (∀ a b, score_lt a b = true → score_lt b a = false) ∧
  (∀ a b c, score_lt a b = false → score_lt b c = false → score_lt a c = false).

(** [a] is not greater than [b]. *)
Definition score_le (a b : Score) : Prop := score_lt b a = false.

(** A key with its position in the input may stand before another one: its
    key is not greater, and on equal keys its position is the earlier one. *)
Definition before (p q : Score * nat) : Prop :=
  score_le p.1 q.1 ∧ (score_le q.1 p.1 → p.2 < q.2).

(** The score of one mapping: the RMSD of the coordinates it pairs. *)
Definition rmsd_of (molecule0 molecule1 : SireMolecule) (mapping : Mapping)
    : Score :=
  getRMSD ((λ p, coordinates molecule0 p.1) <$> mapping)
          ((λ p, coordinates molecule1 p.2) <$> mapping).

(** The molecule the scoring loop holds after fitting it to each mapping in
    turn, each fit starting from the molecule the previous one produced. *)
Fixpoint aligned_through (molecule0 molecule1 : SireMolecule)
    (mappings : list Mapping) : Py.result SireMolecule :=
  match mappings with
  | [] => Py.Ok molecule0
  | mapping :: rest =>
      aligned ← align molecule0 molecule1 mapping;
      aligned_through aligned molecule1 rest
  end.

(** Every fit of the scoring loop succeeds. *)
Definition fits_succeed (molecule0 molecule1 : SireMolecule)
    (mappings : list Mapping) : Prop :=
  ∃ final, aligned_through molecule0 molecule1 mappings = Py.Ok final.

(** *** [matchAtoms] *)

(** The range check on the items of a user [prematch] or [mapping]; [what]
    is the argument's name in the message. *)
Fixpoint check_in_range (what : string) (molecule0 molecule1 : Molecule)
    (items : Mapping) : Py.result () :=
  match items with
  | [] => Py.Ok ()
  | (idx0, idx1) :: rest =>
      if (idx0 <? 0)%Z || (nAtoms molecule0 <=? idx0)%Z ||
         (idx1 <? 0)%Z || (nAtoms molecule1 <=? idx1)%Z then
        Py.Raise (Py.new_exn Py.ValueError
          ("'" +:+ what +:+ "' dictionary key:value pair '" +:+ str_AtomIdx idx0
           +:+ " : " +:+ str_AtomIdx idx1 +:+ "' is out of range! "
           +:+ "The molecules contain " +:+ str_int (nAtoms molecule0)
           +:+ " and " +:+ str_int (nAtoms molecule1) +:+ " atoms."))
      else check_in_range what molecule0 molecule1 rest
  end.

(** The body of the [try] that derives a prematch with RDKit.  The
    dictionary is bound by its last statement. *)
Definition rdkit_prematch (work_dir : WorkDir) (molecule0 molecule1 : Molecule)
    : Py.result Mapping :=
  _ ← cd work_dir;
  tmp0 ← saveMolecules work_dir "tmp0" molecule0 "PDB";
  tmp1 ← saveMolecules work_dir "tmp1" molecule1 "PDB";
  rd0 ← MolFromPDBFile tmp0;
  rd1 ← MolFromPDBFile tmp1;
  let mols := [rd0; rd1] in
  mcs ← FindMCS mols;
  mcs_smarts ← MolFromSmarts (smartsString mcs);
  mcs0 ← GetSubstructMatch rd0 mcs_smarts;
  mcs1 ← GetSubstructMatch rd1 mcs_smarts;
  Py.Ok (dict_of_pairs (zip mcs0 mcs1)).

(** [if len(prematch) == 0: ...]: the temporary directory is created before
    the [try]; whatever the [try] raises is dropped by [except: pass]. *)
Definition seed_prematch (molecule0 molecule1 : Molecule) (prematch : Mapping)
    : Py.result Mapping :=
  if (length prematch =? 0)%nat then
    work_dir ← TemporaryDirectory;
    match rdkit_prematch work_dir molecule0 molecule1 with
    | Py.Ok derived => Py.Ok derived
    | Py.Raise _ => Py.Ok prematch
    end
  else Py.Ok prematch.

(** "Take the mapping with the larger number of matches." *)
Definition take_larger (m0 m1 : list Mapping) : list Mapping :=
  match m1 with
  | m1_0 :: _ =>
      match m0 with
      | m0_0 :: _ =>
          if (length m0_0 <? length m1_0)%nat then m1 else m0
      | [] => m1
      end
  | [] => m0
  end.

(** The checks on [scoring_function], [matches] and [prematch]; the
    arguments are taken at the types the [type(...) is] guards admit.  The
    normalised name of the scoring function is what the rest uses. *)
Definition validate (molecule0 molecule1 : Molecule)
    (scoring_function : string) (matches : Z) (prematch : Mapping)
    : Py.result string :=
  let scoring_functions := ["RMSD"; "RMSDALIGN"] in
  let scoring_function := Py.upper (Py.replace " " "" scoring_function) in
  _ ← (if bool_decide (scoring_function ∈ scoring_functions) then Py.Ok ()
       else Py.Raise (Py.new_exn Py.ValueError
              ("Unsupported scoring function '" +:+ scoring_function
               +:+ "'. Options are: ['RMSD', 'RMSDALIGN']")));
  _ ← (if (matches <? 0)%Z then
         Py.Raise (Py.new_exn Py.ValueError "'matches' must be positive!")
       else Py.Ok ());
  _ ← check_in_range "prematch" molecule0 molecule1 prematch;
  Py.Ok scoring_function.

(** The last block: [None] without mappings, otherwise the scored mappings
    in the requested form.  [matches] is not negative here, so the slice
    [[0:matches]] is a prefix. *)
Definition return_matches (mol0 mol1 : SireMolecule) (mappings : list Mapping)
    (is_align : bool) (matches : Z) (return_scores : bool)
    : Py.result MatchResult :=
  if (length mappings =? 0)%nat then Py.Ok RetNone
  else if (matches =? 1)%Z then
    r ← _score_rmsd mol0 mol1 mappings is_align;
    best ← Py.index r.1 0;
    Py.Ok (RetMapping best)
  else if return_scores then
    r ← _score_rmsd mol0 mol1 mappings is_align;
    Py.Ok (RetTuple (take (Z.to_nat matches) r.1) (take (Z.to_nat matches) r.2))
  else
    r ← _score_rmsd mol0 mol1 mappings is_align;
    Py.Ok (RetList (take (Z.to_nat matches) r.1)).

Definition matchAtoms (molecule0 molecule1 : Molecule)
    (scoring_function : string) (matches : Z) (return_scores : bool)
    (prematch : Mapping) (timeout : Time) (match_light : bool)
    (property_map0 property_map1 : PropMap) (verbose : bool)
    : Py.result MatchResult :=
  scoring_function ← validate molecule0 molecule1 scoring_function matches prematch;
  let mol0 := _getSireMolecule molecule0 in
  let mol1 := _getSireMolecule molecule1 in
  let timeout := sire_time timeout in
  let is_align := String.eqb scoring_function "RMSDALIGN" in
  prematch ← seed_prematch molecule0 molecule1 prematch;
  let m0 := findMCSmatches mol0 mol1 prematch timeout match_light
              property_map0 property_map1 6 verbose in
  let m1 := findMCSmatches mol0 mol1 prematch timeout match_light
              property_map0 property_map1 0 verbose in
  let mappings := take_larger m0 m1 in
  return_matches mol0 mol1 mappings is_align matches return_scores.

(** *** [rmsdAlign] *)

(** [repr] of the [mapping] variable, which is [None] when the default
    [matchAtoms] found nothing. *)
Definition repr_opt_mapping (mapping : option Mapping) : string :=
  match mapping with
  | Some m => repr_mapping m
  | None => "None"
  end.

(** [mapping] is a [dict] or [None]; without one the best match with the
    default options is used. *)
Definition rmsdAlign (molecule0 molecule1 : Molecule) (mapping : option Mapping)
    (property_map0 property_map1 : PropMap) : Py.result Molecule :=
  mapping ←
    match mapping with
    | Some m =>
        _ ← check_in_range "mapping" molecule0 molecule1 m; Py.Ok (Some m)
    | None =>
        r ← matchAtoms molecule0 molecule1 "RMSD align" 1 false [] default_timeout
              true property_map0 property_map1 false;
        match r with
        | RetMapping m => Py.Ok (Some m)
        | _ => Py.Ok None
        end
    end;
  let mol0 := _getSireMolecule molecule0 in
  let mol1 := _getSireMolecule molecule1 in
  let fit :=
    match mapping with
    | Some m => align mol0 mol1 m
    | None =>
        Py.Raise (Py.new_exn Py.TypeError "AtomResultMatcher: no matching constructor")
    end in
  match fit with
  | Py.Ok mol0 => Py.Ok (_Molecule mol0)
  | Py.Raise e =>
      Py.Raise (Py.exn_from_None e Py.AlignmentError
        ("Failed to align molecules based on mapping: " +:+ repr_opt_mapping mapping))
  end.

End Definitions.

(** *** [merge] *)

(** What [merge] needs beyond the toolkit: the [_merge] method of the
    molecule wrapper, which receives the [mapping] variable as it stands (a
    [dict] or [None]), and the empty dictionary that is the default property
    map of [rmsdAlign]. *)
Class Merger `{Toolkit} := {
  _merge : Molecule → Molecule → option Mapping → bool → PropMap → PropMap →
           Py.result Molecule;
  empty_property_map : PropMap;
}.

Section MergeDefinitions.
Context `{Merger}.

(** A pair of atom indices lies within the two molecules. *)
Definition in_range (molecule0 molecule1 : Molecule) (p : AtomIdx * AtomIdx)
    : Prop :=
  (0 ≤ p.1 < nAtoms molecule0)%Z ∧ (0 ≤ p.2 < nAtoms molecule1)%Z.

(** The mappings a result of [matchAtoms] holds. *)
Definition mappings_of (r : MatchResult) : list Mapping :=
  match r with
  | RetNone => []
  | RetMapping mapping => [mapping]
  | RetList mappings => mappings
  | RetTuple mappings _ => mappings
  end.

(** With a mapping of the caller the molecules are merged as they are; without
    one the best match is looked up and [molecule0] is aligned on it first. *)
Definition merge (molecule0 molecule1 : Molecule) (mapping : option Mapping)
    (allow_ring_breaking : bool) (property_map0 property_map1 : PropMap)
    : Py.result Molecule :=
  match mapping with
  | Some m =>
      _ ← check_in_range "mapping" molecule0 molecule1 m;
      _merge molecule0 molecule1 (Some m) allow_ring_breaking
        property_map0 property_map1
  | None =>
      r ← matchAtoms molecule0 molecule1 "RMSD align" 1 false [] default_timeout
            true property_map0 property_map1 false;
      let mapping := match r with RetMapping m => Some m | _ => None end in
      molecule0 ← rmsdAlign molecule0 molecule1 mapping
                    empty_property_map empty_property_map;
      _merge molecule0 molecule1 mapping allow_ring_breaking
        property_map0 property_map1
  end.

End MergeDefinitions.

(** A one-dimensional toy toolkit: a molecule is the list of its atom
    positions, the score is the sum of the squared distances, a fit shifts
    the molecule so that the first mapped pair coincides and fails on an
    empty mapping, the strict search pairs the first atoms and the widened
    search offers the two pairings of the first two atoms, and the RDKit
    step fails on reading the first file. *)
Definition demo_findMCS (mol0 mol1 : list Z) (width : Z) : list Mapping :=
  match mol0, mol1 with
  | _ :: _ :: _, _ :: _ :: _ =>
      if (width =? 0)%Z then [ [(0, 1); (1, 0)]; [(0, 0); (1, 1)] ]%Z
      else [ [(0, 0)] ]%Z
  | _ :: _, _ :: _ => [ [(0, 0)] ]%Z
  | _, _ => []
  end.

Definition demo_align (mol0 mol1 : list Z) (m : Mapping) : Py.result (list Z) :=
  match m with
  | (i, j) :: _ =>
      let shift := (nth (Z.to_nat j) mol1 0 - nth (Z.to_nat i) mol0 0)%Z in
      Py.Ok ((λ x, x + shift)%Z <$> mol0)
  | [] => Py.Raise (Py.new_exn Py.ExternalError "could not align: no atoms")
  end.

Definition demo_toolkit : Toolkit := {|
  toolkit_unicode := Py.ascii_unicode;
  Molecule := list Z;
  SireMolecule := list Z;
  PropMap := list (string * string);
  Time := Z;
  SireTime := Z;
  Coord := Z;
  Score := Z;
  WorkDir := string;
  PDBFile := string;
  RDMol := ();
  MCSResult := ();
  Smarts := ();
  nAtoms := λ m, Z.of_nat (length m);
  _getSireMolecule := λ m, m;
  _Molecule := λ m, m;
  sire_time := λ t, t;
  default_timeout := 5%Z;
  findMCSmatches := λ mol0 mol1 _ _ _ _ _ width _, demo_findMCS mol0 mol1 width;
  align := demo_align;
  coordinates := λ mol idx, nth (Z.to_nat idx) mol 0%Z;
  getRMSD := λ c0 c1,
    foldr Z.add 0%Z ((λ p, (p.1 - p.2) * (p.1 - p.2))%Z <$> zip c0 c1);
  score_lt := Z.ltb;
  repr_mapping := λ m, "{" +:+ Py.join ", " ((λ _, "_") <$> m) +:+ "}";
  str_AtomIdx := λ _, "AtomIdx";
  str_int := λ _, "n";
  TemporaryDirectory := Py.Ok "/tmp/tmpdir";
  cd := λ _, Py.Ok ();
  saveMolecules := λ dir name _ _, Py.Ok (dir +:+ "/" +:+ name +:+ ".pdb");
  MolFromPDBFile := λ _, Py.Raise (Py.new_exn Py.ExternalError "cannot read PDB");
  FindMCS := λ _, Py.Ok ();
  smartsString := λ _, "";
  MolFromSmarts := λ _, Py.Ok ();
  GetSubstructMatch := λ _ _, Py.Ok [];
|}.

(** Two three-atom molecules, and a partner without atoms. *)
Definition demo_molecule0 : list Z := [0; 5; 9]%Z.
Definition demo_molecule1 : list Z := [1; 4; 7]%Z.
Definition demo_no_atoms : list Z := [].

(** The toy merge keeps the atoms of both molecules. *)
Definition demo_merge (m0 m1 : list Z) (mapping : option Mapping)
    (allow_ring_breaking : bool) (property_map0 property_map1 : list (string * string))
    : Py.result (list Z) :=
  Py.Ok (m0 ++ m1).

Definition demo_merger : @Merger demo_toolkit :=
  @Build_Merger demo_toolkit demo_merge [].

(** A toolkit that differs from the toy one in that no temporary directory
    can be created. *)
Definition no_tmp_toolkit : Toolkit := {|
  toolkit_unicode := Py.ascii_unicode;
  Molecule := list Z;
  SireMolecule := list Z;
  PropMap := list (string * string);
  Time := Z;
  SireTime := Z;
  Coord := Z;
  Score := Z;
  WorkDir := string;
  PDBFile := string;
  RDMol := ();
  MCSResult := ();
  Smarts := ();
  nAtoms := λ m, Z.of_nat (length m);
  _getSireMolecule := λ m, m;
  _Molecule := λ m, m;
  sire_time := λ t, t;
  default_timeout := 5%Z;
  findMCSmatches := λ mol0 mol1 _ _ _ _ _ width _, demo_findMCS mol0 mol1 width;
  align := demo_align;
  coordinates := λ mol idx, nth (Z.to_nat idx) mol 0%Z;
  getRMSD := λ c0 c1,
    foldr Z.add 0%Z ((λ p, (p.1 - p.2) * (p.1 - p.2))%Z <$> zip c0 c1);
  score_lt := Z.ltb;
  repr_mapping := λ m, "{" +:+ Py.join ", " ((λ _, "_") <$> m) +:+ "}";
  str_AtomIdx := λ _, "AtomIdx";
  str_int := λ _, "n";
  TemporaryDirectory := Py.Raise (Py.new_exn Py.ExternalError "No usable temporary directory");
  cd := λ _, Py.Ok ();
  saveMolecules := λ dir name _ _, Py.Ok (dir +:+ "/" +:+ name +:+ ".pdb");
  MolFromPDBFile := λ _, Py.Raise (Py.new_exn Py.ExternalError "cannot read PDB");
  FindMCS := λ _, Py.Ok ();
  smartsString := λ _, "";
  MolFromSmarts := λ _, Py.Ok ();
  GetSubstructMatch := λ _ _, Py.Ok [];
|}.

End Align.

(** ** Properties of the parameterisation module *)

Module ParametersFacts.
Import Parameters.

(** *** Strings *)

Lemma ascii_lower_upper (c : ascii) :
  Py.ascii_lower (Py.ascii_upper c) = Py.ascii_lower c.
Proof. destruct c as [[] [] [] [] [] [] [] []]; reflexivity. Qed.

Lemma ascii_lower_idem (c : ascii) :
  Py.ascii_lower (Py.ascii_lower c) = Py.ascii_lower c.
Proof. destruct c as [[] [] [] [] [] [] [] []]; reflexivity. Qed.

Lemma ascii_lower_space (c : ascii) :
  Ascii.eqb (Py.ascii_lower c) " " = Ascii.eqb c " ".
Proof. destruct c as [[] [] [] [] [] [] [] []]; reflexivity. Qed.

Lemma same_letter_lower (c d : ascii) :
  same_letter c d → Py.ascii_lower c = Py.ascii_lower d.
Proof.
  intros [-> | [-> | ->]];
    [done | by rewrite ascii_lower_upper | by rewrite ascii_lower_idem].
Qed.

Lemma same_letter_space (c d : ascii) :
  same_letter c d → Ascii.eqb c " " = Ascii.eqb d " ".
Proof.
  intros Hcd. rewrite <- (ascii_lower_space c), <- (ascii_lower_space d).
  by rewrite (same_letter_lower c d Hcd).
Qed.

Lemma append_empty_l (s : string) : "" +:+ s = s.
Proof. reflexivity. Qed.

Lemma append_cons (c : ascii) (s t : string) :
  String c s +:+ t = String c (s +:+ t).
Proof. reflexivity. Qed.

Lemma append_empty_r (s : string) : s +:+ "" = s.
Proof.
  induction s as [| c s IH]; [done |]. by rewrite append_cons, IH.
Qed.

Lemma append_assoc (a b c : string) : (a +:+ b) +:+ c = a +:+ (b +:+ c).
Proof.
  induction a as [| x a IH]; [done |]. by rewrite !append_cons, IH.
Qed.

Lemma lower_ascii_is_ascii (s : string) :
  Py.is_ascii (Py.lower_ascii s) = Py.is_ascii s.
Proof.
  unfold Py.is_ascii. induction s as [| c s IH]; simpl; [done |].
  rewrite IH. f_equal. destruct c as [[] [] [] [] [] [] [] []]; reflexivity.
Qed.

Lemma upper_ascii_of_lower_ascii (s : string) :
  Py.upper_ascii (Py.lower_ascii s) = Py.upper_ascii s.
Proof.
  induction s as [| c s IH]; simpl; [done |]. rewrite IH. f_equal.
  destruct c as [[] [] [] [] [] [] [] []]; reflexivity.
Qed.

Lemma same_name_lower_ascii (s t : string) :
  same_name s t →
  Py.lower_ascii (Py.replace " " "" s) = Py.lower_ascii (Py.replace " " "" t).
Proof.
  induction 1 as [| s t _ IH | s t _ IH | c d s t Hcd _ IH]; simpl;
    rewrite ?append_empty_l.
  - done.
  - exact IH.
  - exact IH.
  - rewrite <- (same_letter_space c d Hcd).
    destruct (Ascii.eqb c " "); rewrite ?append_empty_l; simpl; [exact IH |].
    by rewrite IH, (same_letter_lower c d Hcd).
Qed.

Section CaseMapping.
Context `{Py.Unicode}.

(** Two texts with the same ASCII-lowered bytes differ only in the case of
    ASCII letters: they have the same lower and the same upper form. *)
Lemma lower_by_ascii_case (s t : string) :
  Py.lower_ascii s = Py.lower_ascii t → Py.lower s = Py.lower t.
Proof.
  intros Heq. unfold Py.lower.
  rewrite <- (lower_ascii_is_ascii s), <- (lower_ascii_is_ascii t), Heq.
  destruct (Py.is_ascii (Py.lower_ascii t)); [done |].
  by apply Py.unicode_lower_ascii_case.
Qed.

Lemma upper_by_ascii_case (s t : string) :
  Py.lower_ascii s = Py.lower_ascii t → Py.upper s = Py.upper t.
Proof.
  intros Heq. unfold Py.upper.
  rewrite <- (lower_ascii_is_ascii s), <- (lower_ascii_is_ascii t), Heq.
  destruct (Py.is_ascii (Py.lower_ascii t)).
  - by rewrite <- (upper_ascii_of_lower_ascii s),
         <- (upper_ascii_of_lower_ascii t), Heq.
  - by apply Py.unicode_upper_ascii_case.
Qed.

Lemma same_name_normalise (s t : string) :
  same_name s t → normalise s = normalise t.
Proof.
  intros Hsame. unfold normalise.
  by apply lower_by_ascii_case, same_name_lower_ascii.
Qed.

End CaseMapping.

Lemma occurs_in_refl (s : string) : occurs_in s s.
Proof. exists "", "". by rewrite append_empty_l, append_empty_r. Qed.

Lemma occurs_in_append_l (sub s pre : string) :
  occurs_in sub s → occurs_in sub (pre +:+ s).
Proof.
  intros (a & b & ->). exists (pre +:+ a), b. by rewrite append_assoc.
Qed.

Lemma occurs_in_append_r (sub s post : string) :
  occurs_in sub s → occurs_in sub (s +:+ post).
Proof.
  intros (a & b & ->). exists a, (b +:+ post). by rewrite !append_assoc.
Qed.

Lemma occurs_in_join (sep x : string) (l : list string) :
  x ∈ l → occurs_in x (Py.join sep l).
Proof.
  induction l as [| y l IH]; [by intros ?%elem_of_nil |].
  intros [-> | Hin]%elem_of_cons.
  - destruct l; simpl; [apply occurs_in_refl |].
    apply occurs_in_append_r, occurs_in_refl.
  - destruct l as [| z l]; [by apply elem_of_nil in Hin |].
    change (Py.join sep (y :: z :: l)) with (y +:+ sep +:+ Py.join sep (z :: l)).
    by apply occurs_in_append_l, occurs_in_append_l, IH.
Qed.

Lemma occurs_in_str_list (repr : string → string) (x : string) (l : list string) :
  x ∈ l → occurs_in (repr x) (Py.str_list repr l).
Proof.
  intros Hin. unfold Py.str_list.
  apply occurs_in_append_l, occurs_in_append_r, occurs_in_join.
  by apply list_elem_of_fmap_2.
Qed.


Example normalise_GAFF_2 `{Py.Unicode} : normalise "GAFF 2" = "gaff2".
Proof. reflexivity. Qed.

Example basename_splitext_openff :
  Py.splitext_root (Py.basename "/opt/openff/openff-1.0.0.offxml") = "openff-1.0.0".
Proof. reflexivity. Qed.

Example splitext_leading_dot : Py.splitext_root ".offxml" = ".offxml".
Proof. reflexivity. Qed.

Example str_list_two :
  Py.str_list (λ s, "'" +:+ s +:+ "'") ["gaff"; "gaff2"] = "['gaff', 'gaff2']".
Proof. reflexivity. Qed.

(** *** The registry *)

Example forceFields_demo :
  @forceFields demo_env
  = ["ff03"; "ff14SB"; "ff99"; "ff99SB"; "ff99SBildn"; "gaff"; "gaff2";
     "openff-1.0.0"].
Proof. vm_compute. reflexivity. Qed.

Example openForceFields_demo : @openForceFields demo_env = ["openff-1.0.0"].
Proof. vm_compute. reflexivity. Qed.

Section Registry.
Context `{Env}.

Lemma registry_ok_empty : registry_ok empty_registry.
Proof.
  split; [done |]. intros key. simpl. rewrite lookup_empty. split.
  - by intros ?%elem_of_nil.
  - by intros [? ?].
Qed.

Lemma registry_ok_insert (reg : registry) (name : string) (obj : nsobj)
    (open_ffs exports : list string) :
  registry_ok reg →
  registry_ok (Registry (_forcefields reg ++ [name])
                        (_forcefields_lower reg ++ [Py.lower name])
                        (<[Py.lower name := obj]> (_forcefield_dict reg))
                        open_ffs exports).
Proof.
  intros [Hlow Hdict]. split; simpl.
  - by rewrite fmap_app, Hlow.
  - intros key. rewrite elem_of_app, list_elem_of_singleton, Hdict.
    destruct (decide (Py.lower name = key)) as [-> | Hne].
    + rewrite lookup_insert_eq. split; [by eauto | by right].
    + rewrite lookup_insert_ne by done.
      split; [by intros [? | ?] | by left].
Qed.

Lemma registry_ok_named (reg : registry) (entry : string * nsobj) :
  registry_ok reg → registry_ok (register_named reg entry).
Proof.
  intros Hok. destruct entry as [name obj]. unfold register_named.
  destruct (is_forcefield_name name); [by apply registry_ok_insert | done].
Qed.

Lemma registry_ok_openff (reg : registry) (path : string) :
  registry_ok reg → registry_ok (register_openff reg path).
Proof. intros Hok. unfold register_openff. by apply registry_ok_insert. Qed.

Lemma registry_ok_foldl {A} (f : registry → A → registry) (l : list A)
    (reg : registry) :
  (∀ r x, registry_ok r → registry_ok (f r x)) →
  registry_ok reg → registry_ok (foldl f reg l).
Proof.
  intros Hf. revert reg. induction l as [| x l IH]; intros reg Hok; simpl.
  - done.
  - by apply IH, Hf.
Qed.

Lemma the_registry_ok : registry_ok the_registry.
Proof.
  unfold the_registry. apply registry_ok_foldl.
  - intros r dir Hr. apply registry_ok_foldl; [apply registry_ok_openff | done].
  - apply registry_ok_foldl; [apply registry_ok_named | apply registry_ok_empty].
Qed.

(** The message of the [ValueError] for an unsupported force field. *)
Lemma unsupported_message_lists (name : string) :
  name ∈ forceFields →
  occurs_in (repr_str name)
    ("Supported force fields are: " +:+ Py.str_list repr_str forceFields).
Proof. intros Hin. by apply occurs_in_append_l, occurs_in_str_list. Qed.

Lemma all_functions_insert (reg : registry) (name : string) (f : ffunc)
    (names lowers open_ffs exports : list string) :
  all_functions reg →
  all_functions (Registry names lowers
                   (<[name := NsFunc f]> (_forcefield_dict reg))
                   open_ffs exports).
Proof.
  intros Hreg key obj. simpl.
  destruct (decide (name = key)) as [-> | Hne].
  - rewrite lookup_insert_eq. intros [= <-]. by eexists.
  - rewrite lookup_insert_ne by done. apply Hreg.
Qed.

Lemma all_functions_named :
  all_functions (foldl register_named empty_registry module_namespace).
Proof.
  assert (Hstep : ∀ entries reg,
    Forall (λ e : string * nsobj,
              is_forcefield_name e.1 = true → ∃ f, e.2 = NsFunc f) entries →
    all_functions reg → all_functions (foldl register_named reg entries)).
  { induction entries as [| [name obj] entries IH]; intros reg Hall Hreg; simpl.
    - done.
    - apply Forall_cons in Hall as [Hhead Hall]. apply IH; [done |].
      unfold register_named. destruct (is_forcefield_name name) eqn:Hname.
      + destruct (Hhead Hname) as [f Hf]. simpl in Hf. subst obj.
        by apply all_functions_insert.
      + done. }
  apply Hstep.
  - unfold module_namespace.
    repeat (constructor; [simpl; intros ?; first [discriminate | by eexists] |]).
    constructor.
  - intros key obj. simpl. by rewrite lookup_empty.
Qed.

Lemma all_functions_openff (reg : registry) (path : string) :
  all_functions reg → all_functions (register_openff reg path).
Proof. intros Hreg. unfold register_openff. by apply all_functions_insert. Qed.

Lemma all_functions_foldl {A} (f : registry → A → registry) (l : list A)
    (reg : registry) :
  (∀ r x, all_functions r → all_functions (f r x)) →
  all_functions reg → all_functions (foldl f reg l).
Proof.
  intros Hf. revert reg. induction l as [| x l IH]; intros reg Hreg; simpl.
  - done.
  - by apply IH, Hf.
Qed.

Lemma all_functions_the_registry : all_functions the_registry.
Proof.
  unfold the_registry. apply all_functions_foldl.
  - intros r dir Hr. apply all_functions_foldl; [apply all_functions_openff | done].
  - apply all_functions_named.
Qed.

(** C8: the dispatcher looks a name up in lower case with its spaces
    removed.  Two names that differ only in spaces or in the case of their
    ASCII letters are dispatched alike; a name whose normal form is a key of
    the registry is dispatched to the function registered under that key,
    the same one for two such names; a name whose normal form is no key
    raises [ValueError], and every registered key is the lower case of a
    name that occurs in the message of that error. *)
Theorem parameterise_dispatch_by_name (molecule : Molecule)
    (work_dir : option string) (property_map : PropMap) :
  (∀ name1 name2, same_name name1 name2 →
     parameterise molecule name1 work_dir property_map
     = parameterise molecule name2 work_dir property_map) ∧
  (∀ name obj, _forcefield_dict the_registry !! normalise name = Some obj →
     ∃ f, obj = NsFunc f ∧
          parameterise molecule name work_dir property_map
          = f molecule work_dir property_map) ∧
  (∀ name1 name2 f, same_name name1 name2 →
     _forcefield_dict the_registry !! normalise name1 = Some (NsFunc f) →
     parameterise molecule name1 work_dir property_map
     = f molecule work_dir property_map ∧
     parameterise molecule name2 work_dir property_map
     = f molecule work_dir property_map) ∧
  (∀ name, _forcefield_dict the_registry !! normalise name = None →
     ∃ msg,
       parameterise molecule name work_dir property_map
       = ([], Py.Raise (Py.new_exn Py.ValueError msg)) ∧
       ∀ key, is_Some (_forcefield_dict the_registry !! key) →
         ∃ registered, Py.lower registered = key ∧
                       occurs_in (repr_str registered) msg).
Proof.
  destruct the_registry_ok as [Hlow Hdict].
  assert (Hcall : ∀ name f,
    _forcefield_dict the_registry !! normalise name = Some (NsFunc f) →
    parameterise molecule name work_dir property_map
    = f molecule work_dir property_map).
  { intros name f Hf. unfold parameterise. fold (normalise name).
    rewrite bool_decide_eq_true_2 by (apply Hdict; eauto). by rewrite Hf. }
  split; [| split; [| split]].
  - intros name1 name2 Hsame. unfold parameterise.
    fold (normalise name1). fold (normalise name2).
    by rewrite (same_name_normalise name1 name2 Hsame).
  - intros name obj Hobj.
    destruct (all_functions_the_registry _ _ Hobj) as [f ->].
    exists f. split; [done |]. by apply Hcall.
  - intros name1 name2 f Hsame Hf. split; [by apply Hcall |].
    apply Hcall. by rewrite <- (same_name_normalise name1 name2 Hsame).
  - intros name Hnone. eexists. split.
    + unfold parameterise. fold (normalise name).
      rewrite bool_decide_eq_false_2; [reflexivity |].
      rewrite Hdict, Hnone. by intros [? ?].
    + intros key Hkey. apply Hdict in Hkey. rewrite Hlow in Hkey.
      apply list_elem_of_fmap in Hkey as (registered & -> & Hin).
      exists registered. split; [done |]. by apply unsupported_message_lists.
Qed.

End Registry.

Section DispatchOnDemo.
#[local] Existing Instance demo_env.

(** The theorem on the small installation: ["GAFF 2"] and ["gaff2"] both
    reach [gaff2], and ["gaff3"] is refused. *)
Lemma parameterise_dispatch_by_name_witness :
  same_name "GAFF 2" "gaff2" ∧
  @_forcefield_dict demo_env the_registry !! normalise "GAFF 2"
  = Some (NsFunc (λ molecule work_dir property_map,
                    @gaff2 demo_env molecule work_dir PyNone property_map)) ∧
  @parameterise demo_env 0 "GAFF 2" None [] = @gaff2 demo_env 0 None PyNone [] ∧
  @parameterise demo_env 0 "gaff2" None [] = @gaff2 demo_env 0 None PyNone [] ∧
  @_forcefield_dict demo_env the_registry !! normalise "gaff3" = None ∧
  ∃ msg, @parameterise demo_env 0 "gaff3" None []
         = ([], Py.Raise (Py.new_exn Py.ValueError msg)).
Proof.
  assert (Hsame : same_name "GAFF 2" "gaff2").
  { repeat first
      [ apply same_name_nil
      | apply same_name_space_l
      | apply same_name_letter; [unfold same_letter; vm_compute; auto |] ]. }
  assert (Hkey : @_forcefield_dict demo_env the_registry !! normalise "GAFF 2"
                 = Some (NsFunc (λ molecule work_dir property_map,
                     @gaff2 demo_env molecule work_dir PyNone property_map)))
    by (vm_compute; reflexivity).
  assert (Hnone : @_forcefield_dict demo_env the_registry !! normalise "gaff3" = None)
    by (vm_compute; reflexivity).
  destruct (@parameterise_dispatch_by_name demo_env 0 None [])
    as (_ & _ & Hsame_backend & Hrefused).
  destruct (Hsame_backend "GAFF 2" "gaff2" _ Hsame Hkey) as [Hcall1 Hcall2].
  split; [exact Hsame |]. split; [exact Hkey |].
  split; [exact Hcall1 |]. split; [exact Hcall2 |]. split; [exact Hnone |].
  destruct (Hrefused "gaff3" Hnone) as (msg & Hmsg & _).
  exists msg. exact Hmsg.
Defined.

End DispatchOnDemo.

(** *** The net charge of [gaff] and [gaff2] *)

Section NetCharge.
Context `{Env}.

Lemma integer_valued_mod1 (q : Q) (z : Z) :
  (q == inject_Z z)%Q → float_mod1_nonzero (Finite q) = false.
Proof.
  unfold Qeq. simpl. intros Heq. rewrite Z.mul_1_r in Heq.
  rewrite Heq, Z.mod_mul by done. reflexivity.
Qed.

Lemma integer_valued_int (q : Q) (z : Z) :
  (q == inject_Z z)%Q → py_int (PyFloat (Finite q)) = Py.Ok z.
Proof.
  unfold Qeq. simpl. intros Heq. rewrite Z.mul_1_r in Heq.
  rewrite Heq, Z.quot_mul by done. reflexivity.
Qed.

Lemma not_integer_valued_mod1 (f : pyfloat) :
  ¬ integer_valued f → float_mod1_nonzero f = true.
Proof.
  intros Hnot. destruct f as [q | |]; [| done | done]. simpl.
  destruct (Z.eqb_spec (Qnum q mod Z.pos (Qden q)) 0) as [Hmod | Hmod]; [| done].
  exfalso. apply Hnot. exists q, (Qnum q / Z.pos (Qden q))%Z. split; [done |].
  unfold Qeq. simpl. rewrite Z.mul_1_r.
  pose proof (Z.div_mod (Qnum q) (Z.pos (Qden q))) as Hdiv. lia.
Qed.

Lemma gaff_net_charge_Charge (f : pyfloat) :
  gaff_net_charge (PyCharge f) = gaff_net_charge (PyFloat f).
Proof. reflexivity. Qed.

Lemma gaff2_net_charge_Charge (f : pyfloat) :
  gaff2_net_charge (PyCharge f) = gaff2_net_charge (PyFloat f).
Proof. reflexivity. Qed.

Lemma gaff_net_charge_fraction (f : pyfloat) :
  ¬ integer_valued f →
  gaff_net_charge (PyFloat f)
  = Py.Raise (Py.new_exn Py.ValueError "'net_charge' must be integer valued.").
Proof.
  intros Hf. unfold gaff_net_charge.
  by rewrite (not_integer_valued_mod1 f Hf).
Qed.

Lemma gaff2_net_charge_fraction (f : pyfloat) :
  ¬ integer_valued f →
  gaff2_net_charge (PyFloat f)
  = Py.Raise (Py.new_exn Py.ValueError "'net_charge' must be integer valued.").
Proof.
  intros Hf. unfold gaff2_net_charge.
  by rewrite (not_integer_valued_mod1 f Hf).
Qed.

Lemma gaff_net_charge_integer (q : Q) (z : Z) :
  (q == inject_Z z)%Q → gaff_net_charge (PyFloat (Finite q)) = Py.Ok (Some z).
Proof.
  intros Hq. unfold gaff_net_charge.
  by rewrite (integer_valued_mod1 q z Hq), (integer_valued_int q z Hq).
Qed.

Lemma gaff2_net_charge_integer (q : Q) (z : Z) :
  (q == inject_Z z)%Q → gaff2_net_charge (PyFloat (Finite q)) = Py.Ok (Some z).
Proof.
  intros Hq. unfold gaff2_net_charge.
  rewrite (integer_valued_mod1 q z Hq), (integer_valued_int q z Hq). simpl.
  by rewrite Z.mod_1_r.
Qed.

Lemma gaff_net_charge_inconvertible (v : pyval) (e : Py.exn) :
  plain_value v → py_int v = Py.Raise e →
  gaff_net_charge v
  = Py.Raise (Py.exn_during e Py.TypeError
      "'net_charge' must be of type 'int', or `BioSimSpace.Types.Charge'").
Proof.
  intros (HNone & Hfloat & Hcharge) Hint.
  destruct v as [| z | b | f | s | f | o];
    try done; try (by destruct (Hfloat f)); try (by destruct (Hcharge f));
    unfold gaff_net_charge; simpl; simpl in Hint; by rewrite Hint.
Qed.

Lemma gaff2_net_charge_inconvertible (v : pyval) (e : Py.exn) :
  plain_value v → py_int v = Py.Raise e →
  gaff2_net_charge v
  = Py.Raise (Py.exn_during e Py.TypeError
      "'net_charge' must be of type 'int', or `BioSimSpace.Types.Charge'").
Proof.
  intros (HNone & Hfloat & Hcharge) Hint.
  destruct v as [| z | b | f | s | f | o];
    try done; try (by destruct (Hfloat f)); try (by destruct (Hcharge f));
    unfold gaff2_net_charge; simpl; simpl in Hint; by rewrite Hint.
Qed.

Lemma gaff_installed (molecule : Molecule) (work_dir : option string)
    (v : pyval) (property_map : PropMap) (home : string) :
  _amber_home = Some home →
  gaff molecule work_dir v property_map
  = ([], net_charge ← gaff_net_charge v;
         Py.Ok (RetProcess
           (_Process molecule (GAFF net_charge property_map) work_dir true))).
Proof. intros Hhome. unfold gaff. by rewrite Hhome. Qed.

Lemma gaff2_installed (molecule : Molecule) (work_dir : option string)
    (v : pyval) (property_map : PropMap) (home : string) :
  _amber_home = Some home →
  gaff2 molecule work_dir v property_map
  = ([], net_charge ← gaff2_net_charge v;
         Py.Ok (RetProcess
           (_Process molecule (GAFF2 net_charge property_map) work_dir true))).
Proof. intros Hhome. unfold gaff2. by rewrite Hhome. Qed.

(** C7: with AMBER installed, [gaff] and [gaff2] treat a [Charge] as the
    float it holds; a float that is not integer valued raises [ValueError];
    a value that [int] refuses raises [TypeError]; and an integer-valued
    float such as [2.0] reaches the protocol as the integer it equals. *)
Theorem net_charge_coercion (molecule : Molecule) (work_dir : option string)
    (property_map : PropMap) (home : string) :
  _amber_home = Some home →
  (∀ f,
     gaff molecule work_dir (PyCharge f) property_map
     = gaff molecule work_dir (PyFloat f) property_map ∧
     gaff2 molecule work_dir (PyCharge f) property_map
     = gaff2 molecule work_dir (PyFloat f) property_map) ∧
  (∀ f, ¬ integer_valued f →
     gaff molecule work_dir (PyFloat f) property_map
     = ([], Py.Raise (Py.new_exn Py.ValueError "'net_charge' must be integer valued.")) ∧
     gaff2 molecule work_dir (PyFloat f) property_map
     = ([], Py.Raise (Py.new_exn Py.ValueError "'net_charge' must be integer valued."))) ∧
  (∀ v e, plain_value v → py_int v = Py.Raise e →
     (∃ e', gaff molecule work_dir v property_map = ([], Py.Raise e') ∧
            Py.exn_type e' = Py.TypeError) ∧
     (∃ e', gaff2 molecule work_dir v property_map = ([], Py.Raise e') ∧
            Py.exn_type e' = Py.TypeError)) ∧
  (∀ q z, (q == inject_Z z)%Q →
     gaff molecule work_dir (PyFloat (Finite q)) property_map
     = ([], Py.Ok (RetProcess
              (_Process molecule (GAFF (Some z) property_map) work_dir true))) ∧
     gaff2 molecule work_dir (PyFloat (Finite q)) property_map
     = ([], Py.Ok (RetProcess
              (_Process molecule (GAFF2 (Some z) property_map) work_dir true)))).
Proof.
  intros Hhome. split; [| split; [| split]].
  - intros f. rewrite !(gaff_installed _ _ _ _ _ Hhome).
    rewrite !(gaff2_installed _ _ _ _ _ Hhome).
    by rewrite gaff_net_charge_Charge, gaff2_net_charge_Charge.
  - intros f Hf. rewrite (gaff_installed _ _ _ _ _ Hhome).
    rewrite (gaff2_installed _ _ _ _ _ Hhome).
    by rewrite gaff_net_charge_fraction, gaff2_net_charge_fraction.
  - intros v e Hv Hint. rewrite (gaff_installed _ _ _ _ _ Hhome).
    rewrite (gaff2_installed _ _ _ _ _ Hhome).
    rewrite (gaff_net_charge_inconvertible v e Hv Hint).
    rewrite (gaff2_net_charge_inconvertible v e Hv Hint).
    split; eexists; (split; [reflexivity | reflexivity]).
  - intros q z Hq. rewrite (gaff_installed _ _ _ _ _ Hhome).
    rewrite (gaff2_installed _ _ _ _ _ Hhome).
    by rewrite (gaff_net_charge_integer q z Hq), (gaff2_net_charge_integer q z Hq).
Qed.

End NetCharge.

(** The theorem on the small installation: [2.0] becomes [2], [2.5] raises
    [ValueError] and a string that is no number raises [TypeError]. *)
Lemma net_charge_coercion_witness :
  @_amber_home demo_env = Some "/opt/amber" ∧
  @gaff demo_env 0 None (PyFloat (Finite (2 # 1))) []
  = ([], Py.Ok (RetProcess
           (@_Process demo_env 0 (@GAFF demo_env (Some 2%Z) []) None true))) ∧
  @gaff2 demo_env 0 None (PyFloat (Finite (5 # 2))) []
  = ([], Py.Raise (Py.new_exn Py.ValueError "'net_charge' must be integer valued.")) ∧
  ∃ e', @gaff demo_env 0 None (PyStr "two") [] = ([], Py.Raise e') ∧
        Py.exn_type e' = Py.TypeError.
Proof.
  pose proof (@net_charge_coercion demo_env 0 None [] "/opt/amber" eq_refl)
    as (_ & Hfrac & Hconv & Hint).
  split; [reflexivity |]. split; [| split].
  - apply (Hint (2 # 1)%Q 2%Z). reflexivity.
  - apply (Hfrac (Finite (5 # 2))).
    intros (q & z & Hq & Heq). injection Hq as <-.
    unfold Qeq in Heq. simpl in Heq. lia.
  - eapply (Hconv (PyStr "two")).
    + repeat split; intros; discriminate.
    + reflexivity.
Defined.


(** *** What the dispatch functions return *)

Section Dispatch.
Context `{Env}.

(** The named AMBER functions hand back a started process. *)
Lemma ff14SB_returns_process (molecule : Molecule) (work_dir : option string)
    (property_map : PropMap) (home : string) :
  _amber_home = Some home →
  ff14SB molecule work_dir property_map
  = ([], Py.Ok (RetProcess
           (_Process molecule (FF14SB property_map) work_dir true))).
Proof. intros Hhome. unfold ff14SB. by rewrite Hhome. Qed.

Lemma ff99_returns_process (molecule : Molecule) (work_dir : option string)
    (property_map : PropMap) (home : string) :
  _amber_home = Some home →
  ff99 molecule work_dir property_map
  = ([], Py.Ok (RetProcess
           (_Process molecule (FF99 property_map) work_dir true))).
Proof.
  intros Hhome. unfold ff99, amber_or_gromacs_missing. by rewrite Hhome.
Qed.

(** A synthesised Open Force Field function prints its name and returns
    [None]. *)
Lemma _make_function_returns_None (name : string) (molecule : Molecule)
    (work_dir : option string) (property_map : PropMap) :
  _make_function name molecule work_dir property_map = ([name], Py.Ok RetNone).
Proof. reflexivity. Qed.

Lemma register_openff_binds (reg : registry) (path : string) :
  bound_to_openff (register_openff reg path) (openff_key path).
Proof.
  unfold bound_to_openff, register_openff, openff_key. simpl.
  eexists. by rewrite lookup_insert_eq.
Qed.

Lemma register_openff_keeps (reg : registry) (path key : string) :
  bound_to_openff reg key → bound_to_openff (register_openff reg path) key.
Proof.
  intros [name Hname]. unfold bound_to_openff, register_openff. simpl.
  destruct (decide (Py.lower (Py.splitext_root (Py.basename path)) = key))
    as [<- | Hne].
  - eexists. by rewrite lookup_insert_eq.
  - exists name. by rewrite lookup_insert_ne.
Qed.

Lemma foldl_openff_keeps (paths : list string) (reg : registry) (key : string) :
  bound_to_openff reg key →
  bound_to_openff (foldl register_openff reg paths) key.
Proof.
  revert reg. induction paths as [| p paths IH]; intros reg Hreg; simpl.
  - done.
  - by apply IH, register_openff_keeps.
Qed.

Lemma foldl_openff_binds (paths : list string) (reg : registry) (path : string) :
  path ∈ paths →
  bound_to_openff (foldl register_openff reg paths) (openff_key path).
Proof.
  revert reg. induction paths as [| p paths IH]; intros reg Hin; simpl.
  - by apply elem_of_nil in Hin.
  - apply elem_of_cons in Hin as [-> | Hin].
    + apply foldl_openff_keeps, register_openff_binds.
    + by apply IH.
Qed.

Lemma foldl_dirs_keeps (dirs : list string) (reg : registry) (key : string) :
  bound_to_openff reg key →
  bound_to_openff
    (foldl (λ reg _dir, foldl register_openff reg (glob (_dir +:+ "/*.offxml")))
           reg dirs) key.
Proof.
  revert reg. induction dirs as [| d dirs IH]; intros reg Hreg; simpl.
  - done.
  - by apply IH, foldl_openff_keeps.
Qed.

Lemma foldl_dirs_binds (dirs : list string) (reg : registry) (dir path : string) :
  dir ∈ dirs → path ∈ glob (dir +:+ "/*.offxml") →
  bound_to_openff
    (foldl (λ reg _dir, foldl register_openff reg (glob (_dir +:+ "/*.offxml")))
           reg dirs) (openff_key path).
Proof.
  revert reg. induction dirs as [| d dirs IH]; intros reg Hdir Hpath; simpl.
  - by apply elem_of_nil in Hdir.
  - apply elem_of_cons in Hdir as [-> | Hdir].
    + by apply foldl_dirs_keeps, foldl_openff_binds.
    + by apply IH.
Qed.

(** Every definition file found at import time is dispatched to a function
    that returns [None]: asking for its force field by a name that
    normalises to its key yields no process handle. *)
Lemma openff_dispatch_returns_None (dir path forcefield : string)
    (molecule : Molecule) (work_dir : option string) (property_map : PropMap) :
  dir ∈ _openff_dirs → path ∈ glob (dir +:+ "/*.offxml") →
  normalise forcefield = openff_key path →
  ∃ printed, parameterise molecule forcefield work_dir property_map
             = (printed, Py.Ok RetNone).
Proof.
  intros Hdir Hpath Hkey.
  destruct (foldl_dirs_binds _openff_dirs
              (foldl register_named empty_registry module_namespace)
              dir path Hdir Hpath) as [name Hname].
  fold the_registry in Hname.
  destruct the_registry_ok as [_ Hdict].
  unfold parameterise. fold (normalise forcefield). rewrite Hkey.
  rewrite bool_decide_eq_true_2 by (apply Hdict; eauto).
  rewrite Hname. by eexists.
Qed.

End Dispatch.

(** C6 at a failing input.  With AMBER installed and the Open Force Field
    file [openff-1.0.0.offxml] found at import time, the named function
    [ff14SB] is dispatched to a started process, but the force field
    [openff-1.0.0] is dispatched to a function that only prints its own name
    and returns [None]: the caller gets no handle. *)
Theorem parameterise_openff_returns_None :
  @parameterise demo_env 0 "ff14SB" None []
  = ([], Py.Ok (RetProcess
           (@_Process demo_env 0 (@FF14SB demo_env []) None true))) ∧
  @parameterise demo_env 0 "openff-1.0.0" None []
  = (["openff_1_0_0"], Py.Ok RetNone).
Proof. split; vm_compute; reflexivity. Qed.


(** *** The tool chains the named functions ask for *)

Section ToolChains.
Context `{Env}.

Lemma amber_or_gromacs_missing_false :
  is_Some _amber_home ∨ (is_Some _gmx_exe ∧ is_Some _gromacs_path) →
  amber_or_gromacs_missing = false.
Proof.
  unfold amber_or_gromacs_missing.
  intros [[a Ha] | [[g Hg] [p Hp]]].
  - rewrite Ha. by destruct _gmx_exe, _gromacs_path.
  - rewrite Hg, Hp. by destruct _amber_home.
Qed.

Lemma amber_or_gromacs_missing_true :
  ¬ (is_Some _amber_home ∨ (is_Some _gmx_exe ∧ is_Some _gromacs_path)) →
  amber_or_gromacs_missing = true.
Proof.
  unfold amber_or_gromacs_missing. intros Hnot.
  destruct _amber_home as [a |]; [destruct Hnot; left; eauto |].
  destruct _gmx_exe as [g |], _gromacs_path as [p |]; try done.
  destruct Hnot. right. split; eauto.
Qed.

(** The protein force fields [ff99], [ff99SB], [ff99SBildn] and [ff03] start
    a process, each with its own protocol, exactly when AMBER is installed or
    GROMACS is installed with both its executable and its data path;
    otherwise each raises [MissingSoftwareError]. *)
Theorem protein_force_fields_need_amber_or_gromacs (molecule : Molecule)
    (work_dir : option string) (property_map : PropMap) :
  let installed :=
    is_Some _amber_home ∨ (is_Some _gmx_exe ∧ is_Some _gromacs_path) in
  let started protocol :=
    ([], Py.Ok (RetProcess (_Process molecule protocol work_dir true))) in
  let refused (out : outcome) :=
    ∃ e, out = ([], Py.Raise e) ∧ Py.exn_type e = Py.MissingSoftwareError in
  (installed →
     ff99 molecule work_dir property_map = started (FF99 property_map) ∧
     ff99SB molecule work_dir property_map = started (FF99SB property_map) ∧
     ff99SBildn molecule work_dir property_map = started (FF99SBILDN property_map) ∧
     ff03 molecule work_dir property_map = started (FF03 property_map)) ∧
  (¬ installed →
     refused (ff99 molecule work_dir property_map) ∧
     refused (ff99SB molecule work_dir property_map) ∧
     refused (ff99SBildn molecule work_dir property_map) ∧
     refused (ff03 molecule work_dir property_map)).
Proof.
  intros installed started refused. split.
  - intros Hin. unfold ff99, ff99SB, ff99SBildn, ff03.
    by rewrite (amber_or_gromacs_missing_false Hin).
  - intros Hnot. unfold ff99, ff99SB, ff99SBildn, ff03, refused.
    rewrite (amber_or_gromacs_missing_true Hnot).
    repeat split; eexists; (split; [reflexivity | reflexivity]).
Qed.

(** [ff14SB], [gaff] and [gaff2] ask for AMBER: without it they raise
    [MissingSoftwareError] whether or not GROMACS is there, and before the net
    charge is looked at, so also for a net charge that would be refused. *)
Theorem amber_only_force_fields_need_amber (molecule : Molecule)
    (work_dir : option string) (property_map : PropMap) (net_charge : pyval) :
  _amber_home = None →
  let refused (out : outcome) :=
    ∃ e, out = ([], Py.Raise e) ∧ Py.exn_type e = Py.MissingSoftwareError in
  refused (ff14SB molecule work_dir property_map) ∧
  refused (gaff molecule work_dir net_charge property_map) ∧
  refused (gaff2 molecule work_dir net_charge property_map).
Proof.
  intros Hnone refused. unfold ff14SB, gaff, gaff2, refused. rewrite Hnone.
  repeat split; eexists; (split; [reflexivity | reflexivity]).
Qed.

End ToolChains.

Lemma protein_force_fields_need_amber_or_gromacs_witness :
  (is_Some (@_amber_home gromacs_env) ∨
   (is_Some (@_gmx_exe gromacs_env) ∧ is_Some (@_gromacs_path gromacs_env))) ∧
  @ff03 gromacs_env 0 None []
  = ([], Py.Ok (RetProcess
           (@_Process gromacs_env 0 (@FF03 gromacs_env []) None true))) ∧
  ¬ (is_Some (@_amber_home bare_env) ∨
     (is_Some (@_gmx_exe bare_env) ∧ is_Some (@_gromacs_path bare_env))) ∧
  ∃ e, @ff03 bare_env 0 None [] = ([], Py.Raise e) ∧
       Py.exn_type e = Py.MissingSoftwareError.
Proof.
  assert (Hin : is_Some (@_amber_home gromacs_env) ∨
                (is_Some (@_gmx_exe gromacs_env) ∧
                 is_Some (@_gromacs_path gromacs_env))).
  { right. split; simpl; eauto. }
  assert (Hnot : ¬ (is_Some (@_amber_home bare_env) ∨
                    (is_Some (@_gmx_exe bare_env) ∧
                     is_Some (@_gromacs_path bare_env)))).
  { simpl. intros [[a Ha] | [_ [p Hp]]]; discriminate. }
  split; [exact Hin |]. split.
  - exact (proj2 (proj2 (proj2
      (proj1 (@protein_force_fields_need_amber_or_gromacs gromacs_env 0 None [])
         Hin)))).
  - split; [exact Hnot |].
    exact (proj2 (proj2 (proj2
      (proj2 (@protein_force_fields_need_amber_or_gromacs bare_env 0 None [])
         Hnot)))).
Defined.

Lemma amber_only_force_fields_need_amber_witness :
  @_amber_home gromacs_env = None ∧
  ∃ e, @gaff gromacs_env 0 None (PyFloat (Finite (5 # 2))) [] = ([], Py.Raise e) ∧
       Py.exn_type e = Py.MissingSoftwareError.
Proof.
  split; [reflexivity |].
  exact (proj1 (proj2
    (@amber_only_force_fields_need_amber gromacs_env 0 None []
       (PyFloat (Finite (5 # 2))) eq_refl))).
Defined.

(** *** More on the net charge *)

Section NetChargeMore.
Context `{Env}.

(** The second [% 1] test of [gaff2] acts on an integer and never fires:
    [gaff2] and [gaff] treat every net charge alike. *)
Theorem gaff2_net_charge_same_as_gaff (net_charge : pyval) :
  gaff2_net_charge net_charge = gaff_net_charge net_charge.
Proof.
  unfold gaff2_net_charge, gaff_net_charge.
  assert (Hint : ∀ v,
    (net_charge ← match py_int v with
                  | Py.Ok z => Py.Ok z
                  | Py.Raise e =>
                      Py.Raise (Py.exn_during e Py.TypeError
                        "'net_charge' must be of type 'int', or `BioSimSpace.Types.Charge'")
                  end;
     if negb (net_charge mod 1 =? 0)%Z then
       Py.Raise (Py.new_exn Py.ValueError "'net_charge' must be integer valued.")
     else Py.Ok (Some net_charge))
    = match py_int v with
      | Py.Ok z => Py.Ok (Some z)
      | Py.Raise e =>
          Py.Raise (Py.exn_during e Py.TypeError
            "'net_charge' must be of type 'int', or `BioSimSpace.Types.Charge'")
      end).
  { intros v. destruct (py_int v) as [z | e]; simpl; [| done].
    by rewrite Z.mod_1_r. }
  destruct net_charge as [| z | b | f | s | f | o]; try done;
    try (by rewrite Hint);
    (destruct (float_mod1_nonzero f); simpl; [done | by rewrite Hint]).
Qed.

(** A net charge that is no float and that [int] converts is accepted and
    replaced by the integer: an [int] stays as it is, [True] counts as 1, and
    a string goes through if [int] parses it.  [None] stays [None]. *)
Theorem net_charge_accepts_what_int_converts (net_charge : pyval) (z : Z) :
  plain_value net_charge → py_int net_charge = Py.Ok z →
  gaff_net_charge net_charge = Py.Ok (Some z) ∧
  gaff2_net_charge net_charge = Py.Ok (Some z) ∧
  gaff_net_charge (PyInt z) = Py.Ok (Some z) ∧
  gaff_net_charge (PyBool true) = Py.Ok (Some 1%Z) ∧
  gaff_net_charge PyNone = Py.Ok None.
Proof.
  intros (HNone & Hfloat & Hcharge) Hint.
  assert (Hgaff : gaff_net_charge net_charge = Py.Ok (Some z)).
  { destruct net_charge as [| z' | b | f | s | f | o];
      try done; try (by destruct (Hfloat f)); try (by destruct (Hcharge f));
      unfold gaff_net_charge; simpl; simpl in Hint;
      first [by rewrite Hint | by destruct o; simplify_eq | by simplify_eq]. }
  split; [exact Hgaff |]. split; [| by repeat split].
  destruct net_charge as [| z' | b | f | s | f | o];
    try done; try (by destruct (Hfloat f)); try (by destruct (Hcharge f));
    unfold gaff2_net_charge; simpl; simpl in Hint;
    first [rewrite Hint | destruct o; simplify_eq | simplify_eq]; simpl;
    by rewrite ?Z.mod_1_r.
Qed.

End NetChargeMore.

Lemma net_charge_accepts_what_int_converts_witness :
  plain_value (PyBool true) ∧
  @py_int demo_env (PyBool true) = Py.Ok 1%Z ∧
  @gaff2_net_charge demo_env (PyBool true) = Py.Ok (Some 1%Z).
Proof.
  assert (Hplain : plain_value (PyBool true))
    by (repeat split; intros; discriminate).
  split; [exact Hplain |]. split; [reflexivity |].
  exact (proj1 (proj2
    (@net_charge_accepts_what_int_converts demo_env (PyBool true) 1%Z
       Hplain eq_refl))).
Defined.


(** *** More on the registry and the dispatcher *)

Lemma replace_space_no_space (s : string) : no_space (Py.replace " " "" s).
Proof.
  unfold no_space. induction s as [| c s IH]; simpl; [done |].
  destruct (Ascii.eqb c " ") eqn:Hc; rewrite ?append_empty_l; simpl; [done |].
  by rewrite Hc, IH.
Qed.

Lemma lower_no_space `{Py.Unicode} (s : string) :
  no_space s → no_space (Py.lower s).
Proof.
  unfold no_space, Py.lower. destruct (Py.is_ascii s).
  - apply Py.lower_ascii_no_space.
  - apply Py.unicode_lower_no_space.
Qed.

Lemma replace_space_id (s : string) : no_space s → Py.replace " " "" s = s.
Proof.
  unfold no_space. induction s as [| c s IH]; simpl; [done |].
  intros [Hc Hs]%andb_prop. apply negb_true_iff in Hc. rewrite Hc.
  by rewrite IH.
Qed.

Lemma lower_idem `{Py.Unicode} (s : string) :
  Py.lower (Py.lower s) = Py.lower s.
Proof.
  unfold Py.lower. destruct (Py.is_ascii s) eqn:Hs.
  - by rewrite lower_ascii_is_ascii, Hs, Py.lower_ascii_idem.
  - apply Py.unicode_lower_lowered.
Qed.

Section RegistryMore.
Context `{Env}.

Lemma foldl_dirs_flat (dirs : list string) (reg : registry) :
  foldl (λ reg _dir, foldl register_openff reg (glob (_dir +:+ "/*.offxml")))
        reg dirs
  = foldl register_openff reg (dirs ≫= λ _dir, glob (_dir +:+ "/*.offxml")).
Proof.
  revert reg. induction dirs as [| d dirs IH]; intros reg; simpl; [done |].
  by rewrite foldl_app, IH.
Qed.

Lemma the_registry_flat :
  the_registry
  = foldl register_openff
      (foldl register_named empty_registry module_namespace) discovered_files.
Proof. unfold the_registry, discovered_files. apply foldl_dirs_flat. Qed.

Lemma foldl_openff_names (paths : list string) (reg : registry) :
  _forcefields (foldl register_openff reg paths)
  = _forcefields reg ++ (openff_name <$> paths) ∧
  _open_forcefields (foldl register_openff reg paths)
  = _open_forcefields reg ++ (openff_name <$> paths).
Proof.
  revert reg. induction paths as [| p paths IH]; intros reg; simpl.
  - by rewrite !app_nil_r.
  - destruct (IH (register_openff reg p)) as [-> ->].
    unfold register_openff. simpl. by rewrite <- !app_assoc.
Qed.

Lemma foldl_openff_lookup_ne (paths : list string) (reg : registry) (key : string) :
  (∀ path, path ∈ paths → openff_key path ≠ key) →
  _forcefield_dict (foldl register_openff reg paths) !! key
  = _forcefield_dict reg !! key.
Proof.
  revert reg. induction paths as [| p paths IH]; intros reg Hne; simpl; [done |].
  rewrite IH by (intros path Hpath; apply Hne; by right).
  unfold register_openff. simpl.
  apply lookup_insert_ne. apply (Hne p). by left.
Qed.

Lemma named_registry_lookup (key : string) (f : ffunc) :
  named_function key = Some f →
  _forcefield_dict (foldl register_named empty_registry module_namespace) !! key
  = Some (NsFunc f).
Proof.
  unfold named_function.
  repeat match goal with
         | |- context [String.eqb key ?k] =>
             destruct (String.eqb_spec key k) as [-> | _];
             [intros [= <-]; vm_compute; reflexivity |]
         end.
  done.
Qed.

(** [forceFields()] lists the seven named force fields, in the order of
    [dir()], followed by the Open Force Field names; these are the names of
    the definition files found, in the order they were found.  The function
    [parameterise] itself, whose name starts with "p", is not listed. *)
Theorem forceFields_named_then_open :
  forceFields
  = ["ff03"; "ff14SB"; "ff99"; "ff99SB"; "ff99SBildn"; "gaff"; "gaff2"]
    ++ openForceFields ∧
  openForceFields = openff_name <$> discovered_files.
Proof.
  unfold forceFields, openForceFields. rewrite the_registry_flat.
  destruct (foldl_openff_names discovered_files
              (foldl register_named empty_registry module_namespace))
    as [-> ->].
  done.
Qed.

(** Every name that [forceFields()] lists and that has no space is accepted
    by [parameterise]: the dictionary holds a function under its lower-case
    form, and the call is the call of that function. *)
Theorem listed_name_is_dispatched (name : string) :
  name ∈ forceFields → no_space name →
  ∃ f, _forcefield_dict the_registry !! Py.lower name = Some (NsFunc f) ∧
       ∀ molecule work_dir property_map,
         parameterise molecule name work_dir property_map
         = f molecule work_dir property_map.
Proof.
  intros Hin Hspace. destruct the_registry_ok as [Hlow Hdict].
  assert (Hkey : Py.lower name ∈ _forcefields_lower the_registry).
  { rewrite Hlow. by apply list_elem_of_fmap_2. }
  destruct (proj1 (Hdict _) Hkey) as [obj Hobj].
  destruct (all_functions_the_registry _ _ Hobj) as [f ->].
  exists f. split; [done |]. intros molecule work_dir property_map.
  unfold parameterise. rewrite (replace_space_id name Hspace).
  by rewrite bool_decide_eq_true_2, Hobj.
Qed.

(** A name whose normal form is the lower-case name of one of the seven
    named functions reaches that function ([gaff] and [gaff2] without a net
    charge), unless a definition file found at import time has taken its
    key. *)
Theorem named_force_field_dispatch (forcefield : string) (f : ffunc)
    (molecule : Molecule) (work_dir : option string) (property_map : PropMap) :
  named_function (normalise forcefield) = Some f →
  unshadowed (normalise forcefield) →
  parameterise molecule forcefield work_dir property_map
  = f molecule work_dir property_map.
Proof.
  intros Hnamed Hfree. destruct the_registry_ok as [_ Hdict].
  assert (Hlookup : _forcefield_dict the_registry !! normalise forcefield
                    = Some (NsFunc f)).
  { rewrite the_registry_flat, foldl_openff_lookup_ne by exact Hfree.
    by apply named_registry_lookup. }
  unfold parameterise. fold (normalise forcefield).
  rewrite bool_decide_eq_true_2 by (apply Hdict; eauto).
  by rewrite Hlookup.
Qed.

(** The normal form of a name has no space, is its own normal form, and is
    dispatched as the name is. *)
Theorem normalise_stable (forcefield : string) :
  no_space (normalise forcefield) ∧
  normalise (normalise forcefield) = normalise forcefield ∧
  ∀ molecule work_dir property_map,
    parameterise molecule (normalise forcefield) work_dir property_map
    = parameterise molecule forcefield work_dir property_map.
Proof.
  assert (Hspace : no_space (normalise forcefield))
    by apply lower_no_space, replace_space_no_space.
  assert (Hidem : normalise (normalise forcefield) = normalise forcefield).
  { unfold normalise at 1. rewrite (replace_space_id _ Hspace).
    unfold normalise. apply lower_idem. }
  split; [exact Hspace |]. split; [exact Hidem |].
  intros molecule work_dir property_map. unfold parameterise.
  fold (normalise (normalise forcefield)). fold (normalise forcefield).
  by rewrite Hidem.
Qed.

End RegistryMore.

Lemma listed_name_is_dispatched_witness :
  "ff99SBildn" ∈ @forceFields demo_env ∧ no_space "ff99SBildn" ∧
  ∃ f, ∀ molecule work_dir property_map,
    @parameterise demo_env molecule "ff99SBildn" work_dir property_map
    = f molecule work_dir property_map.
Proof.
  assert (Hin : "ff99SBildn" ∈ @forceFields demo_env).
  { rewrite forceFields_demo. do 4 apply list_elem_of_further.
    apply list_elem_of_here. }
  assert (Hspace : no_space "ff99SBildn") by reflexivity.
  split; [exact Hin |]. split; [exact Hspace |].
  destruct (@listed_name_is_dispatched demo_env "ff99SBildn" Hin Hspace)
    as (f & _ & Hf).
  exists f. exact Hf.
Defined.

Section RegistryOnDemo.
#[local] Existing Instance demo_env.

Lemma named_force_field_dispatch_witness :
  @unshadowed demo_env (normalise "FF14 SB") ∧
  @parameterise demo_env 0 "FF14 SB" None [] = @ff14SB demo_env 0 None [].
Proof.
  assert (Hfree : @unshadowed demo_env (normalise "FF14 SB")).
  { intros path Hpath. vm_compute in Hpath.
    apply list_elem_of_singleton in Hpath as ->. vm_compute. discriminate. }
  split; [exact Hfree |].
  exact (@named_force_field_dispatch demo_env "FF14 SB" (@ff14SB demo_env)
           0 None [] eq_refl Hfree).
Defined.

(** The definition file of the small installation is dispatched to a
    function that returns [None]. *)
Lemma openff_dispatch_returns_None_witness :
  "/opt/openff" ∈ @_openff_dirs demo_env ∧
  "/opt/openff/openff-1.0.0.offxml" ∈ @glob demo_env ("/opt/openff" +:+ "/*.offxml") ∧
  normalise "OpenFF-1.0.0" = openff_key "/opt/openff/openff-1.0.0.offxml" ∧
  ∃ printed, @parameterise demo_env 0 "OpenFF-1.0.0" None []
             = (printed, Py.Ok RetNone).
Proof.
  assert (Hdir : "/opt/openff" ∈ @_openff_dirs demo_env)
    by apply list_elem_of_here.
  assert (Hpath : "/opt/openff/openff-1.0.0.offxml"
                  ∈ @glob demo_env ("/opt/openff" +:+ "/*.offxml"))
    by apply list_elem_of_here.
  split; [exact Hdir |]. split; [exact Hpath |]. split; [reflexivity |].
  exact (@openff_dispatch_returns_None demo_env "/opt/openff"
           "/opt/openff/openff-1.0.0.offxml" "OpenFF-1.0.0" 0 None []
           Hdir Hpath eq_refl).
Defined.

End RegistryOnDemo.

End ParametersFacts.

(** ** Properties of the alignment module *)

Module AlignFacts.
Import Align.

(** *** Comprehensions and indexing *)

Lemma list_comp_Forall2 {A B} (f : A → Py.result B) (xs : list A) (ys : list B) :
  Forall2 (λ x y, f x = Py.Ok y) xs ys → Py.list_comp f xs = Py.Ok ys.
Proof.
  induction 1 as [| x y xs ys Hxy _ IH]; simpl; [done |].
  by rewrite Hxy, IH.
Qed.

Lemma index_Ok {A} (l : list A) (k : nat) (x : A) :
  l !! k = Some x → Py.index l k = Py.Ok x.
Proof. intros Hk. unfold Py.index. by rewrite Hk. Qed.

Lemma omap_lookup_Forall2 {A} (l : list A) (keys : list nat) (xs : list A) :
  Forall2 (λ k x, l !! k = Some x) keys xs → omap (l !!.) keys = xs.
Proof.
  induction 1 as [| k x keys xs Hk _ IH]; simpl; [done |].
  rewrite Hk. f_equal. exact IH.
Qed.

Lemma omap_lookup_seq {A} (pre l : list A) :
  omap ((pre ++ l) !!.) (seq (length pre) (length l)) = l.
Proof.
  revert pre. induction l as [| a l IH]; intros pre; simpl; [done |].
  rewrite list_lookup_middle by done.
  specialize (IH (pre ++ [a])). rewrite <- app_assoc, length_app in IH.
  simpl in IH. rewrite Nat.add_1_r in IH. f_equal. exact IH.
Qed.

(** Taking the elements of [l] at a permutation of its positions gives a
    permutation of [l]. *)
Lemma lookup_keys_Permutation {A} (l : list A) (keys : list nat) (xs : list A) :
  keys ≡ₚ seq 0 (length l) →
  Forall2 (λ k x, l !! k = Some x) keys xs → xs ≡ₚ l.
Proof.
  intros Hperm Hall.
  rewrite <- (omap_lookup_Forall2 l keys xs Hall).
  pose proof (omap_lookup_seq [] l) as Hseq. simpl in Hseq.
  etrans; [by apply omap_Permutation | by rewrite Hseq].
Qed.

Lemma zip_seq_lookup {A} (pre l : list A) :
  Forall (λ p, (pre ++ l) !! p.2 = Some p.1)
         (zip l (seq (length pre) (length l))).
Proof.
  revert pre. induction l as [| a l IH]; intros pre; simpl; [done |].
  constructor.
  - simpl. by apply list_lookup_middle.
  - specialize (IH (pre ++ [a])). rewrite <- app_assoc, length_app in IH.
    simpl in IH. by rewrite Nat.add_1_r in IH.
Qed.

Lemma zip_seq_snd {A} (l : list A) (j : nat) :
  (zip l (seq j (length l))).*2 = seq j (length l).
Proof. apply snd_zip. by rewrite length_seq. Qed.


Lemma lookup_all_keys {A} (l : list A) (keys : list nat) :
  Forall (λ k, k < length l) keys →
  ∃ xs, Forall2 (λ k x, l !! k = Some x) keys xs.
Proof.
  induction 1 as [| k keys Hk _ [xs IH]].
  - by exists [].
  - destruct (lookup_lt_is_Some_2 l k Hk) as [x Hx].
    exists (x :: xs). by constructor.
Qed.

Lemma StronglySorted_lookup {A} (R : relation A) (l : list A) (i j : nat) (x y : A) :
  StronglySorted R l → i < j → l !! i = Some x → l !! j = Some y → R x y.
Proof.
  intros Hsorted. revert i j.
  induction Hsorted as [| a l _ IH Hall]; intros i j Hij Hi Hj.
  - by rewrite lookup_nil in Hi.
  - destruct j as [| j]; [lia |]. simpl in Hj. destruct i as [| i]; simpl in Hi.
    + injection Hi as <-. rewrite Forall_forall in Hall.
      apply Hall. by apply list_elem_of_lookup_2 in Hj.
    + apply (IH i j); [lia | done | done].
Qed.

(** *** The sort behind [sorted] *)

Example sorted_is_stable :
  @sort_by_key demo_toolkit string [(3, "a"); (1, "b"); (3, "c"); (1, "d")]%Z
  = [(1, "b"); (1, "d"); (3, "a"); (3, "c")]%Z.
Proof. reflexivity. Qed.

Example _score_rmsd_as_is :
  @_score_rmsd demo_toolkit demo_molecule0 demo_molecule1
    [ [(2, 2)]; [(0, 0)]; [(1, 1)]; [(0, 0); (1, 1)] ]%Z false
  = Py.Ok ([ [(0, 0)]; [(1, 1)]; [(0, 0); (1, 1)]; [(2, 2)] ]%Z,
           [ @angstrom demo_toolkit 1; @angstrom demo_toolkit 1;
             @angstrom demo_toolkit 2; @angstrom demo_toolkit 4 ]%Z).
Proof. vm_compute. reflexivity. Qed.

Example matchAtoms_best_of_two :
  @matchAtoms demo_toolkit demo_molecule0 demo_molecule1 "RMSD align" 1 false
    [] 5%Z true [] [] false
  = Py.Ok (RetMapping [(0, 0); (1, 1)]%Z).
Proof. vm_compute. reflexivity. Qed.

Section Sorting.
Context `{Toolkit}.

Lemma insert_by_key_Permutation {A} (kx : Score * A) (l : list (Score * A)) :
  insert_by_key kx l ≡ₚ kx :: l.
Proof.
  induction l as [| ky l IH]; simpl; [done |].
  destruct (score_lt ky.1 kx.1); [| done].
  rewrite IH. apply Permutation_swap.
Qed.

Lemma sort_by_key_Permutation {A} (l : list (Score * A)) : sort_by_key l ≡ₚ l.
Proof.
  induction l as [| kx l IH]; simpl; [done |].
  by rewrite insert_by_key_Permutation, IH.
Qed.

Lemma insert_by_key_before (kx : Score * nat) (l : list (Score * nat)) :
  strict_weak_order →
  StronglySorted before l → Forall (λ ky, kx.2 < ky.2) l →
  StronglySorted before (insert_by_key kx l).
Proof.
  intros [Hasym Htrans] Hsorted. induction Hsorted as [| ky l Hl IH Hky];
    intros Hidx; simpl.
  - repeat constructor.
  - apply Forall_cons in Hidx as [Hidx_ky Hidx_l].
    destruct (score_lt ky.1 kx.1) eqn:Hlt.
    + constructor; [by apply IH |].
      rewrite insert_by_key_Permutation. constructor; [| done].
      split.
      * by apply Hasym.
      * unfold score_le. intros Hle. congruence.
    + constructor; [by constructor |].
      constructor.
      * split; [done | by intros _].
      * rewrite Forall_forall in Hky, Hidx_l. apply Forall_forall.
        intros kz Hkz. split.
        -- destruct (Hky kz Hkz) as [Hle _]. by apply (Htrans _ ky.1).
        -- intros _. by apply Hidx_l.
Qed.

Lemma sort_by_key_before (l : list (Score * nat)) :
  strict_weak_order →
  StronglySorted lt l.*2 → StronglySorted before (sort_by_key l).
Proof.
  intros Horder. induction l as [| kx l IH]; intros Hidx.
  - constructor.
  - rewrite fmap_cons in Hidx.
    apply StronglySorted_inv in Hidx as [Hidx_l Hidx_kx].
    simpl. apply insert_by_key_before; [done | by apply IH |].
    rewrite sort_by_key_Permutation. rewrite Forall_fmap in Hidx_kx.
    exact Hidx_kx.
Qed.

Lemma seq_StronglySorted (j n : nat) : StronglySorted lt (seq j n).
Proof.
  revert j. induction n as [| n IH]; intros j; simpl; constructor.
  - apply IH.
  - apply Forall_forall. intros k Hk. apply elem_of_seq in Hk. lia.
Qed.

(** [sorted(range(len(scores)), key=lambda k: scores[k])]. *)
Lemma sorted_range (scores : list Score) :
  sorted (λ k, Py.index scores k) (seq 0 (length scores))
  = Py.Ok (sort_by_key (zip scores (seq 0 (length scores)))).*2.
Proof.
  unfold sorted.
  rewrite (list_comp_Forall2 _ _ (zip scores (seq 0 (length scores)))); [done |].
  pose proof (zip_seq_lookup [] scores) as Hzip. simpl in Hzip.
  rewrite <- (zip_seq_snd scores 0) at 1.
  apply Forall2_fmap_l, Forall_Forall2_diag.
  eapply Forall_impl; [exact Hzip |].
  intros [s k] Hk. simpl in *. by rewrite (index_Ok _ _ _ Hk).
Qed.

End Sorting.


(** *** [_score_rmsd] *)

Section Scoring.
Context `{Toolkit}.

Lemma score_loop_length (molecule0 molecule1 : SireMolecule)
    (mappings : list Mapping) (is_align : bool) (raw : list Score) :
  score_loop molecule0 molecule1 mappings is_align = Py.Ok raw →
  length raw = length mappings.
Proof.
  revert molecule0 raw.
  induction mappings as [| mapping rest IH]; intros molecule0 raw; simpl.
  - by intros [= <-].
  - destruct is_align; simpl.
    + destruct (align molecule0 molecule1 mapping) as [aligned | e]; simpl; [| done].
      destruct (score_loop aligned molecule1 rest true) as [scores | e] eqn:Hrest;
        simpl; [| done].
      intros [= <-]. simpl. f_equal. by apply (IH aligned).
    + destruct (score_loop molecule0 molecule1 rest false) as [scores | e] eqn:Hrest;
        simpl; [| done].
      intros [= <-]. simpl. f_equal. by apply (IH molecule0).
Qed.

(** Without alignment the loop scores every mapping on the molecules as
    they are given. *)
Lemma score_loop_as_is (molecule0 molecule1 : SireMolecule)
    (mappings : list Mapping) :
  score_loop molecule0 molecule1 mappings false
  = Py.Ok (rmsd_of molecule0 molecule1 <$> mappings).
Proof.
  induction mappings as [| mapping rest IH]; simpl; [done |].
  by rewrite IH.
Qed.

(** With alignment the loop returns when every fit succeeds. *)
Lemma score_loop_aligned (molecule0 molecule1 : SireMolecule)
    (mappings : list Mapping) :
  fits_succeed molecule0 molecule1 mappings →
  ∃ raw, score_loop molecule0 molecule1 mappings true = Py.Ok raw.
Proof.
  unfold fits_succeed. revert molecule0.
  induction mappings as [| mapping rest IH]; intros molecule0; simpl.
  - by eexists.
  - destruct (align molecule0 molecule1 mapping) as [aligned | e]; simpl.
    + intros Hrest. destruct (IH aligned Hrest) as [scores Hscores].
      rewrite Hscores. simpl. by eexists.
    + by intros [final Hfinal].
Qed.

(** What [_score_rmsd] returns once the loop has produced the raw scores:
    the mappings and the scores taken at the sorted positions. *)
Lemma _score_rmsd_sorted_keys (molecule0 molecule1 : SireMolecule)
    (mappings : list Mapping) (is_align : bool) (raw : list Score) :
  score_loop molecule0 molecule1 mappings is_align = Py.Ok raw →
  let ranked := sort_by_key (zip raw (seq 0 (length raw))) in
  ∃ sorted_mappings,
    _score_rmsd molecule0 molecule1 mappings is_align
    = Py.Ok (sorted_mappings, (λ p, angstrom p.1) <$> ranked) ∧
    Forall2 (λ k m, mappings !! k = Some m) ranked.*2 sorted_mappings ∧
    Forall (λ p, raw !! p.2 = Some p.1) ranked.
Proof.
  intros Hloop ranked.
  pose proof (score_loop_length _ _ _ _ _ Hloop) as Hlen.
  assert (Hranked : Forall (λ p, raw !! p.2 = Some p.1) ranked).
  { unfold ranked. rewrite sort_by_key_Permutation.
    exact (zip_seq_lookup [] raw). }
  assert (Hbound : Forall (λ k, k < length mappings) ranked.*2).
  { rewrite Forall_fmap. eapply Forall_impl; [exact Hranked |].
    intros p Hp. simpl. rewrite <- Hlen. by apply lookup_lt_Some in Hp. }
  destruct (lookup_all_keys mappings _ Hbound) as [sorted_mappings Hms].
  exists sorted_mappings. split; [| by split].
  unfold _score_rmsd. rewrite Hloop. simpl.
  rewrite sorted_range. fold ranked. simpl.
  rewrite (list_comp_Forall2 _ _ sorted_mappings).
  2:{ eapply Forall2_impl; [exact Hms |]. intros k m Hk. by apply index_Ok. }
  simpl.
  rewrite (list_comp_Forall2 _ _ ((λ p, angstrom p.1) <$> ranked)); [done |].
  apply Forall2_fmap, Forall_Forall2_diag.
  eapply Forall_impl; [exact Hranked |].
  intros p Hp. simpl. by rewrite (index_Ok _ _ _ Hp).
Qed.

(** C1: when the comparison of scores is a strict weak order and, in
    align-then-score mode, every fit succeeds, [_score_rmsd] returns a pair
    [(mappings, scores)]: the mappings are a permutation of the candidates,
    the scores are in non-decreasing order, the i-th score is the score the
    loop computed for the i-th returned mapping (its RMSD on the molecules as
    given when no alignment is asked for), and candidates with equal scores
    come in the order they had in the input. *)
Theorem score_rmsd_sorted_stable (molecule0 molecule1 : SireMolecule)
    (mappings : list Mapping) (is_align : bool) :
  strict_weak_order →
  (is_align = true → fits_succeed molecule0 molecule1 mappings) →
  ∃ raw keys sorted_mappings sorted_scores,
    _score_rmsd molecule0 molecule1 mappings is_align
    = Py.Ok (sorted_mappings, sorted_scores) ∧
    score_loop molecule0 molecule1 mappings is_align = Py.Ok raw ∧
    (is_align = false → raw = rmsd_of molecule0 molecule1 <$> mappings) ∧
    sorted_mappings ≡ₚ mappings ∧
    StronglySorted (λ a b, score_le (magnitude a) (magnitude b)) sorted_scores ∧
    keys ≡ₚ seq 0 (length mappings) ∧
    Forall2 (λ k m, mappings !! k = Some m) keys sorted_mappings ∧
    Forall2 (λ k s, ∃ r, raw !! k = Some r ∧ s = angstrom r) keys sorted_scores ∧
    (∀ i j ki kj si sj,
       i < j → keys !! i = Some ki → keys !! j = Some kj →
       raw !! ki = Some si → raw !! kj = Some sj →
       score_lt si sj = false → score_lt sj si = false → ki < kj).
Proof.
  intros Horder Hfits.
  assert (∃ raw, score_loop molecule0 molecule1 mappings is_align = Py.Ok raw)
    as [raw Hloop].
  { destruct is_align.
    - by apply score_loop_aligned, Hfits.
    - eexists. apply score_loop_as_is. }
  pose proof (score_loop_length _ _ _ _ _ Hloop) as Hlen.
  destruct (_score_rmsd_sorted_keys _ _ _ _ _ Hloop)
    as (sorted_mappings & Hret & Hms & Hranked).
  set (ranked := sort_by_key (zip raw (seq 0 (length raw)))) in *.
  assert (Hsorted : StronglySorted before ranked).
  { apply sort_by_key_before; [done |].
    rewrite zip_seq_snd. apply seq_StronglySorted. }
  assert (Hkeys : ranked.*2 ≡ₚ seq 0 (length mappings)).
  { unfold ranked. rewrite sort_by_key_Permutation, zip_seq_snd.
    rewrite Hlen. reflexivity. }
  exists raw, ranked.*2, sorted_mappings, ((λ p, angstrom p.1) <$> ranked).
  split; [exact Hret |]. split; [exact Hloop |]. split.
  { intros ->. rewrite score_loop_as_is in Hloop. by injection Hloop as <-. }
  split; [by apply (lookup_keys_Permutation mappings ranked.*2) |]. split.
  { eapply StronglySorted_fmap; [| exact Hsorted]. by intros p q [Hle _]. }
  split; [exact Hkeys |]. split; [exact Hms |]. split.
  { apply Forall2_fmap, Forall_Forall2_diag.
    eapply Forall_impl; [exact Hranked |]. intros p Hp. simpl.
    exists p.1. by split. }
  intros i j ki kj si sj Hij Hi Hj Hsi Hsj Hlt1 Hlt2.
  apply list_lookup_fmap_Some in Hi as (p & -> & Hp).
  apply list_lookup_fmap_Some in Hj as (q & -> & Hq).
  rewrite Forall_forall in Hranked.
  pose proof (Hranked p (list_elem_of_lookup_2 _ _ _ Hp)) as Hp1.
  pose proof (Hranked q (list_elem_of_lookup_2 _ _ _ Hq)) as Hq1.
  rewrite Hsi in Hp1. rewrite Hsj in Hq1.
  injection Hp1 as Hp1. injection Hq1 as Hq1.
  destruct (StronglySorted_lookup before ranked i j p q Hsorted Hij Hp Hq)
    as [_ Hstable].
  apply Hstable. unfold score_le. by rewrite <- Hp1, <- Hq1.
Qed.

End Scoring.


(** The theorem on the toy toolkit, in align-then-score mode: three
    candidates, two of them with equal scores. *)
Lemma score_rmsd_sorted_stable_witness :
  @strict_weak_order demo_toolkit ∧
  @fits_succeed demo_toolkit [0; 5; 9]%Z [1; 4; 7]%Z
    [ [(0, 0); (1, 1)]; [(1, 1)]; [(0, 0); (1, 1)] ]%Z ∧
  ∃ sorted_mappings sorted_scores,
    @_score_rmsd demo_toolkit [0; 5; 9]%Z [1; 4; 7]%Z
      [ [(0, 0); (1, 1)]; [(1, 1)]; [(0, 0); (1, 1)] ]%Z true
    = Py.Ok (sorted_mappings, sorted_scores) ∧
    sorted_mappings ≡ₚ [ [(0, 0); (1, 1)]; [(1, 1)]; [(0, 0); (1, 1)] ]%Z.
Proof.
  assert (Horder : @strict_weak_order demo_toolkit).
  { split; simpl.
    - intros a b Hab. apply Z.ltb_lt in Hab. apply Z.ltb_ge. lia.
    - intros a b c Hab Hbc. apply Z.ltb_ge in Hab, Hbc. apply Z.ltb_ge. lia. }
  assert (Hfits : @fits_succeed demo_toolkit [0; 5; 9]%Z [1; 4; 7]%Z
            [ [(0, 0); (1, 1)]; [(1, 1)]; [(0, 0); (1, 1)] ]%Z).
  { eexists. vm_compute. reflexivity. }
  split; [exact Horder |]. split; [exact Hfits |].
  destruct (@score_rmsd_sorted_stable demo_toolkit [0; 5; 9]%Z [1; 4; 7]%Z
              [ [(0, 0); (1, 1)]; [(1, 1)]; [(0, 0); (1, 1)] ]%Z true
              Horder (λ _, Hfits))
    as (raw & keys & sorted_mappings & sorted_scores & Hret & _ & _ & Hperm & _).
  exists sorted_mappings, sorted_scores. split; [exact Hret | exact Hperm].
Defined.

(** *** [matchAtoms] *)

Section MatchAtoms.
Context `{Toolkit}.

Lemma take_larger_cases (m0 m1 : list Mapping) :
  take_larger m0 m1
  = match m0 !! 0, m1 !! 0 with
    | Some best0, Some best1 =>
        if (length best0 <? length best1)%nat then m1 else m0
    | None, Some _ => m1
    | _, None => m0
    end.
Proof. by destruct m0, m1. Qed.

(** Once the arguments are accepted and the prematch is settled, the rest of
    [matchAtoms] is the two searches, the choice between them and the last
    block. *)
Lemma matchAtoms_searches (molecule0 molecule1 : Molecule)
    (scoring_function : string) (matches : Z) (return_scores : bool)
    (prematch : Mapping) (timeout : Time) (match_light : bool)
    (property_map0 property_map1 : PropMap) (verbose : bool)
    (sf : string) (seed : Mapping) :
  validate molecule0 molecule1 scoring_function matches prematch = Py.Ok sf →
  seed_prematch molecule0 molecule1 prematch = Py.Ok seed →
  matchAtoms molecule0 molecule1 scoring_function matches return_scores
    prematch timeout match_light property_map0 property_map1 verbose
  = return_matches (_getSireMolecule molecule0) (_getSireMolecule molecule1)
      (take_larger
         (findMCSmatches (_getSireMolecule molecule0) (_getSireMolecule molecule1)
            seed (sire_time timeout) match_light property_map0 property_map1
            6 verbose)
         (findMCSmatches (_getSireMolecule molecule0) (_getSireMolecule molecule1)
            seed (sire_time timeout) match_light property_map0 property_map1
            0 verbose))
      (String.eqb sf "RMSDALIGN") matches return_scores.
Proof. intros Hvalid Hseed. unfold matchAtoms. by rewrite Hvalid, Hseed. Qed.

(** C2: for accepted arguments, [matchAtoms] searches twice with the same
    prematch and the same time budget, with width 6 (no heavy/light
    cross-matches) and width 0 (cross-matches allowed), and goes on with one
    of the two results: the widened one when its first mapping has strictly
    more pairs than the first strict one, or when the strict search found
    nothing; the strict one when the widened search found nothing or when the
    first mappings tie (or the strict one is larger). *)
Theorem matchAtoms_keeps_larger_search (molecule0 molecule1 : Molecule)
    (scoring_function : string) (matches : Z) (return_scores : bool)
    (prematch : Mapping) (timeout : Time) (match_light : bool)
    (property_map0 property_map1 : PropMap) (verbose : bool)
    (sf : string) (seed : Mapping) :
  validate molecule0 molecule1 scoring_function matches prematch = Py.Ok sf →
  seed_prematch molecule0 molecule1 prematch = Py.Ok seed →
  let mol0 := _getSireMolecule molecule0 in
  let mol1 := _getSireMolecule molecule1 in
  let strict := findMCSmatches mol0 mol1 seed (sire_time timeout) match_light
                  property_map0 property_map1 6 verbose in
  let widened := findMCSmatches mol0 mol1 seed (sire_time timeout) match_light
                   property_map0 property_map1 0 verbose in
  ∃ kept,
    matchAtoms molecule0 molecule1 scoring_function matches return_scores
      prematch timeout match_light property_map0 property_map1 verbose
    = return_matches mol0 mol1 kept (String.eqb sf "RMSDALIGN") matches
        return_scores ∧
    (∀ best0 best1, strict !! 0 = Some best0 → widened !! 0 = Some best1 →
       length best0 < length best1 → kept = widened) ∧
    (∀ best0 best1, strict !! 0 = Some best0 → widened !! 0 = Some best1 →
       length best1 ≤ length best0 → kept = strict) ∧
    (widened = [] → kept = strict) ∧
    (strict = [] → kept = widened).
Proof.
  intros Hvalid Hseed mol0 mol1 strict widened.
  exists (take_larger strict widened). split.
  - by apply matchAtoms_searches.
  - rewrite take_larger_cases. repeat split.
    + intros best0 best1 -> -> Hlt.
      by rewrite (proj2 (Nat.ltb_lt _ _) Hlt).
    + intros best0 best1 -> -> Hle.
      by rewrite (proj2 (Nat.ltb_ge _ _) Hle).
    + intros ->. simpl. by destruct (strict !! 0).
    + intros ->. simpl. by destruct widened.
Qed.

(** C4: for accepted arguments, when both searches return no mapping
    [matchAtoms] returns [None]. *)
Theorem matchAtoms_no_match_is_None (molecule0 molecule1 : Molecule)
    (scoring_function : string) (matches : Z) (return_scores : bool)
    (prematch : Mapping) (timeout : Time) (match_light : bool)
    (property_map0 property_map1 : PropMap) (verbose : bool)
    (sf : string) (seed : Mapping) :
  validate molecule0 molecule1 scoring_function matches prematch = Py.Ok sf →
  seed_prematch molecule0 molecule1 prematch = Py.Ok seed →
  findMCSmatches (_getSireMolecule molecule0) (_getSireMolecule molecule1)
    seed (sire_time timeout) match_light property_map0 property_map1 6 verbose
  = [] →
  findMCSmatches (_getSireMolecule molecule0) (_getSireMolecule molecule1)
    seed (sire_time timeout) match_light property_map0 property_map1 0 verbose
  = [] →
  matchAtoms molecule0 molecule1 scoring_function matches return_scores
    prematch timeout match_light property_map0 property_map1 verbose
  = Py.Ok RetNone.
Proof.
  intros Hvalid Hseed Hstrict Hwidened.
  rewrite (matchAtoms_searches _ _ _ _ _ _ _ _ _ _ _ sf seed Hvalid Hseed).
  by rewrite Hstrict, Hwidened.
Qed.

(** The scorer returns as soon as its loop does, with as many mappings and
    scores as there are candidates. *)
Lemma _score_rmsd_returns (mol0 mol1 : SireMolecule) (mappings : list Mapping)
    (is_align : bool) :
  (is_align = true → fits_succeed mol0 mol1 mappings) →
  ∃ sorted_mappings sorted_scores,
    _score_rmsd mol0 mol1 mappings is_align
    = Py.Ok (sorted_mappings, sorted_scores) ∧
    length sorted_mappings = length mappings ∧
    length sorted_scores = length mappings.
Proof.
  intros Hfits.
  assert (∃ raw, score_loop mol0 mol1 mappings is_align = Py.Ok raw)
    as [raw Hloop].
  { destruct is_align.
    - by apply score_loop_aligned, Hfits.
    - eexists. apply score_loop_as_is. }
  pose proof (score_loop_length _ _ _ _ _ Hloop) as Hlen.
  destruct (_score_rmsd_sorted_keys _ _ _ _ _ Hloop)
    as (sorted_mappings & Hret & Hms & _).
  eexists _, _. split; [exact Hret |].
  apply Forall2_length in Hms. rewrite <- Hms.
  rewrite !length_fmap.
  assert (length (sort_by_key (zip raw (seq 0 (length raw)))) = length mappings)
    as ->; [| done].
  rewrite sort_by_key_Permutation, length_zip, length_seq. lia.
Qed.

(** The scores the scorer returns are in non-decreasing order. *)
Lemma _score_rmsd_scores_sorted (mol0 mol1 : SireMolecule)
    (mappings : list Mapping) (is_align : bool)
    (sorted_mappings : list Mapping) (sorted_scores : list Length) :
  strict_weak_order →
  _score_rmsd mol0 mol1 mappings is_align
  = Py.Ok (sorted_mappings, sorted_scores) →
  StronglySorted (λ a b, score_le (magnitude a) (magnitude b)) sorted_scores.
Proof.
  intros Horder Hret.
  destruct (score_loop mol0 mol1 mappings is_align) as [raw | e] eqn:Hloop.
  2:{ unfold _score_rmsd in Hret. by rewrite Hloop in Hret. }
  destruct (_score_rmsd_sorted_keys _ _ _ _ _ Hloop) as (ms & Hret' & _ & _).
  rewrite Hret in Hret'. injection Hret' as _ ->.
  eapply StronglySorted_fmap.
  2:{ apply sort_by_key_before; [done |].
      rewrite zip_seq_snd. apply seq_StronglySorted. }
  by intros p q [Hle _].
Qed.

Lemma StronglySorted_take {A} (R : relation A) (n : nat) (l : list A) :
  StronglySorted R l → StronglySorted R (take n l).
Proof.
  intros Hl. rewrite <- (take_drop n l) in Hl.
  by apply StronglySorted_app_1_l in Hl.
Qed.

Lemma score_le_refl (a : Score) : strict_weak_order → score_le a a.
Proof.
  intros [Hasym _]. unfold score_le.
  destruct (score_lt a a) eqn:Haa; [| done]. by rewrite (Hasym a a Haa) in Haa.
Qed.

(** With alignment, the raw score at position [k] is the RMSD of the
    candidate on the first molecule as fitted through the candidates up to
    and including [k]. *)
Lemma score_loop_aligned_scores (mol0 mol1 : SireMolecule)
    (mappings : list Mapping) (raw : list Score) :
  score_loop mol0 mol1 mappings true = Py.Ok raw →
  ∀ k mapping, mappings !! k = Some mapping →
    ∃ current,
      aligned_through mol0 mol1 (take (S k) mappings) = Py.Ok current ∧
      raw !! k = Some (rmsd_of current mol1 mapping).
Proof.
  revert mol0 raw.
  induction mappings as [| first rest IH]; intros mol0 raw Hloop k mapping Hk.
  - by rewrite lookup_nil in Hk.
  - simpl in Hloop.
    destruct (align mol0 mol1 first) as [aligned | e] eqn:Hfit; simpl in Hloop;
      [| done].
    destruct (score_loop aligned mol1 rest true) as [scores | e] eqn:Hrest;
      simpl in Hloop; [| done].
    injection Hloop as <-.
    destruct k as [| k]; simpl in Hk.
    + injection Hk as <-. exists aligned. simpl. by rewrite Hfit.
    + destruct (IH aligned scores Hrest k mapping Hk) as (current & Hcur & Hraw).
      exists current. split; [| done].
      change (take (S (S k)) (first :: rest)) with (first :: take (S k) rest).
      simpl. by rewrite Hfit.
Qed.

Lemma Forall2_through_keys {K A B} (P : K → A → Prop) (Q : K → B → Prop)
    (keys : list K) (xs : list A) (ys : list B) :
  Forall2 P keys xs → Forall2 Q keys ys →
  Forall2 (λ x y, ∃ k, P k x ∧ Q k y) xs ys.
Proof.
  intros HP. revert ys.
  induction HP as [| k x keys xs Hkx _ IH]; intros ys HQ.
  - apply Forall2_nil_inv_l in HQ as ->. constructor.
  - apply Forall2_cons_inv_l in HQ as (y & ys' & Hky & HQ & ->).
    constructor; [by exists k | by apply IH].
Qed.

(** What ties the two lists [_score_rmsd] returns: they are the candidates
    and the raw scores of the loop, taken at the same positions, and these
    positions are the candidates' positions in the order of their scores. *)
Lemma _score_rmsd_ranking (mol0 mol1 : SireMolecule) (mappings : list Mapping)
    (is_align : bool) (sorted_mappings : list Mapping)
    (sorted_scores : list Length) :
  strict_weak_order →
  _score_rmsd mol0 mol1 mappings is_align
  = Py.Ok (sorted_mappings, sorted_scores) →
  ∃ raw keys,
    score_loop mol0 mol1 mappings is_align = Py.Ok raw ∧
    length raw = length mappings ∧
    keys ≡ₚ seq 0 (length mappings) ∧
    Forall2 (λ k m, mappings !! k = Some m) keys sorted_mappings ∧
    Forall2 (λ k s, ∃ r, raw !! k = Some r ∧ s = angstrom r) keys sorted_scores ∧
    StronglySorted (λ a b, score_le (magnitude a) (magnitude b)) sorted_scores.
Proof.
  intros Horder Hret.
  pose proof (_score_rmsd_scores_sorted _ _ _ _ _ _ Horder Hret) as Hsorted.
  destruct (score_loop mol0 mol1 mappings is_align) as [raw | e] eqn:Hloop.
  2:{ unfold _score_rmsd in Hret. by rewrite Hloop in Hret. }
  pose proof (score_loop_length _ _ _ _ _ Hloop) as Hlen.
  destruct (_score_rmsd_sorted_keys _ _ _ _ _ Hloop)
    as (ms & Hret' & Hms & Hranked).
  rewrite Hret in Hret'. injection Hret' as -> ->.
  exists raw, (sort_by_key (zip raw (seq 0 (length raw)))).*2.
  split; [done |]. split; [exact Hlen |]. split.
  { rewrite sort_by_key_Permutation, zip_seq_snd, Hlen. reflexivity. }
  split; [exact Hms |]. split; [| exact Hsorted].
  apply Forall2_fmap, Forall_Forall2_diag.
  eapply Forall_impl; [exact Hranked |]. intros p Hp. simpl.
  exists p.1. by split.
Qed.

(** The first of the sorted scores is not greater than the score of any
    candidate. *)
Lemma sorted_head_lowest (raw : list Score) (keys : list nat)
    (sorted_scores : list Length) (best_score : Length) :
  strict_weak_order →
  keys ≡ₚ seq 0 (length raw) →
  Forall2 (λ k s, ∃ r, raw !! k = Some r ∧ s = angstrom r) keys sorted_scores →
  StronglySorted (λ a b, score_le (magnitude a) (magnitude b)) sorted_scores →
  sorted_scores !! 0 = Some best_score →
  Forall (λ r, score_le (magnitude best_score) r) raw.
Proof.
  intros Horder Hkeys Hss Hsorted Hbest.
  apply Forall_lookup. intros i r Hi.
  assert (Hin : i ∈ keys).
  { rewrite Hkeys. apply elem_of_seq. apply lookup_lt_Some in Hi. lia. }
  apply list_elem_of_lookup in Hin as [j Hj].
  destruct (Forall2_lookup_l _ _ _ _ _ Hss Hj) as (s & Hs & r' & Hr' & ->).
  rewrite Hi in Hr'. injection Hr' as <-.
  destruct j as [| j].
  - rewrite Hbest in Hs. injection Hs as ->. simpl. by apply score_le_refl.
  - apply (StronglySorted_lookup _ _ 0 (S j) _ _ Hsorted ltac:(lia) Hbest Hs).
Qed.

(** In a sorted list no element of a prefix is greater than an element of
    the rest. *)
Lemma StronglySorted_take_drop {A} (R : relation A) (n : nat) (l : list A) :
  StronglySorted R l → ∀ x y, x ∈ take n l → y ∈ drop n l → R x y.
Proof.
  intros Hl x y Hx Hy.
  apply list_elem_of_lookup in Hx as [i Hi], Hy as [j Hj].
  pose proof (lookup_lt_Some _ _ _ Hi) as Hlt. rewrite length_take in Hlt.
  rewrite lookup_take_lt in Hi by lia. rewrite lookup_drop in Hj.
  apply (StronglySorted_lookup R l i (n + j) x y Hl); [lia | done | done].
Qed.

Section Arguments.
Variables (molecule0 molecule1 : Molecule) (scoring_function : string).
Variables (prematch : Mapping) (timeout : Time) (match_light : bool).
Variables (property_map0 property_map1 : PropMap) (verbose : bool).

Let mol0 := _getSireMolecule molecule0.
Let mol1 := _getSireMolecule molecule1.
Let strict (seed : Mapping) :=
  findMCSmatches mol0 mol1 seed (sire_time timeout) match_light
    property_map0 property_map1 6 verbose.
Let widened (seed : Mapping) :=
  findMCSmatches mol0 mol1 seed (sire_time timeout) match_light
    property_map0 property_map1 0 verbose.
Let found (seed : Mapping) := take_larger (strict seed) (widened seed).
Let run (matches : Z) (return_scores : bool) :=
  matchAtoms molecule0 molecule1 scoring_function matches return_scores
    prematch timeout match_light property_map0 property_map1 verbose.

(** C3: for accepted arguments, when the kept search found a mapping, the
    scorer returns the candidates and their scores, taken at the same
    positions [keys] of the candidate list, in non-decreasing order of the
    scores; the scores are the RMSDs the loop computed ([raw]): on the
    molecules as given, or, with alignment, on the first molecule as fitted
    through the candidates so far.  [matches = 1] yields the first sorted
    mapping itself, whose score no candidate's score is below;
    [matches = N > 1] yields the list of the first [N] sorted mappings, or
    with [return_scores] the tuple of these and of the first [N] sorted
    scores: at most [N] of each, the score at a position is that of the
    mapping at this position, the scores are in non-decreasing order, and
    none of them is greater than a score that was left out. *)
Theorem matchAtoms_result_shape (matches : Z) (sf : string) (seed : Mapping) :
  strict_weak_order →
  validate molecule0 molecule1 scoring_function matches prematch = Py.Ok sf →
  seed_prematch molecule0 molecule1 prematch = Py.Ok seed →
  found seed ≠ [] →
  (String.eqb sf "RMSDALIGN" = true → fits_succeed mol0 mol1 (found seed)) →
  let is_align := String.eqb sf "RMSDALIGN" in
  ∃ raw keys sorted_mappings sorted_scores,
    _score_rmsd mol0 mol1 (found seed) is_align
    = Py.Ok (sorted_mappings, sorted_scores) ∧
    score_loop mol0 mol1 (found seed) is_align = Py.Ok raw ∧
    (is_align = false → raw = rmsd_of mol0 mol1 <$> found seed) ∧
    (is_align = true →
       ∀ k mapping, found seed !! k = Some mapping →
         ∃ current,
           aligned_through mol0 mol1 (take (S k) (found seed)) = Py.Ok current ∧
           raw !! k = Some (rmsd_of current mol1 mapping)) ∧
    keys ≡ₚ seq 0 (length (found seed)) ∧
    Forall2 (λ k m, found seed !! k = Some m) keys sorted_mappings ∧
    Forall2 (λ k s, ∃ r, raw !! k = Some r ∧ s = angstrom r) keys sorted_scores ∧
    StronglySorted (λ a b, score_le (magnitude a) (magnitude b)) sorted_scores ∧
    (matches = 1%Z →
       ∀ return_scores, ∃ best best_score,
         sorted_mappings !! 0 = Some best ∧
         sorted_scores !! 0 = Some best_score ∧
         run matches return_scores = Py.Ok (RetMapping best) ∧
         Forall (λ r, score_le (magnitude best_score) r) raw) ∧
    ((1 < matches)%Z →
       let N := Z.to_nat matches in
       run matches false = Py.Ok (RetList (take N sorted_mappings)) ∧
       run matches true
       = Py.Ok (RetTuple (take N sorted_mappings) (take N sorted_scores)) ∧
       length (take N sorted_mappings) ≤ N ∧
       length (take N sorted_scores) = length (take N sorted_mappings) ∧
       Forall2 (λ m s, ∃ k, found seed !! k = Some m ∧
                            ∃ r, raw !! k = Some r ∧ s = angstrom r)
         (take N sorted_mappings) (take N sorted_scores) ∧
       StronglySorted (λ a b, score_le (magnitude a) (magnitude b))
         (take N sorted_scores) ∧
       ∀ s t, s ∈ take N sorted_scores → t ∈ drop N sorted_scores →
         score_le (magnitude s) (magnitude t)).
Proof.
  intros Horder Hvalid Hseed Hfound Hfits is_align.
  destruct (_score_rmsd_returns mol0 mol1 (found seed) _ Hfits)
    as (sorted_mappings & sorted_scores & Hret & Hlen_m & Hlen_s).
  fold is_align in Hret.
  destruct (_score_rmsd_ranking _ _ _ _ _ _ Horder Hret)
    as (raw & keys & Hloop & Hlen_raw & Hkeys & Hms & Hss & Hsorted).
  exists raw, keys, sorted_mappings, sorted_scores.
  split; [exact Hret |]. split; [exact Hloop |]. split.
  { intros His. rewrite His, score_loop_as_is in Hloop. by injection Hloop as <-. }
  split.
  { intros His. rewrite His in Hloop. by apply score_loop_aligned_scores. }
  split; [exact Hkeys |]. split; [exact Hms |]. split; [exact Hss |].
  split; [exact Hsorted |].
  assert (Hrun : ∀ return_scores,
    run matches return_scores
    = return_matches mol0 mol1 (found seed) is_align matches return_scores).
  { intros return_scores. by apply matchAtoms_searches. }
  assert (Hlen : (length (found seed) =? 0)%nat = false).
  { apply Nat.eqb_neq. by destruct (found seed). }
  apply Nat.eqb_neq in Hlen as Hpos.
  split.
  - intros -> return_scores.
    destruct sorted_mappings as [| best rest]; [simpl in Hlen_m; lia |].
    destruct sorted_scores as [| best_score rest_scores] eqn:Hscores;
      [simpl in Hlen_s; lia |].
    exists best, best_score. split; [done |]. split; [done |]. split.
    + rewrite Hrun. unfold return_matches. rewrite Hlen. simpl.
      by rewrite Hret.
    + apply (sorted_head_lowest raw keys (best_score :: rest_scores));
        [done | by rewrite Hlen_raw | done | done | done].
  - intros Hmany N.
    assert (Hne : (matches =? 1)%Z = false) by (apply Z.eqb_neq; lia).
    rewrite !Hrun. unfold return_matches. rewrite Hlen, Hne, Hret. simpl.
    split; [done |]. split; [done |].
    split; [rewrite length_take; lia |].
    split; [rewrite !length_take; lia |].
    split; [| split].
    + apply Forall2_take.
      exact (Forall2_through_keys _ _ keys sorted_mappings sorted_scores Hms Hss).
    + by apply StronglySorted_take.
    + intros s t Hs Ht.
      exact (StronglySorted_take_drop _ N sorted_scores Hsorted s t Hs Ht).
Qed.

(** C10: only a negative [matches] is refused (with the message that says
    "positive"), so [matches = 0] passes the checks; with it, a search that
    found a mapping yields the empty list, or the tuple of two empty lists
    with [return_scores], and not [None]; a [None] result, for any
    [matches], means that the kept search found no mapping. *)
Theorem matchAtoms_zero_matches :
  let normalised := Py.upper (Py.replace " " "" scoring_function) in
  (∀ matches return_scores,
     normalised ∈ ["RMSD"; "RMSDALIGN"] → (matches < 0)%Z →
     run matches return_scores
     = Py.Raise (Py.new_exn Py.ValueError "'matches' must be positive!")) ∧
  (normalised ∈ ["RMSD"; "RMSDALIGN"] →
   check_in_range "prematch" molecule0 molecule1 prematch = Py.Ok () →
   validate molecule0 molecule1 scoring_function 0 prematch = Py.Ok normalised) ∧
  (∀ sf seed,
     validate molecule0 molecule1 scoring_function 0 prematch = Py.Ok sf →
     seed_prematch molecule0 molecule1 prematch = Py.Ok seed →
     found seed ≠ [] →
     (String.eqb sf "RMSDALIGN" = true → fits_succeed mol0 mol1 (found seed)) →
     run 0 false = Py.Ok (RetList []) ∧ run 0 true = Py.Ok (RetTuple [] [])) ∧
  (∀ matches return_scores sf seed,
     validate molecule0 molecule1 scoring_function matches prematch = Py.Ok sf →
     seed_prematch molecule0 molecule1 prematch = Py.Ok seed →
     run matches return_scores = Py.Ok RetNone → found seed = []).
Proof.
  intros normalised. split; [| split; [| split]].
  - intros matches return_scores Hsf Hneg.
    unfold run, matchAtoms, validate. fold normalised.
    rewrite bool_decide_eq_true_2 by done. simpl.
    by rewrite (proj2 (Z.ltb_lt _ _) Hneg).
  - intros Hsf Hrange. unfold validate. fold normalised.
    rewrite bool_decide_eq_true_2 by done. simpl. by rewrite Hrange.
  - intros sf seed Hvalid Hseed Hfound Hfits.
    destruct (_score_rmsd_returns mol0 mol1 (found seed) _ Hfits)
      as (sorted_mappings & sorted_scores & Hret & _).
    assert (Hlen : (length (found seed) =? 0)%nat = false).
    { apply Nat.eqb_neq. by destruct (found seed). }
    unfold run.
    rewrite !(matchAtoms_searches _ _ _ _ _ _ _ _ _ _ _ sf seed Hvalid Hseed).
    fold mol0 mol1 (strict seed) (widened seed) (found seed).
    unfold return_matches. rewrite Hlen, Hret. simpl. by split.
  - intros matches return_scores sf seed Hvalid Hseed. unfold run.
    rewrite (matchAtoms_searches _ _ _ _ _ _ _ _ _ _ _ sf seed Hvalid Hseed).
    fold mol0 mol1 (strict seed) (widened seed) (found seed).
    unfold return_matches.
    destruct (found seed) as [| mapping rest]; [done |]. simpl.
    destruct (_score_rmsd mol0 mol1 (mapping :: rest) (String.eqb sf "RMSDALIGN"))
      as [[ms ss] | e]; simpl.
    + destruct (matches =? 1)%Z; simpl.
      * by destruct (Py.index ms 0).
      * by destruct return_scores.
    + by destruct (matches =? 1)%Z, return_scores.
Qed.

(** C9: without a user prematch, the temporary directory is created before
    the [try].  Once it exists, a failure of the RDKit derivation leaves the
    empty prematch in place and [matchAtoms] goes on exactly as it does with
    an empty prematch: the two searches, the choice and the last block, with
    no trace of the failure; a derivation that succeeds is used as it is, and
    one that fails at its last step, after the first substructure match was
    computed, leaves nothing behind.  A failure to create the temporary
    directory is not swallowed: [matchAtoms] raises it, and no search is
    run. *)
Theorem prematch_failure_is_swallowed (matches : Z) (return_scores : bool)
    (sf : string) :
  validate molecule0 molecule1 scoring_function matches [] = Py.Ok sf →
  (∀ work_dir, TemporaryDirectory = Py.Ok work_dir →
     (∀ e, rdkit_prematch work_dir molecule0 molecule1 = Py.Raise e →
        seed_prematch molecule0 molecule1 [] = Py.Ok [] ∧
        matchAtoms molecule0 molecule1 scoring_function matches return_scores
          [] timeout match_light property_map0 property_map1 verbose
        = return_matches mol0 mol1 (found []) (String.eqb sf "RMSDALIGN")
            matches return_scores) ∧
     (∀ derived, rdkit_prematch work_dir molecule0 molecule1 = Py.Ok derived →
        seed_prematch molecule0 molecule1 [] = Py.Ok derived) ∧
     (∀ tmp0 tmp1 rd0 rd1 mcs mcs_smarts mcs0 e,
        cd work_dir = Py.Ok () →
        saveMolecules work_dir "tmp0" molecule0 "PDB" = Py.Ok tmp0 →
        saveMolecules work_dir "tmp1" molecule1 "PDB" = Py.Ok tmp1 →
        MolFromPDBFile tmp0 = Py.Ok rd0 → MolFromPDBFile tmp1 = Py.Ok rd1 →
        FindMCS [rd0; rd1] = Py.Ok mcs →
        MolFromSmarts (smartsString mcs) = Py.Ok mcs_smarts →
        GetSubstructMatch rd0 mcs_smarts = Py.Ok mcs0 →
        GetSubstructMatch rd1 mcs_smarts = Py.Raise e →
        seed_prematch molecule0 molecule1 [] = Py.Ok [])) ∧
  (∀ e, TemporaryDirectory = Py.Raise e →
     seed_prematch molecule0 molecule1 [] = Py.Raise e ∧
     matchAtoms molecule0 molecule1 scoring_function matches return_scores
       [] timeout match_light property_map0 property_map1 verbose
     = Py.Raise e).
Proof.
  intros Hvalid. split.
  - intros work_dir Htmp.
    assert (Hswallow : ∀ e,
      rdkit_prematch work_dir molecule0 molecule1 = Py.Raise e →
      seed_prematch molecule0 molecule1 [] = Py.Ok []).
    { intros e Hfail. unfold seed_prematch. simpl. rewrite Htmp. simpl.
      by rewrite Hfail. }
    split; [| split].
    + intros e Hfail. split; [by apply (Hswallow e) |].
      by apply matchAtoms_searches, (Hswallow e).
    + intros derived Hderived. unfold seed_prematch. simpl. rewrite Htmp. simpl.
      by rewrite Hderived.
    + intros tmp0 tmp1 rd0 rd1 mcs mcs_smarts mcs0 e
        Hcd Hsave0 Hsave1 Hrd0 Hrd1 Hmcs Hsmarts Hmcs0 Hmcs1.
      apply (Hswallow e). unfold rdkit_prematch.
      rewrite Hcd. simpl. rewrite Hsave0. simpl. rewrite Hsave1. simpl.
      rewrite Hrd0. simpl. rewrite Hrd1. simpl. rewrite Hmcs. simpl.
      rewrite Hsmarts. simpl. rewrite Hmcs0. simpl. by rewrite Hmcs1.
  - intros e Htmp.
    assert (Hseed : seed_prematch molecule0 molecule1 [] = Py.Raise e).
    { unfold seed_prematch. simpl. by rewrite Htmp. }
    split; [exact Hseed |].
    unfold matchAtoms. rewrite Hvalid. simpl. by rewrite Hseed.
Qed.

End Arguments.

End MatchAtoms.

(** *** Failure of the fit *)

Section AlignmentFailure.
Context `{Toolkit}.

Lemma score_loop_aborts (mol0 mol1 : SireMolecule) (scored : list Mapping)
    (mapping : Mapping) (rest : list Mapping) (current : SireMolecule)
    (e : Py.exn) :
  aligned_through mol0 mol1 scored = Py.Ok current →
  align current mol1 mapping = Py.Raise e →
  score_loop mol0 mol1 (scored ++ mapping :: rest) true
  = Py.Raise (Py.exn_from_None e Py.AlignmentError
      ("Failed to align molecules when scoring based on mapping: "
       +:+ repr_mapping mapping)).
Proof.
  revert mol0. induction scored as [| m scored IH]; intros mol0; simpl.
  - intros [= ->] Hfail. by rewrite Hfail.
  - destruct (align mol0 mol1 m) as [aligned | e']; simpl; [| done].
    intros Hthrough Hfail. by rewrite (IH aligned Hthrough Hfail).
Qed.

(** C5: when the fit fails, [rmsdAlign] (on a mapping of the caller or on
    the one [matchAtoms] derived) and the align-then-score loop of the scorer
    raise [AlignmentError]; the message ends with the [repr] of the mapping
    that could not be fitted, [__cause__] is [None] and the context is
    suppressed; in the scorer the first failing candidate ends the scoring,
    whatever the candidates before and after it. *)
Theorem alignment_failure_raises :
  (∀ molecule0 molecule1 mapping property_map0 property_map1 e,
     check_in_range "mapping" molecule0 molecule1 mapping = Py.Ok () →
     align (_getSireMolecule molecule0) (_getSireMolecule molecule1) mapping
     = Py.Raise e →
     rmsdAlign molecule0 molecule1 (Some mapping) property_map0 property_map1
     = Py.Raise (Py.Exn Py.AlignmentError
         ("Failed to align molecules based on mapping: " +:+ repr_mapping mapping)
         None (Some e) true)) ∧
  (∀ molecule0 molecule1 mapping property_map0 property_map1 e,
     matchAtoms molecule0 molecule1 "RMSD align" 1 false [] default_timeout
       true property_map0 property_map1 false = Py.Ok (RetMapping mapping) →
     align (_getSireMolecule molecule0) (_getSireMolecule molecule1) mapping
     = Py.Raise e →
     rmsdAlign molecule0 molecule1 None property_map0 property_map1
     = Py.Raise (Py.Exn Py.AlignmentError
         ("Failed to align molecules based on mapping: " +:+ repr_mapping mapping)
         None (Some e) true)) ∧
  (∀ mol0 mol1 scored mapping rest current e,
     aligned_through mol0 mol1 scored = Py.Ok current →
     align current mol1 mapping = Py.Raise e →
     _score_rmsd mol0 mol1 (scored ++ mapping :: rest) true
     = Py.Raise (Py.Exn Py.AlignmentError
         ("Failed to align molecules when scoring based on mapping: "
          +:+ repr_mapping mapping)
         None (Some e) true)).
Proof.
  split; [| split].
  - intros molecule0 molecule1 mapping pm0 pm1 e Hrange Hfail.
    unfold rmsdAlign. rewrite Hrange. simpl. by rewrite Hfail.
  - intros molecule0 molecule1 mapping pm0 pm1 e Hmatch Hfail.
    unfold rmsdAlign. rewrite Hmatch. simpl. by rewrite Hfail.
  - intros mol0 mol1 scored mapping rest current e Hthrough Hfail.
    unfold _score_rmsd.
    by rewrite (score_loop_aborts _ _ _ _ rest _ _ Hthrough Hfail).
Qed.

End AlignmentFailure.


(** *** The theorems on the toy toolkit *)

Lemma demo_strict_weak_order : @strict_weak_order demo_toolkit.
Proof.
  split; simpl.
  - intros a b Hab. apply Z.ltb_lt in Hab. apply Z.ltb_ge. lia.
  - intros a b c Hab Hbc. apply Z.ltb_ge in Hab, Hbc. apply Z.ltb_ge. lia.
Qed.

(** The strict search pairs one atom, the widened one two: the widened
    result is kept. *)
Lemma matchAtoms_keeps_larger_search_witness :
  @validate demo_toolkit demo_molecule0 demo_molecule1 "RMSD align" 1 []
  = Py.Ok "RMSDALIGN" ∧
  @seed_prematch demo_toolkit demo_molecule0 demo_molecule1 [] = Py.Ok [] ∧
  ∃ kept,
    @matchAtoms demo_toolkit demo_molecule0 demo_molecule1 "RMSD align" 1 false
      [] 5%Z true [] [] false
    = @return_matches demo_toolkit demo_molecule0 demo_molecule1 kept true 1 false ∧
    kept = demo_findMCS demo_molecule0 demo_molecule1 0.
Proof.
  assert (Hvalid : @validate demo_toolkit demo_molecule0 demo_molecule1
                     "RMSD align" 1 [] = Py.Ok "RMSDALIGN")
    by (vm_compute; reflexivity).
  assert (Hseed : @seed_prematch demo_toolkit demo_molecule0 demo_molecule1 []
                  = Py.Ok []) by (vm_compute; reflexivity).
  split; [exact Hvalid |]. split; [exact Hseed |].
  destruct (@matchAtoms_keeps_larger_search demo_toolkit
              demo_molecule0 demo_molecule1 "RMSD align" 1 false [] 5%Z true
              [] [] false "RMSDALIGN" [] Hvalid Hseed)
    as (kept & Hrun & Hwidened & _).
  exists kept. split; [exact Hrun |].
  apply (Hwidened [(0, 0)]%Z [(0, 1); (1, 0)]%Z);
    [reflexivity | reflexivity | simpl; lia].
Defined.

(** Against a molecule without atoms both searches come back empty. *)
Lemma matchAtoms_no_match_is_None_witness :
  @validate demo_toolkit demo_molecule0 demo_no_atoms "RMSD" 1 [] = Py.Ok "RMSD" ∧
  @seed_prematch demo_toolkit demo_molecule0 demo_no_atoms [] = Py.Ok [] ∧
  demo_findMCS demo_molecule0 demo_no_atoms 6 = [] ∧
  demo_findMCS demo_molecule0 demo_no_atoms 0 = [] ∧
  @matchAtoms demo_toolkit demo_molecule0 demo_no_atoms "RMSD" 1 false
    [] 5%Z true [] [] false = Py.Ok RetNone.
Proof.
  assert (Hvalid : @validate demo_toolkit demo_molecule0 demo_no_atoms
                     "RMSD" 1 [] = Py.Ok "RMSD") by (vm_compute; reflexivity).
  assert (Hseed : @seed_prematch demo_toolkit demo_molecule0 demo_no_atoms []
                  = Py.Ok []) by (vm_compute; reflexivity).
  split; [exact Hvalid |]. split; [exact Hseed |].
  split; [reflexivity |]. split; [reflexivity |].
  exact (@matchAtoms_no_match_is_None demo_toolkit
           demo_molecule0 demo_no_atoms "RMSD" 1 false [] 5%Z true [] [] false
           "RMSD" [] Hvalid Hseed eq_refl eq_refl).
Defined.

Lemma demo_fits_succeed :
  @fits_succeed demo_toolkit demo_molecule0 demo_molecule1
    (take_larger (demo_findMCS demo_molecule0 demo_molecule1 6)
                 (demo_findMCS demo_molecule0 demo_molecule1 0)).
Proof. eexists. vm_compute. reflexivity. Qed.

(** Two matches asked for, two found: a list, or a tuple with the scores. *)
Lemma matchAtoms_result_shape_witness :
  @strict_weak_order demo_toolkit ∧
  @validate demo_toolkit demo_molecule0 demo_molecule1 "RMSD align" 2 []
  = Py.Ok "RMSDALIGN" ∧
  @seed_prematch demo_toolkit demo_molecule0 demo_molecule1 [] = Py.Ok [] ∧
  ∃ sorted_mappings sorted_scores,
    @matchAtoms demo_toolkit demo_molecule0 demo_molecule1 "RMSD align" 2 false
      [] 5%Z true [] [] false
    = Py.Ok (RetList (take 2 sorted_mappings)) ∧
    @matchAtoms demo_toolkit demo_molecule0 demo_molecule1 "RMSD align" 2 true
      [] 5%Z true [] [] false
    = Py.Ok (RetTuple (take 2 sorted_mappings) (take 2 sorted_scores)).
Proof.
  assert (Hvalid : @validate demo_toolkit demo_molecule0 demo_molecule1
                     "RMSD align" 2 [] = Py.Ok "RMSDALIGN")
    by (vm_compute; reflexivity).
  assert (Hseed : @seed_prematch demo_toolkit demo_molecule0 demo_molecule1 []
                  = Py.Ok []) by (vm_compute; reflexivity).
  split; [exact demo_strict_weak_order |].
  split; [exact Hvalid |]. split; [exact Hseed |].
  destruct (@matchAtoms_result_shape demo_toolkit
              demo_molecule0 demo_molecule1 "RMSD align" [] 5%Z true [] [] false
              2 "RMSDALIGN" [] demo_strict_weak_order Hvalid Hseed
              ltac:(discriminate) (λ _, demo_fits_succeed))
    as (raw & keys & sorted_mappings & sorted_scores & Hrest).
  destruct Hrest as (_ & _ & _ & _ & _ & _ & _ & _ & _ & Hmany).
  destruct (Hmany ltac:(lia)) as (Hlist & Htuple & _).
  exists sorted_mappings, sorted_scores. split; [exact Hlist | exact Htuple].
Defined.

(** [matches = -1] is refused; [matches = 0] gives empty results. *)
Lemma matchAtoms_zero_matches_witness :
  @matchAtoms demo_toolkit demo_molecule0 demo_molecule1 "RMSD align" (-1) false
    [] 5%Z true [] [] false
  = Py.Raise (Py.new_exn Py.ValueError "'matches' must be positive!") ∧
  @matchAtoms demo_toolkit demo_molecule0 demo_molecule1 "RMSD align" 0 false
    [] 5%Z true [] [] false = Py.Ok (RetList []) ∧
  @matchAtoms demo_toolkit demo_molecule0 demo_molecule1 "RMSD align" 0 true
    [] 5%Z true [] [] false = Py.Ok (RetTuple [] []).
Proof.
  destruct (@matchAtoms_zero_matches demo_toolkit
              demo_molecule0 demo_molecule1 "RMSD align" [] 5%Z true [] [] false)
    as (Hneg & Hzero & Hempty & _).
  split.
  - apply Hneg; [apply list_elem_of_further, list_elem_of_here | lia].
  - apply (Hempty "RMSDALIGN" []).
    + apply Hzero; [apply list_elem_of_further, list_elem_of_here | reflexivity].
    + vm_compute; reflexivity.
    + discriminate.
    + intros _. exact demo_fits_succeed.
Defined.

(** The RDKit step of the toy toolkit fails on reading the first file. *)
Lemma prematch_failure_is_swallowed_witness :
  @validate demo_toolkit demo_molecule0 demo_molecule1 "RMSD" 1 [] = Py.Ok "RMSD" ∧
  @TemporaryDirectory demo_toolkit = Py.Ok "/tmp/tmpdir" ∧
  @rdkit_prematch demo_toolkit "/tmp/tmpdir" demo_molecule0 demo_molecule1
  = Py.Raise (Py.new_exn Py.ExternalError "cannot read PDB") ∧
  @seed_prematch demo_toolkit demo_molecule0 demo_molecule1 [] = Py.Ok [] ∧
  @matchAtoms demo_toolkit demo_molecule0 demo_molecule1 "RMSD" 1 false
    [] 5%Z true [] [] false
  = @return_matches demo_toolkit demo_molecule0 demo_molecule1
      (take_larger (demo_findMCS demo_molecule0 demo_molecule1 6)
                   (demo_findMCS demo_molecule0 demo_molecule1 0))
      false 1 false.
Proof.
  assert (Hvalid : @validate demo_toolkit demo_molecule0 demo_molecule1
                     "RMSD" 1 [] = Py.Ok "RMSD") by (vm_compute; reflexivity).
  assert (Hfail : @rdkit_prematch demo_toolkit "/tmp/tmpdir"
                    demo_molecule0 demo_molecule1
                  = Py.Raise (Py.new_exn Py.ExternalError "cannot read PDB"))
    by (vm_compute; reflexivity).
  split; [exact Hvalid |]. split; [reflexivity |]. split; [exact Hfail |].
  exact (proj1 (proj1 (@prematch_failure_is_swallowed demo_toolkit
                         demo_molecule0 demo_molecule1 "RMSD" 5%Z true [] [] false
                         1 false "RMSD" Hvalid) "/tmp/tmpdir" eq_refl) _ Hfail).
Defined.

(** Where no temporary directory can be created, [matchAtoms] without a
    prematch does not complete: the failure of the first step of the
    derivation reaches the caller. *)
Lemma prematch_failure_can_surface :
  @validate no_tmp_toolkit demo_molecule0 demo_molecule1 "RMSD align" 2 []
  = Py.Ok "RMSDALIGN" ∧
  @TemporaryDirectory no_tmp_toolkit
  = Py.Raise (Py.new_exn Py.ExternalError "No usable temporary directory") ∧
  @matchAtoms no_tmp_toolkit demo_molecule0 demo_molecule1 "RMSD align" 2 true
    [] 5%Z true [] [] false
  = Py.Raise (Py.new_exn Py.ExternalError "No usable temporary directory") ∧
  ¬ ∃ r, @matchAtoms no_tmp_toolkit demo_molecule0 demo_molecule1 "RMSD align"
           2 true [] 5%Z true [] [] false = Py.Ok r.
Proof.
  assert (Hrun : @matchAtoms no_tmp_toolkit demo_molecule0 demo_molecule1
                   "RMSD align" 2 true [] 5%Z true [] [] false
                 = Py.Raise (Py.new_exn Py.ExternalError
                               "No usable temporary directory"))
    by (vm_compute; reflexivity).
  split; [vm_compute; reflexivity |]. split; [reflexivity |].
  split; [exact Hrun |].
  intros [r Hr]. rewrite Hrun in Hr. discriminate.
Qed.

(** The toy fit fails on an empty mapping. *)
Lemma alignment_failure_raises_witness :
  @rmsdAlign demo_toolkit demo_molecule0 demo_molecule1 (Some []) [] []
  = Py.Raise (Py.Exn Py.AlignmentError
      "Failed to align molecules based on mapping: {}" None
      (Some (Py.new_exn Py.ExternalError "could not align: no atoms")) true) ∧
  @_score_rmsd demo_toolkit demo_molecule0 demo_molecule1
    [ [(0, 0)]; []; [(1, 1)] ]%Z true
  = Py.Raise (Py.Exn Py.AlignmentError
      "Failed to align molecules when scoring based on mapping: {}" None
      (Some (Py.new_exn Py.ExternalError "could not align: no atoms")) true).
Proof.
  destruct (@alignment_failure_raises demo_toolkit) as (Huser & _ & Hscorer).
  split.
  - exact (Huser demo_molecule0 demo_molecule1 [] [] [] _ eq_refl eq_refl).
  - exact (Hscorer demo_molecule0 demo_molecule1 [ [(0, 0)]%Z ] [] [ [(1, 1)]%Z ]
             [1; 6; 10]%Z _ eq_refl eq_refl).
Defined.


(** *** The checks of [matchAtoms] and [rmsdAlign] *)

Section Checks.
Context `{Toolkit}.

Lemma in_range_bool (molecule0 molecule1 : Molecule) (idx0 idx1 : AtomIdx) :
  (idx0 <? 0)%Z || (nAtoms molecule0 <=? idx0)%Z ||
  (idx1 <? 0)%Z || (nAtoms molecule1 <=? idx1)%Z = false
  ↔ in_range molecule0 molecule1 (idx0, idx1).
Proof.
  unfold in_range. simpl. rewrite !orb_false_iff.
  rewrite !Z.ltb_ge, !Z.leb_gt. lia.
Qed.

Lemma check_in_range_Ok (what : string) (molecule0 molecule1 : Molecule)
    (items : Mapping) :
  Forall (in_range molecule0 molecule1) items →
  check_in_range what molecule0 molecule1 items = Py.Ok ().
Proof.
  induction 1 as [| [idx0 idx1] items Hin _ IH]; simpl; [done |].
  by rewrite (proj2 (in_range_bool _ _ _ _) Hin).
Qed.

Lemma check_in_range_Ok_inv (what : string) (molecule0 molecule1 : Molecule)
    (items : Mapping) :
  check_in_range what molecule0 molecule1 items = Py.Ok () →
  Forall (in_range molecule0 molecule1) items.
Proof.
  induction items as [| [idx0 idx1] items IH]; simpl; [by constructor |].
  destruct ((idx0 <? 0)%Z || (nAtoms molecule0 <=? idx0)%Z ||
            (idx1 <? 0)%Z || (nAtoms molecule1 <=? idx1)%Z) eqn:Hbad; [done |].
  intros HOk. constructor; [by apply in_range_bool | by apply IH].
Qed.

Lemma check_in_range_Raise (what : string) (molecule0 molecule1 : Molecule)
    (items : Mapping) :
  ¬ Forall (in_range molecule0 molecule1) items →
  ∃ e, check_in_range what molecule0 molecule1 items = Py.Raise e ∧
       Py.exn_type e = Py.ValueError.
Proof.
  induction items as [| [idx0 idx1] items IH]; simpl; intros Hnot.
  - destruct Hnot. constructor.
  - destruct ((idx0 <? 0)%Z || (nAtoms molecule0 <=? idx0)%Z ||
              (idx1 <? 0)%Z || (nAtoms molecule1 <=? idx1)%Z) eqn:Hbad.
    + by eexists.
    + apply IH. intros Hall. apply Hnot. constructor; [| done].
      by apply in_range_bool.
Qed.

(** The range check passes exactly when every pair of the dictionary names
    an atom of the first molecule and an atom of the second; otherwise it
    raises [ValueError]. *)
Theorem check_in_range_spec (what : string) (molecule0 molecule1 : Molecule)
    (items : Mapping) :
  (Forall (in_range molecule0 molecule1) items ↔
   check_in_range what molecule0 molecule1 items = Py.Ok ()) ∧
  (¬ Forall (in_range molecule0 molecule1) items ↔
   ∃ e, check_in_range what molecule0 molecule1 items = Py.Raise e ∧
        Py.exn_type e = Py.ValueError).
Proof.
  split; split.
  - apply check_in_range_Ok.
  - apply check_in_range_Ok_inv.
  - apply check_in_range_Raise.
  - intros (e & He & _) Hall.
    rewrite (check_in_range_Ok what _ _ _ Hall) in He. discriminate.
Qed.

(** The scoring function is checked first: a name whose normal form (spaces
    removed, upper case) is neither RMSD nor RMSDALIGN raises [ValueError]
    with that normal form in the message, whatever the other arguments. *)
Theorem matchAtoms_unsupported_scoring_function (molecule0 molecule1 : Molecule)
    (scoring_function : string) (matches : Z) (return_scores : bool)
    (prematch : Mapping) (timeout : Time) (match_light : bool)
    (property_map0 property_map1 : PropMap) (verbose : bool) :
  let normalised := Py.upper (Py.replace " " "" scoring_function) in
  normalised ∉ ["RMSD"; "RMSDALIGN"] →
  matchAtoms molecule0 molecule1 scoring_function matches return_scores
    prematch timeout match_light property_map0 property_map1 verbose
  = Py.Raise (Py.new_exn Py.ValueError
      ("Unsupported scoring function '" +:+ normalised
       +:+ "'. Options are: ['RMSD', 'RMSDALIGN']")).
Proof.
  intros normalised Hnot. unfold matchAtoms, validate. fold normalised.
  by rewrite bool_decide_eq_false_2.
Qed.

(** A prematch with a pair out of range is refused with [ValueError] before
    any search, and so is such a mapping given to [rmsdAlign], before any
    fit. *)
Theorem out_of_range_pair_is_refused (molecule0 molecule1 : Molecule)
    (scoring_function : string) (matches : Z) (return_scores : bool)
    (items : Mapping) (timeout : Time) (match_light : bool)
    (property_map0 property_map1 : PropMap) (verbose : bool) :
  ¬ Forall (in_range molecule0 molecule1) items →
  (Py.upper (Py.replace " " "" scoring_function) ∈ ["RMSD"; "RMSDALIGN"] →
   (0 ≤ matches)%Z →
   ∃ e, matchAtoms molecule0 molecule1 scoring_function matches return_scores
          items timeout match_light property_map0 property_map1 verbose
        = Py.Raise e ∧ Py.exn_type e = Py.ValueError) ∧
  (∃ e, rmsdAlign molecule0 molecule1 (Some items) property_map0 property_map1
        = Py.Raise e ∧ Py.exn_type e = Py.ValueError).
Proof.
  intros Hbad. split.
  - intros Hsf Hmatches.
    destruct (check_in_range_Raise "prematch" _ _ _ Hbad) as (e & He & Hty).
    exists e. split; [| done]. unfold matchAtoms, validate.
    rewrite bool_decide_eq_true_2 by done. simpl.
    rewrite (proj2 (Z.ltb_ge _ _) Hmatches). simpl. by rewrite He.
  - destruct (check_in_range_Raise "mapping" _ _ _ Hbad) as (e & He & Hty).
    exists e. split; [| done]. unfold rmsdAlign. by rewrite He.
Qed.

(** A prematch of the caller that is not empty is the one both searches
    get: no temporary directory and no RDKit derivation come into play. *)
Theorem user_prematch_is_used_as_given (molecule0 molecule1 : Molecule)
    (scoring_function : string) (matches : Z) (return_scores : bool)
    (prematch : Mapping) (timeout : Time) (match_light : bool)
    (property_map0 property_map1 : PropMap) (verbose : bool) (sf : string) :
  prematch ≠ [] →
  validate molecule0 molecule1 scoring_function matches prematch = Py.Ok sf →
  seed_prematch molecule0 molecule1 prematch = Py.Ok prematch ∧
  matchAtoms molecule0 molecule1 scoring_function matches return_scores
    prematch timeout match_light property_map0 property_map1 verbose
  = return_matches (_getSireMolecule molecule0) (_getSireMolecule molecule1)
      (take_larger
         (findMCSmatches (_getSireMolecule molecule0) (_getSireMolecule molecule1)
            prematch (sire_time timeout) match_light property_map0 property_map1
            6 verbose)
         (findMCSmatches (_getSireMolecule molecule0) (_getSireMolecule molecule1)
            prematch (sire_time timeout) match_light property_map0 property_map1
            0 verbose))
      (String.eqb sf "RMSDALIGN") matches return_scores.
Proof.
  intros Hne Hvalid.
  assert (Hseed : seed_prematch molecule0 molecule1 prematch = Py.Ok prematch).
  { unfold seed_prematch. by destruct prematch. }
  split; [exact Hseed |]. by apply matchAtoms_searches.
Qed.

(** Without a prematch of the caller, a failure to create the temporary
    directory is not swallowed: it happens before the [try] and reaches the
    caller of [matchAtoms] as it is. *)
Theorem temporary_directory_failure_propagates (molecule0 molecule1 : Molecule)
    (scoring_function : string) (matches : Z) (return_scores : bool)
    (timeout : Time) (match_light : bool)
    (property_map0 property_map1 : PropMap) (verbose : bool)
    (sf : string) (e : Py.exn) :
  validate molecule0 molecule1 scoring_function matches [] = Py.Ok sf →
  TemporaryDirectory = Py.Raise e →
  matchAtoms molecule0 molecule1 scoring_function matches return_scores
    [] timeout match_light property_map0 property_map1 verbose
  = Py.Raise e.
Proof.
  intros Hvalid Htmp. unfold matchAtoms. rewrite Hvalid. simpl.
  unfold seed_prematch. simpl. by rewrite Htmp.
Qed.

End Checks.

Lemma demo_out_of_range :
  ¬ Forall (@in_range demo_toolkit demo_molecule0 demo_molecule1) [(0, 3)]%Z.
Proof.
  intros Hall. apply Forall_cons in Hall as [[_ Hidx] _].
  vm_compute in Hidx. destruct Hidx as [_ Hlt]. discriminate.
Qed.

Section ChecksOnDemo.
#[local] Existing Instance demo_toolkit.

Lemma matchAtoms_unsupported_scoring_function_witness :
  (Py.upper (Py.replace " " "" "rms d2") ∉ ["RMSD"; "RMSDALIGN"]) ∧
  @matchAtoms demo_toolkit demo_molecule0 demo_molecule1 "rms d2" (-1) false
    [(7, 7)]%Z 5%Z true [] [] false
  = Py.Raise (Py.new_exn Py.ValueError
      "Unsupported scoring function 'RMSD2'. Options are: ['RMSD', 'RMSDALIGN']").
Proof.
  assert (Hnot : Py.upper (Py.replace " " "" "rms d2") ∉ ["RMSD"; "RMSDALIGN"]).
  { intros Hin. apply elem_of_cons in Hin as [Heq | Hin];
      [vm_compute in Heq; discriminate |].
    apply list_elem_of_singleton in Hin. vm_compute in Hin. discriminate. }
  split; [exact Hnot |].
  exact (@matchAtoms_unsupported_scoring_function demo_toolkit
           demo_molecule0 demo_molecule1 "rms d2" (-1) false [(7, 7)]%Z 5%Z true
           [] [] false Hnot).
Defined.

End ChecksOnDemo.

Lemma out_of_range_pair_is_refused_witness :
  ¬ Forall (@in_range demo_toolkit demo_molecule0 demo_molecule1) [(0, 3)]%Z ∧
  (∃ e, @matchAtoms demo_toolkit demo_molecule0 demo_molecule1 "RMSD" 1 false
          [(0, 3)]%Z 5%Z true [] [] false = Py.Raise e ∧
        Py.exn_type e = Py.ValueError) ∧
  (∃ e, @rmsdAlign demo_toolkit demo_molecule0 demo_molecule1
          (Some [(0, 3)]%Z) [] [] = Py.Raise e ∧
        Py.exn_type e = Py.ValueError).
Proof.
  split; [exact demo_out_of_range |].
  destruct (@out_of_range_pair_is_refused demo_toolkit
              demo_molecule0 demo_molecule1 "RMSD" 1 false [(0, 3)]%Z 5%Z true
              [] [] false demo_out_of_range) as [Hmatch Halign].
  split; [| exact Halign].
  apply Hmatch; [apply list_elem_of_here | lia].
Defined.

Lemma user_prematch_is_used_as_given_witness :
  ([(0, 0)]%Z : Mapping) ≠ [] ∧
  @validate demo_toolkit demo_molecule0 demo_molecule1 "RMSD" 1 [(0, 0)]%Z
  = Py.Ok "RMSD" ∧
  @seed_prematch no_tmp_toolkit demo_molecule0 demo_molecule1 [(0, 0)]%Z
  = Py.Ok [(0, 0)]%Z.
Proof.
  split; [discriminate |]. split; [vm_compute; reflexivity |].
  exact (proj1 (@user_prematch_is_used_as_given no_tmp_toolkit
                  demo_molecule0 demo_molecule1 "RMSD" 1 false [(0, 0)]%Z 5%Z
                  true [] [] false "RMSD" ltac:(discriminate) eq_refl)).
Defined.

Lemma temporary_directory_failure_propagates_witness :
  @validate no_tmp_toolkit demo_molecule0 demo_molecule1 "RMSD" 1 []
  = Py.Ok "RMSD" ∧
  @matchAtoms no_tmp_toolkit demo_molecule0 demo_molecule1 "RMSD" 1 false
    [] 5%Z true [] [] false
  = Py.Raise (Py.new_exn Py.ExternalError "No usable temporary directory").
Proof.
  split; [vm_compute; reflexivity |].
  exact (@temporary_directory_failure_propagates no_tmp_toolkit
           demo_molecule0 demo_molecule1 "RMSD" 1 false 5%Z true [] [] false
           "RMSD" _ eq_refl eq_refl).
Defined.


(** *** The scoring function by name *)

Lemma same_name_upper `{Py.Unicode} (s t : string) :
  Parameters.same_name s t →
  Py.upper (Py.replace " " "" s) = Py.upper (Py.replace " " "" t).
Proof.
  intros Hsame.
  by apply ParametersFacts.upper_by_ascii_case,
           ParametersFacts.same_name_lower_ascii.
Qed.

Section ScoringFunctionName.
Context `{Toolkit}.

(** The scoring function is chosen by name without regard to case and
    spaces: two names that differ only in these give the same result, on
    all arguments. *)
Theorem matchAtoms_scoring_function_by_name (molecule0 molecule1 : Molecule)
    (name1 name2 : string) (matches : Z) (return_scores : bool)
    (prematch : Mapping) (timeout : Time) (match_light : bool)
    (property_map0 property_map1 : PropMap) (verbose : bool) :
  Parameters.same_name name1 name2 →
  matchAtoms molecule0 molecule1 name1 matches return_scores
    prematch timeout match_light property_map0 property_map1 verbose
  = matchAtoms molecule0 molecule1 name2 matches return_scores
      prematch timeout match_light property_map0 property_map1 verbose.
Proof.
  intros Hsame. unfold matchAtoms, validate.
  by rewrite (same_name_upper name1 name2 Hsame).
Qed.

End ScoringFunctionName.

Lemma matchAtoms_scoring_function_by_name_witness :
  Parameters.same_name "rmsd Align" "RMSDALIGN" ∧
  @matchAtoms demo_toolkit demo_molecule0 demo_molecule1 "rmsd Align" 1 false
    [] 5%Z true [] [] false
  = @matchAtoms demo_toolkit demo_molecule0 demo_molecule1 "RMSDALIGN" 1 false
      [] 5%Z true [] [] false.
Proof.
  assert (Hsame : Parameters.same_name "rmsd Align" "RMSDALIGN").
  { repeat first
      [ apply Parameters.same_name_nil
      | apply Parameters.same_name_space_l
      | apply Parameters.same_name_letter;
          [unfold Parameters.same_letter; vm_compute; auto |] ]. }
  split; [exact Hsame |].
  exact (@matchAtoms_scoring_function_by_name demo_toolkit
           demo_molecule0 demo_molecule1 "rmsd Align" "RMSDALIGN" 1 false
           [] 5%Z true [] [] false Hsame).
Defined.

(** *** The dictionary of the derived prematch *)

Lemma dict_set_keys (k v : AtomIdx) (d : Mapping) (x : AtomIdx) :
  x ∈ (dict_set k v d).*1 → x = k ∨ x ∈ d.*1.
Proof.
  induction d as [| [k' v'] d IH]; simpl.
  - intros ->%list_elem_of_singleton. by left.
  - destruct (Z.eqb_spec k' k) as [-> | Hne]; simpl.
    + intros [-> | Hx]%elem_of_cons; [by left | right; by right].
    + intros [-> | Hx]%elem_of_cons; [right; by left |].
      destruct (IH Hx) as [-> | Hin]; [by left | right; by right].
Qed.

Lemma dict_set_NoDup (k v : AtomIdx) (d : Mapping) :
  NoDup d.*1 → NoDup (dict_set k v d).*1.
Proof.
  induction d as [| [k' v'] d IH]; simpl.
  - intros _. apply NoDup_singleton.
  - intros [Hnotin Hd]%NoDup_cons.
    destruct (Z.eqb_spec k' k) as [-> | Hne]; simpl.
    + by apply NoDup_cons.
    + apply NoDup_cons. split; [| by apply IH].
      intros [-> | Hin]%dict_set_keys; [done | done].
Qed.

Lemma dict_set_length (k v : AtomIdx) (d : Mapping) :
  length (dict_set k v d) ≤ S (length d).
Proof.
  induction d as [| [k' v'] d IH]; simpl; [lia |].
  destruct (k' =? k)%Z; simpl; lia.
Qed.

Lemma dict_set_fresh (k v : AtomIdx) (d : Mapping) :
  k ∉ d.*1 → dict_set k v d = d ++ [(k, v)].
Proof.
  induction d as [| [k' v'] d IH]; simpl; [done |].
  intros Hnotin. apply not_elem_of_cons in Hnotin as [Hne Hnotin].
  destruct (Z.eqb_spec k' k) as [-> | _]; [done |].
  by rewrite IH.
Qed.

Lemma foldl_dict_set_NoDup (pairs : list (Z * Z)) (d : Mapping) :
  NoDup d.*1 → NoDup (foldl (λ d p, dict_set p.1 p.2 d) d pairs).*1.
Proof.
  revert d. induction pairs as [| p pairs IH]; intros d Hd; simpl; [done |].
  by apply IH, dict_set_NoDup.
Qed.

Lemma foldl_dict_set_length (pairs : list (Z * Z)) (d : Mapping) :
  length (foldl (λ d p, dict_set p.1 p.2 d) d pairs) ≤ length d + length pairs.
Proof.
  revert d. induction pairs as [| p pairs IH]; intros d; simpl; [lia |].
  specialize (IH (dict_set p.1 p.2 d)).
  pose proof (dict_set_length p.1 p.2 d). unfold Mapping, AtomIdx in *. lia.
Qed.

Lemma foldl_dict_set_fresh (pairs : list (Z * Z)) (d : Mapping) :
  NoDup (d.*1 ++ pairs.*1) →
  foldl (λ d p, dict_set p.1 p.2 d) d pairs = d ++ pairs.
Proof.
  revert d. induction pairs as [| [k v] pairs IH]; intros d Hnodup; simpl.
  - by rewrite app_nil_r.
  - simpl in Hnodup.
    assert (Hfresh : k ∉ d.*1).
    { intros Hin. apply NoDup_app in Hnodup as (_ & Hdisj & _).
      apply (Hdisj k Hin). by left. }
    rewrite (dict_set_fresh k v d Hfresh).
    rewrite IH; [by rewrite <- app_assoc |].
    rewrite fmap_app. simpl. rewrite <- app_assoc. exact Hnodup.
Qed.

Section DerivedPrematch.
Context `{Toolkit}.

(** The dictionary comprehension of the derived prematch gives each atom of
    the first molecule at most one partner and has no more items than there
    are pairs; when RDKit's first match names no atom twice, the prematch is
    the list of pairs as it is.  This holds for every prematch the RDKit
    derivation returns. *)
Theorem derived_prematch_is_a_dict (pairs : list (Z * Z)) :
  NoDup (dict_of_pairs pairs).*1 ∧
  length (dict_of_pairs pairs) ≤ length pairs ∧
  (NoDup pairs.*1 → dict_of_pairs pairs = pairs) ∧
  (∀ work_dir molecule0 molecule1 derived,
     rdkit_prematch work_dir molecule0 molecule1 = Py.Ok derived →
     NoDup derived.*1).
Proof.
  assert (Hnodup : ∀ ps, NoDup (dict_of_pairs ps).*1).
  { intros ps. apply foldl_dict_set_NoDup. constructor. }
  split; [apply Hnodup |]. split; [| split].
  - exact (foldl_dict_set_length pairs []).
  - intros Hkeys. exact (foldl_dict_set_fresh pairs [] Hkeys).
  - intros work_dir molecule0 molecule1 derived. unfold rdkit_prematch.
    repeat match goal with
           | |- context [mbind _ ?r] => destruct r; simpl; [| done]
           end.
    intros [= <-]. apply Hnodup.
Qed.

End DerivedPrematch.

Lemma derived_prematch_is_a_dict_witness :
  NoDup ([(0, 2); (1, 0); (2, 1)]%Z : list (Z * Z)).*1 ∧
  dict_of_pairs [(0, 2); (1, 0); (2, 1)]%Z = [(0, 2); (1, 0); (2, 1)]%Z.
Proof.
  assert (Hkeys : NoDup ([(0, 2); (1, 0); (2, 1)]%Z : list (Z * Z)).*1).
  { simpl. repeat (apply NoDup_cons; split; [set_unfold; lia |]).
    constructor. }
  split; [exact Hkeys |].
  exact (proj1 (proj2 (proj2
    (@derived_prematch_is_a_dict demo_toolkit [(0, 2); (1, 0); (2, 1)]%Z)))
    Hkeys).
Defined.


(** *** More on the scorer *)

Section ScorerMore.
Context `{Toolkit}.

Lemma _score_rmsd_Permutation (mol0 mol1 : SireMolecule)
    (mappings : list Mapping) (is_align : bool)
    (sorted_mappings : list Mapping) (sorted_scores : list Length) :
  _score_rmsd mol0 mol1 mappings is_align
  = Py.Ok (sorted_mappings, sorted_scores) →
  sorted_mappings ≡ₚ mappings.
Proof.
  intros Hret.
  destruct (score_loop mol0 mol1 mappings is_align) as [raw | e] eqn:Hloop.
  2:{ unfold _score_rmsd in Hret. by rewrite Hloop in Hret. }
  pose proof (score_loop_length _ _ _ _ _ Hloop) as Hlen.
  destruct (_score_rmsd_sorted_keys _ _ _ _ _ Hloop) as (ms & Hret' & Hms & _).
  rewrite Hret in Hret'. injection Hret' as -> _.
  apply (lookup_keys_Permutation mappings _ _ ) in Hms; [done |].
  rewrite sort_by_key_Permutation, zip_seq_snd, Hlen. reflexivity.
Qed.

Lemma zip_seq_elem_of {A} (l : list A) (k : nat) (x : A) :
  l !! k = Some x → (x, k) ∈ zip l (seq 0 (length l)).
Proof.
  intros Hk. apply (list_elem_of_lookup_2 _ k).
  apply lookup_zip_with_Some. exists x, k. split; [done |]. split; [done |].
  apply lookup_seq. split; [done |]. by apply lookup_lt_Some in Hk.
Qed.

(** In score-as-is mode the first mapping the scorer returns has the lowest
    RMSD of all candidates. *)
Theorem best_mapping_has_lowest_score (mol0 mol1 : SireMolecule)
    (mappings : list Mapping) (best : Mapping) (others : list Mapping)
    (scores : list Length) :
  strict_weak_order →
  _score_rmsd mol0 mol1 mappings false = Py.Ok (best :: others, scores) →
  ∀ mapping, mapping ∈ mappings →
    score_le (rmsd_of mol0 mol1 best) (rmsd_of mol0 mol1 mapping).
Proof.
  intros Horder Hret mapping Hin.
  pose proof (score_loop_as_is mol0 mol1 mappings) as Hloop.
  destruct (_score_rmsd_sorted_keys _ _ _ _ _ Hloop)
    as (ms & Hret' & Hms & Hranked).
  rewrite Hret in Hret'. injection Hret' as <- _.
  set (raw := rmsd_of mol0 mol1 <$> mappings) in *.
  assert (Hsorted : StronglySorted before
                      (sort_by_key (zip raw (seq 0 (length raw))))).
  { apply sort_by_key_before; [done |].
    rewrite zip_seq_snd. apply seq_StronglySorted. }
  apply list_elem_of_lookup in Hin as [k Hk].
  assert (Hq : (rmsd_of mol0 mol1 mapping, k)
               ∈ sort_by_key (zip raw (seq 0 (length raw)))).
  { rewrite sort_by_key_Permutation. apply zip_seq_elem_of.
    unfold raw. by rewrite list_lookup_fmap, Hk. }
  destruct (sort_by_key (zip raw (seq 0 (length raw)))) as [| p ranked];
    [by apply elem_of_nil in Hq |].
  rewrite fmap_cons in Hms. apply Forall2_cons in Hms as [Hbest _].
  apply Forall_cons in Hranked as [Hp _].
  assert (Hp1 : p.1 = rmsd_of mol0 mol1 best).
  { unfold raw in Hp. rewrite list_lookup_fmap, Hbest in Hp. simpl in Hp.
    by injection Hp. }
  rewrite <- Hp1.
  apply elem_of_cons in Hq as [<- | Hq]; [by apply score_le_refl |].
  apply StronglySorted_inv in Hsorted as [_ Hall].
  rewrite Forall_forall in Hall. by destruct (Hall _ Hq) as [Hle _].
Qed.

(** In either mode, a result of the scorer keeps every candidate: the
    returned mappings are the candidates in another order, there is one
    score for each of them, and every score is a length in ångström. *)
Theorem scorer_keeps_every_candidate (mol0 mol1 : SireMolecule)
    (mappings : list Mapping) (is_align : bool)
    (sorted_mappings : list Mapping) (sorted_scores : list Length) :
  _score_rmsd mol0 mol1 mappings is_align
  = Py.Ok (sorted_mappings, sorted_scores) →
  sorted_mappings ≡ₚ mappings ∧
  length sorted_mappings = length mappings ∧
  length sorted_scores = length mappings ∧
  Forall (λ s, unit s = "ANGSTROM") sorted_scores.
Proof.
  intros Hret.
  pose proof (_score_rmsd_Permutation _ _ _ _ _ _ Hret) as Hperm.
  split; [exact Hperm |]. split; [by rewrite Hperm |].
  destruct (score_loop mol0 mol1 mappings is_align) as [raw | e] eqn:Hloop.
  2:{ unfold _score_rmsd in Hret. by rewrite Hloop in Hret. }
  pose proof (score_loop_length _ _ _ _ _ Hloop) as Hlen.
  destruct (_score_rmsd_sorted_keys _ _ _ _ _ Hloop) as (ms & Hret' & _ & _).
  rewrite Hret in Hret'. injection Hret' as _ ->.
  split.
  - rewrite length_fmap, sort_by_key_Permutation, length_zip, length_seq. lia.
  - apply Forall_fmap, Forall_forall. by intros p _.
Qed.

(** In align-then-score mode every fit starts from the molecule the
    previous fit produced: the score of the candidate at position [k] is its
    RMSD on the first molecule as aligned through the candidates up to and
    including [k]. *)
Theorem scores_follow_the_alignments (mol0 mol1 : SireMolecule)
    (mappings : list Mapping) (raw : list Score) :
  score_loop mol0 mol1 mappings true = Py.Ok raw →
  ∀ k mapping, mappings !! k = Some mapping →
    ∃ current,
      aligned_through mol0 mol1 (take (S k) mappings) = Py.Ok current ∧
      raw !! k = Some (rmsd_of current mol1 mapping).
Proof. apply score_loop_aligned_scores. Qed.

End ScorerMore.

Lemma best_mapping_has_lowest_score_witness :
  @strict_weak_order demo_toolkit ∧
  @_score_rmsd demo_toolkit demo_molecule0 demo_molecule1
    [ [(2, 2)]; [(0, 0)]; [(0, 0); (1, 1)] ]%Z false
  = Py.Ok ([ [(0, 0)]; [(0, 0); (1, 1)]; [(2, 2)] ]%Z,
           [ @angstrom demo_toolkit 1; @angstrom demo_toolkit 2;
             @angstrom demo_toolkit 4 ]%Z) ∧
  @score_le demo_toolkit
    (@rmsd_of demo_toolkit demo_molecule0 demo_molecule1 [(0, 0)]%Z)
    (@rmsd_of demo_toolkit demo_molecule0 demo_molecule1 [(2, 2)]%Z).
Proof.
  assert (Hret : @_score_rmsd demo_toolkit demo_molecule0 demo_molecule1
                   [ [(2, 2)]; [(0, 0)]; [(0, 0); (1, 1)] ]%Z false
                 = Py.Ok ([ [(0, 0)]; [(0, 0); (1, 1)]; [(2, 2)] ]%Z,
                          [ @angstrom demo_toolkit 1; @angstrom demo_toolkit 2;
                            @angstrom demo_toolkit 4 ]%Z))
    by (vm_compute; reflexivity).
  split; [exact demo_strict_weak_order |]. split; [exact Hret |].
  apply (@best_mapping_has_lowest_score demo_toolkit _ _ _ _ _ _
           demo_strict_weak_order Hret).
  apply list_elem_of_here.
Defined.

Lemma scorer_keeps_every_candidate_witness :
  @_score_rmsd demo_toolkit demo_molecule0 demo_molecule1
    [ [(1, 2); (0, 0)]; [(0, 0)]; [(2, 1); (1, 1)] ]%Z true
  = Py.Ok ([ [(0, 0)]; [(1, 2); (0, 0)]; [(2, 1); (1, 1)] ]%Z,
           [ @angstrom demo_toolkit 0; @angstrom demo_toolkit 1;
             @angstrom demo_toolkit 16 ]%Z) ∧
  [ [(0, 0)]; [(1, 2); (0, 0)]; [(2, 1); (1, 1)] ]%Z
  ≡ₚ ([ [(1, 2); (0, 0)]; [(0, 0)]; [(2, 1); (1, 1)] ]%Z : list Mapping) ∧
  Forall (λ s, @unit demo_toolkit s = "ANGSTROM")
    [ @angstrom demo_toolkit 0; @angstrom demo_toolkit 1;
      @angstrom demo_toolkit 16 ]%Z.
Proof.
  assert (Hret : @_score_rmsd demo_toolkit demo_molecule0 demo_molecule1
                   [ [(1, 2); (0, 0)]; [(0, 0)]; [(2, 1); (1, 1)] ]%Z true
                 = Py.Ok ([ [(0, 0)]; [(1, 2); (0, 0)]; [(2, 1); (1, 1)] ]%Z,
                          [ @angstrom demo_toolkit 0; @angstrom demo_toolkit 1;
                            @angstrom demo_toolkit 16 ]%Z))
    by (vm_compute; reflexivity).
  split; [exact Hret |].
  destruct (@scorer_keeps_every_candidate demo_toolkit _ _ _ _ _ _ Hret)
    as (Hperm & _ & _ & Hunit).
  split; [exact Hperm | exact Hunit].
Defined.

Lemma scores_follow_the_alignments_witness :
  @score_loop demo_toolkit demo_molecule0 demo_molecule1
    [ [(0, 0)]; [(1, 1)] ]%Z true = Py.Ok [0; 0]%Z ∧
  ∃ current,
    @aligned_through demo_toolkit demo_molecule0 demo_molecule1
      [ [(0, 0)]; [(1, 1)] ]%Z = Py.Ok current ∧
    ([0; 0]%Z : list Z) !! 1 = Some (@rmsd_of demo_toolkit current demo_molecule1 [(1, 1)]%Z).
Proof.
  assert (Hloop : @score_loop demo_toolkit demo_molecule0 demo_molecule1
                    [ [(0, 0)]; [(1, 1)] ]%Z true = Py.Ok [0; 0]%Z)
    by (vm_compute; reflexivity).
  split; [exact Hloop |].
  exact (@scores_follow_the_alignments demo_toolkit _ _ _ _ Hloop
           1 [(1, 1)]%Z eq_refl).
Defined.


(** *** What [matchAtoms] returns, and [merge] *)

Section ReturnedMappings.
Context `{Toolkit}.

Lemma take_larger_either (m0 m1 : list Mapping) :
  take_larger m0 m1 = m0 ∨ take_larger m0 m1 = m1.
Proof.
  destruct m0 as [| best0 m0], m1 as [| best1 m1]; simpl; auto.
  destruct (length best0 <? length best1); auto.
Qed.

(** [matchAtoms] returns no mapping of its own making: every mapping in its
    result was found by the strict or by the widened search. *)
Theorem returned_mappings_were_found (molecule0 molecule1 : Molecule)
    (scoring_function : string) (matches : Z) (return_scores : bool)
    (prematch : Mapping) (timeout : Time) (match_light : bool)
    (property_map0 property_map1 : PropMap) (verbose : bool)
    (sf : string) (seed : Mapping) (r : MatchResult) :
  validate molecule0 molecule1 scoring_function matches prematch = Py.Ok sf →
  seed_prematch molecule0 molecule1 prematch = Py.Ok seed →
  matchAtoms molecule0 molecule1 scoring_function matches return_scores
    prematch timeout match_light property_map0 property_map1 verbose
  = Py.Ok r →
  ∀ mapping, mapping ∈ mappings_of r →
    mapping ∈ findMCSmatches (_getSireMolecule molecule0)
                (_getSireMolecule molecule1) seed (sire_time timeout)
                match_light property_map0 property_map1 6 verbose ∨
    mapping ∈ findMCSmatches (_getSireMolecule molecule0)
                (_getSireMolecule molecule1) seed (sire_time timeout)
                match_light property_map0 property_map1 0 verbose.
Proof.
  intros Hvalid Hseed.
  rewrite (matchAtoms_searches _ _ _ _ _ _ _ _ _ _ _ sf seed Hvalid Hseed).
  match goal with
  | |- context [take_larger ?a ?b] =>
      set (strict := a); set (widened := b);
      set (found := take_larger strict widened)
  end.
  assert (Hfound : ∀ mapping, mapping ∈ found →
                     mapping ∈ strict ∨ mapping ∈ widened).
  { intros mapping. unfold found.
    destruct (take_larger_either strict widened) as [-> | ->]; auto. }
  unfold return_matches.
  destruct (length found =? 0)%nat.
  { intros [= <-] mapping Hin. by apply elem_of_nil in Hin. }
  destruct (_score_rmsd (_getSireMolecule molecule0) (_getSireMolecule molecule1)
              found (String.eqb sf "RMSDALIGN"))
    as [[sorted_mappings sorted_scores] | e] eqn:Hret; simpl.
  2:{ by destruct (matches =? 1)%Z, return_scores. }
  apply _score_rmsd_Permutation in Hret.
  assert (Hsorted : ∀ mapping, mapping ∈ sorted_mappings →
                      mapping ∈ strict ∨ mapping ∈ widened).
  { intros mapping Hin. apply Hfound. by rewrite <- Hret. }
  destruct (matches =? 1)%Z.
  - destruct sorted_mappings as [| best others]; simpl; [done |].
    intros [= <-] mapping Hin. simpl in Hin.
    apply list_elem_of_singleton in Hin as ->. apply Hsorted. by left.
  - destruct return_scores; intros [= <-] mapping Hin; simpl in Hin;
      apply Hsorted; by apply (subseteq_take (Z.to_nat matches)).
Qed.

(** Asking for more matches than the kept search found returns them all:
    the list is a permutation of what was found, and with [return_scores]
    there is one score for each. *)
Theorem asking_for_more_than_found_returns_all (molecule0 molecule1 : Molecule)
    (scoring_function : string) (matches : Z)
    (prematch : Mapping) (timeout : Time) (match_light : bool)
    (property_map0 property_map1 : PropMap) (verbose : bool)
    (sf : string) (seed : Mapping) :
  let mol0 := _getSireMolecule molecule0 in
  let mol1 := _getSireMolecule molecule1 in
  let found :=
    take_larger
      (findMCSmatches mol0 mol1 seed (sire_time timeout) match_light
         property_map0 property_map1 6 verbose)
      (findMCSmatches mol0 mol1 seed (sire_time timeout) match_light
         property_map0 property_map1 0 verbose) in
  validate molecule0 molecule1 scoring_function matches prematch = Py.Ok sf →
  seed_prematch molecule0 molecule1 prematch = Py.Ok seed →
  found ≠ [] →
  (String.eqb sf "RMSDALIGN" = true → fits_succeed mol0 mol1 found) →
  (1 < matches)%Z → (Z.of_nat (length found) ≤ matches)%Z →
  ∃ sorted_mappings sorted_scores,
    matchAtoms molecule0 molecule1 scoring_function matches false
      prematch timeout match_light property_map0 property_map1 verbose
    = Py.Ok (RetList sorted_mappings) ∧
    matchAtoms molecule0 molecule1 scoring_function matches true
      prematch timeout match_light property_map0 property_map1 verbose
    = Py.Ok (RetTuple sorted_mappings sorted_scores) ∧
    sorted_mappings ≡ₚ found ∧
    length sorted_scores = length found.
Proof.
  intros mol0 mol1 found Hvalid Hseed Hne Hfits Hmany Hall.
  destruct (_score_rmsd_returns mol0 mol1 found _ Hfits)
    as (sorted_mappings & sorted_scores & Hret & Hlen_m & Hlen_s).
  exists sorted_mappings, sorted_scores.
  rewrite !(matchAtoms_searches _ _ _ _ _ _ _ _ _ _ _ sf seed Hvalid Hseed).
  fold mol0 mol1 found. unfold return_matches.
  assert (Hlen : (length found =? 0)%nat = false).
  { apply Nat.eqb_neq. by destruct found. }
  assert (Hone : (matches =? 1)%Z = false) by (apply Z.eqb_neq; lia).
  rewrite Hlen, Hone, Hret. simpl.
  rewrite !take_ge by lia.
  repeat split; [| done]. by apply (_score_rmsd_Permutation _ _ _ _ _ _ Hret).
Qed.

End ReturnedMappings.

Section Merge.
Context `{Merger}.

(** With a mapping of the caller, [merge] checks its range and merges the
    molecules as they are given: no match is searched and the first molecule
    is not aligned.  A pair out of range raises [ValueError] and nothing is
    merged. *)
Theorem merge_with_mapping_skips_alignment (molecule0 molecule1 : Molecule)
    (mapping : Mapping) (allow_ring_breaking : bool)
    (property_map0 property_map1 : PropMap) :
  (Forall (in_range molecule0 molecule1) mapping →
   merge molecule0 molecule1 (Some mapping) allow_ring_breaking
     property_map0 property_map1
   = _merge molecule0 molecule1 (Some mapping) allow_ring_breaking
       property_map0 property_map1) ∧
  (¬ Forall (in_range molecule0 molecule1) mapping →
   ∃ e, merge molecule0 molecule1 (Some mapping) allow_ring_breaking
          property_map0 property_map1 = Py.Raise e ∧
        Py.exn_type e = Py.ValueError).
Proof.
  split.
  - intros Hall. unfold merge.
    by rewrite (check_in_range_Ok "mapping" _ _ _ Hall).
  - intros Hbad.
    destruct (check_in_range_Raise "mapping" _ _ _ Hbad) as (e & He & Hty).
    exists e. split; [| done]. unfold merge. by rewrite He.
Qed.

(** Without a mapping, [merge] takes the best match of [matchAtoms] with
    its default options, aligns the first molecule on it and merges the
    aligned molecule with the second one under that mapping; when the fit
    fails the call ends with [AlignmentError] and nothing is merged. *)
Theorem merge_without_mapping_aligns_first (molecule0 molecule1 : Molecule)
    (allow_ring_breaking : bool) (property_map0 property_map1 : PropMap)
    (mapping : Mapping) :
  matchAtoms molecule0 molecule1 "RMSD align" 1 false [] default_timeout
    true property_map0 property_map1 false = Py.Ok (RetMapping mapping) →
  Forall (in_range molecule0 molecule1) mapping →
  (∀ aligned,
     align (_getSireMolecule molecule0) (_getSireMolecule molecule1) mapping
     = Py.Ok aligned →
     merge molecule0 molecule1 None allow_ring_breaking
       property_map0 property_map1
     = _merge (_Molecule aligned) molecule1 (Some mapping) allow_ring_breaking
         property_map0 property_map1) ∧
  (∀ e,
     align (_getSireMolecule molecule0) (_getSireMolecule molecule1) mapping
     = Py.Raise e →
     ∃ e', merge molecule0 molecule1 None allow_ring_breaking
             property_map0 property_map1 = Py.Raise e' ∧
           Py.exn_type e' = Py.AlignmentError).
Proof.
  intros Hmatch Hrange. split.
  - intros aligned Hfit. unfold merge. rewrite Hmatch. simpl.
    unfold rmsdAlign. rewrite (check_in_range_Ok "mapping" _ _ _ Hrange). simpl.
    by rewrite Hfit.
  - intros e Hfit. eexists. unfold merge. rewrite Hmatch. simpl.
    unfold rmsdAlign. rewrite (check_in_range_Ok "mapping" _ _ _ Hrange). simpl.
    rewrite Hfit. simpl. by split.
Qed.

End Merge.

Lemma returned_mappings_were_found_witness :
  @validate demo_toolkit demo_molecule0 demo_molecule1 "RMSD" 2 [] = Py.Ok "RMSD" ∧
  @seed_prematch demo_toolkit demo_molecule0 demo_molecule1 [] = Py.Ok [] ∧
  @matchAtoms demo_toolkit demo_molecule0 demo_molecule1 "RMSD" 2 false
    [] 5%Z true [] [] false
  = Py.Ok (RetList [ [(0, 0); (1, 1)]; [(0, 1); (1, 0)] ]%Z) ∧
  ([(0, 0); (1, 1)]%Z ∈ demo_findMCS demo_molecule0 demo_molecule1 6 ∨
   [(0, 0); (1, 1)]%Z ∈ demo_findMCS demo_molecule0 demo_molecule1 0).
Proof.
  assert (Hvalid : @validate demo_toolkit demo_molecule0 demo_molecule1
                     "RMSD" 2 [] = Py.Ok "RMSD") by (vm_compute; reflexivity).
  assert (Hseed : @seed_prematch demo_toolkit demo_molecule0 demo_molecule1 []
                  = Py.Ok []) by (vm_compute; reflexivity).
  assert (Hrun : @matchAtoms demo_toolkit demo_molecule0 demo_molecule1 "RMSD" 2
                   false [] 5%Z true [] [] false
                 = Py.Ok (RetList [ [(0, 0); (1, 1)]; [(0, 1); (1, 0)] ]%Z))
    by (vm_compute; reflexivity).
  split; [exact Hvalid |]. split; [exact Hseed |]. split; [exact Hrun |].
  apply (@returned_mappings_were_found demo_toolkit
           demo_molecule0 demo_molecule1 "RMSD" 2%Z false [] 5%Z true [] [] false
           "RMSD" [] _ Hvalid Hseed Hrun).
  apply list_elem_of_here.
Defined.

Lemma asking_for_more_than_found_returns_all_witness :
  @validate demo_toolkit demo_molecule0 demo_molecule1 "RMSD align" 5 []
  = Py.Ok "RMSDALIGN" ∧
  @seed_prematch demo_toolkit demo_molecule0 demo_molecule1 [] = Py.Ok [] ∧
  ∃ sorted_mappings,
    @matchAtoms demo_toolkit demo_molecule0 demo_molecule1 "RMSD align" 5 false
      [] 5%Z true [] [] false = Py.Ok (RetList sorted_mappings) ∧
    sorted_mappings ≡ₚ demo_findMCS demo_molecule0 demo_molecule1 0.
Proof.
  assert (Hvalid : @validate demo_toolkit demo_molecule0 demo_molecule1
                     "RMSD align" 5 [] = Py.Ok "RMSDALIGN")
    by (vm_compute; reflexivity).
  assert (Hseed : @seed_prematch demo_toolkit demo_molecule0 demo_molecule1 []
                  = Py.Ok []) by (vm_compute; reflexivity).
  split; [exact Hvalid |]. split; [exact Hseed |].
  destruct (@asking_for_more_than_found_returns_all demo_toolkit
              demo_molecule0 demo_molecule1 "RMSD align" 5%Z [] 5%Z true [] []
              false "RMSDALIGN" [] Hvalid Hseed ltac:(discriminate)
              (λ _, demo_fits_succeed) ltac:(lia) ltac:(simpl; lia))
    as (sorted_mappings & sorted_scores & Hlist & _ & Hperm & _).
  exists sorted_mappings. split; [exact Hlist | exact Hperm].
Defined.

Lemma merge_with_mapping_skips_alignment_witness :
  Forall (@in_range demo_toolkit demo_molecule0 demo_molecule1) [(0, 2)]%Z ∧
  @merge demo_toolkit demo_merger demo_molecule0 demo_molecule1
    (Some [(0, 2)]%Z) false [] []
  = Py.Ok [0; 5; 9; 1; 4; 7]%Z ∧
  ¬ Forall (@in_range demo_toolkit demo_molecule0 demo_molecule1) [(0, 3)]%Z ∧
  ∃ e, @merge demo_toolkit demo_merger demo_molecule0 demo_molecule1
         (Some [(0, 3)]%Z) false [] [] = Py.Raise e ∧
       Py.exn_type e = Py.ValueError.
Proof.
  assert (Hin : Forall (@in_range demo_toolkit demo_molecule0 demo_molecule1)
                  [(0, 2)]%Z).
  { constructor; [| constructor]. vm_compute. repeat split; discriminate. }
  split; [exact Hin |]. split.
  - exact (proj1 (@merge_with_mapping_skips_alignment demo_toolkit demo_merger
                    demo_molecule0 demo_molecule1 [(0, 2)]%Z false [] []) Hin).
  - split; [exact demo_out_of_range |].
    exact (proj2 (@merge_with_mapping_skips_alignment demo_toolkit demo_merger
                    demo_molecule0 demo_molecule1 [(0, 3)]%Z false [] [])
             demo_out_of_range).
Defined.

Lemma merge_without_mapping_aligns_first_witness :
  @matchAtoms demo_toolkit demo_molecule0 demo_molecule1 "RMSD align" 1 false
    [] 5%Z true [] [] false = Py.Ok (RetMapping [(0, 0); (1, 1)]%Z) ∧
  Forall (@in_range demo_toolkit demo_molecule0 demo_molecule1)
    [(0, 0); (1, 1)]%Z ∧
  @merge demo_toolkit demo_merger demo_molecule0 demo_molecule1 None false [] []
  = Py.Ok [1; 6; 10; 1; 4; 7]%Z.
Proof.
  assert (Hin : Forall (@in_range demo_toolkit demo_molecule0 demo_molecule1)
                  [(0, 0); (1, 1)]%Z).
  { repeat (constructor; [vm_compute; repeat split; discriminate |]).
    constructor. }
  split; [exact matchAtoms_best_of_two |]. split; [exact Hin |].
  exact (proj1 (@merge_without_mapping_aligns_first demo_toolkit demo_merger
                  demo_molecule0 demo_molecule1 false [] [] [(0, 0); (1, 1)]%Z
                  matchAtoms_best_of_two Hin) [1; 6; 10]%Z eq_refl).
Defined.

End AlignFacts.
